(** * Dynamic withdrawal strategy: projection and Guyton-Klinger simulation

    A shallow embedding of the numeric core of the application component
    ([src/unnamed/part_001], the version of [App.tsx] that has the
    withdrawal simulator): [projectionData], [generateRandomReturn],
    [runGKSimulation], [calculateSuccessRate] and [calculateMedianFinal].

    Numbers.  A TypeScript [number] is embedded in two ways.

    In [JS] it is an exact rational extended with the three IEEE special
    values the program can produce ([NaN], [+Infinity], [-Infinity]).
    Finite arithmetic is exact there: there is no rounding to 53 bits, no
    overflow, and a single zero, so a division of a positive number by
    zero is [+Infinity].  Every finite result is kept in lowest terms
    ([Qred]); results of concrete runs can then be compared with [=].
    This embedding carries the properties of the control flow, of the
    order of numbers and of their signs.  The runs evaluated in it have
    whole-number balances; a quotient such as a withdrawal rate is shown
    as the exact fraction where a double holds the nearest binary64
    value.

    In [Double] it is a binary64 double with the kernel's IEEE 754
    arithmetic.  The projector is embedded there a second time, for the
    properties that depend on how its additions round.

    Effects.  The only effect of the program is [Math.random]; the
    simulator threads the number of calls made so far through a small
    state monad, and the host's [Math] object is an argument.

    Loops.  Both horizons ([projection.years] and the [years] argument of
    [runGKSimulation]) are whole numbers of years, so both [for] loops are
    structural recursions on the number of passes that remain. *)

From Stdlib Require Import String.
From Stdlib Require Import QArith Qround Qabs Qreduction ZArith.
From Stdlib Require Import Uint63 PrimFloat FloatOps SpecFloat.
From Stdlib Require Import List Bool Arith Lia Lqa.
From Stdlib Require Import Permutation Sorted.
Import ListNotations.

Set Implicit Arguments.

(** ** JavaScript numbers *)

Module JS.

Inductive number : Type :=
| NaN
| NegInf
| Fin (q : Q)
| PosInf.

Definition of_Z (z : Z) : number := Fin (inject_Z z).
Definition of_nat (n : nat) : number := of_Z (Z.of_nat n).

Definition is_finite (x : number) : bool :=
  match x with Fin _ => true | _ => false end.

Definition is_nan (x : number) : bool :=
  match x with NaN => true | _ => false end.

(** Sign of a number that is not [NaN]; zero counts as positive, as the
    embedding has one zero. *)
Definition negative (x : number) : bool :=
  match x with
  | NegInf => true
  | Fin q => negb (Qle_bool 0 q)
  | _ => false
  end.

Definition is_zero (x : number) : bool :=
  match x with Fin q => Qeq_bool q 0 | _ => false end.

Definition inf_of_sign (neg : bool) : number :=
  if neg then NegInf else PosInf.

Definition add (x y : number) : number :=
  match x, y with
  | NaN, _ | _, NaN => NaN
  | PosInf, NegInf | NegInf, PosInf => NaN
  | PosInf, _ | _, PosInf => PosInf
  | NegInf, _ | _, NegInf => NegInf
  | Fin a, Fin b => Fin (Qred (a + b))
  end.

Definition sub (x y : number) : number :=
  match x, y with
  | NaN, _ | _, NaN => NaN
  | PosInf, PosInf | NegInf, NegInf => NaN
  | PosInf, _ | _, NegInf => PosInf
  | NegInf, _ | _, PosInf => NegInf
  | Fin a, Fin b => Fin (Qred (a - b))
  end.

Definition mul (x y : number) : number :=
  match x, y with
  | NaN, _ | _, NaN => NaN
  | Fin a, Fin b => Fin (Qred (a * b))
  | _, _ =>
      if is_zero x || is_zero y then NaN
      else inf_of_sign (xorb (negative x) (negative y))
  end.

Definition div (x y : number) : number :=
  match x, y with
  | NaN, _ | _, NaN => NaN
  | Fin a, Fin b =>
      if Qeq_bool b 0 then
        if Qeq_bool a 0 then NaN else inf_of_sign (negative x)
      else Fin (Qred (a / b))
  | Fin _, _ => Fin 0
  | _, Fin _ => inf_of_sign (xorb (negative x) (negative y))
  | _, _ => NaN
  end.

(** Comparisons: every comparison with [NaN] is false. *)
Definition ltb (x y : number) : bool :=
  match x, y with
  | NaN, _ | _, NaN => false
  | _, NegInf => false
  | NegInf, _ => true
  | PosInf, _ => false
  | Fin _, PosInf => true
  | Fin a, Fin b => negb (Qle_bool b a)
  end.

Definition gtb (x y : number) : bool := ltb y x.

Definition leb (x y : number) : bool :=
  match x, y with
  | NaN, _ | _, NaN => false
  | NegInf, _ => true
  | _, PosInf => true
  | _, NegInf => false
  | PosInf, _ => false
  | Fin a, Fin b => Qle_bool a b
  end.

(** [Math.max(x, y)], [Math.round(x)] (ties go up) and [Math.floor(x)]. *)
Definition Math_max (x y : number) : number :=
  match x, y with
  | NaN, _ | _, NaN => NaN
  | _, _ => if ltb x y then y else x
  end.

Definition Math_round (x : number) : number :=
  match x with
  | Fin q => of_Z (Qfloor (q + (1 # 2)))
  | _ => x
  end.

Definition Math_floor (x : number) : number :=
  match x with
  | Fin q => of_Z (Qfloor q)
  | _ => x
  end.

(** A number is falsy when it is zero or [NaN]. *)
Definition truthy (x : number) : bool :=
  negb (is_zero x || is_nan x).

(** [x || d] where [x] is a number or [undefined]. *)
Definition or_else (x : option number) (d : number) : number :=
  match x with
  | Some v => if truthy v then v else d
  | None => d
  end.

(** [a[a.length - 1]]: [undefined] on the empty array. *)
Definition last_elem {A : Type} (a : list A) : option A :=
  match length a with
  | O => None
  | S k => nth_error a k
  end.

(** [a[k]] for a number [k]: [undefined] unless [k] is an index of [a]. *)
Definition array_get {A : Type} (a : list A) (k : number) : option A :=
  match k with
  | Fin q =>
      if Qeq_bool q (inject_Z (Qfloor q)) && (0 <=? Qfloor q)%Z
      then nth_error a (Z.to_nat (Qfloor q))
      else None
  | _ => None
  end.

(** A finite number that is not negative. *)
Definition nonNegative (x : number) : Prop :=
  is_finite x = true /\ leb (of_Z 0) x = true.

(** The rational a finite number stands for. *)
Definition valQ (x : number) : Q :=
  match x with Fin q => q | _ => 0 end.

End JS.

Import JS.

Declare Scope num_scope.
Delimit Scope num_scope with num.
Bind Scope num_scope with number.
Infix "+" := add : num_scope.
Infix "-" := sub : num_scope.
Infix "*" := mul : num_scope.
Infix "/" := div : num_scope.
Infix "<?" := ltb : num_scope.
Infix ">?" := gtb : num_scope.
Infix "<=?" := leb : num_scope.

(** Decimal literals of the source. *)
Definition dec (n : Z) (d : positive) : number := Fin (Qred (n # d)).

(** ** Compound growth projection ([projectionData]) *)

Module Projection.

Local Open Scope num_scope.

Record InvestmentTarget : Type := {
  id : string;
  name : string;
  monthlyAmount : number;
  returnRate : number
}.

(** The horizon [years] is a whole number of years. *)
Record ProjectionParams : Type := {
  initialReturnRate : number;
  years : nat;
  targets : list InvestmentTarget
}.

Record YearlyResult : Type := {
  year : number;
  principal : number;
  interest : number;
  total : number
}.

(** The running totals of the loop: [principalInitial] never changes and
    is the argument [currentTotalValue] itself. *)
Record Running : Type := {
  valueFromInitial : number;
  targetValues : list number;
  principalNewTotal : number
}.

(** [a[idx]] read as a number: a missing element behaves as [NaN] in
    arithmetic. *)
Definition get (a : list number) (idx : nat) : number :=
  nth idx a NaN.

(** [a[idx] = v].  [targetValues] has one slot per target, so [idx] is
    always an index of it; an index outside it leaves the model unchanged. *)
Fixpoint set (a : list number) (idx : nat) (v : number) : list number :=
  match a, idx with
  | [], _ => []
  | _ :: a', O => v :: a'
  | x :: a', S i => x :: set a' i v
  end.

(** [a.forEach((x, idx) => ...)] with the loop state passed along. *)
Fixpoint forEach {A S : Type} (f : A -> nat -> S -> S)
         (a : list A) (idx : nat) (s : S) : S :=
  match a with
  | [] => s
  | x :: a' => forEach f a' (Datatypes.S idx) (f x idx s)
  end.

(** Body of [projection.targets.forEach]. *)
Definition growTarget (target : InvestmentTarget) (idx : nat)
           (st : Running) : Running :=
  let monthlyRate := returnRate target / of_Z 100 / of_Z 12 in
  (* Add Contribution *)
  let tv := set (targetValues st) idx
                (get (targetValues st) idx + monthlyAmount target) in
  let pnt := principalNewTotal st + monthlyAmount target in
  (* Compound *)
  let tv := set tv idx (get tv idx * (of_Z 1 + monthlyRate)) in
  {| valueFromInitial := valueFromInitial st;
     targetValues := tv;
     principalNewTotal := pnt |}.

(** Body of the month loop. *)
Definition month (projection : ProjectionParams) (st : Running) : Running :=
  let monthlyRateInitial := initialReturnRate projection / of_Z 100 / of_Z 12 in
  let st :=
    {| valueFromInitial := valueFromInitial st * (of_Z 1 + monthlyRateInitial);
       targetValues := targetValues st;
       principalNewTotal := principalNewTotal st |} in
  forEach growTarget (targets projection) 0%nat st.

(** [for (let m = 0; m < 12; m++)], counted down. *)
Fixpoint months (projection : ProjectionParams) (m : nat)
         (st : Running) : Running :=
  match m with
  | O => st
  | S m' => months projection m' (month projection st)
  end.

(** The snapshot pushed at the end of year [y]. *)
Definition snapshot (currentTotalValue : number) (y : nat)
           (st : Running) : YearlyResult :=
  let principalInitial := currentTotalValue in
  let totalNewValue := fold_left add (targetValues st) (of_Z 0) in
  let totalValue := valueFromInitial st + totalNewValue in
  let totalPrincipal := principalInitial + principalNewTotal st in
  {| year := of_nat y;
     principal := Math_round totalPrincipal;
     interest := Math_round (totalValue - totalPrincipal);
     total := Math_round totalValue |}.

(** [for (let y = 1; y <= projection.years; y++)]: [n] years remain and
    [y] is the loop variable. *)
Fixpoint yearLoop (currentTotalValue : number) (projection : ProjectionParams)
         (n : nat) (y : nat) (st : Running)
         (data : list YearlyResult) : list YearlyResult :=
  match n with
  | O => data
  | S n' =>
      let st := months projection 12 st in
      yearLoop currentTotalValue projection n' (S y) st
               (data ++ [snapshot currentTotalValue y st])
  end.

(** The running totals before the first year. *)
Definition initialRunning (currentTotalValue : number)
           (projection : ProjectionParams) : Running :=
  {| valueFromInitial := currentTotalValue;
     targetValues := map (fun _ => of_Z 0) (targets projection);
     principalNewTotal := of_Z 0 |}.

Definition projectionData (currentTotalValue : number)
           (projection : ProjectionParams) : list YearlyResult :=
  (* Initial State *)
  let data :=
    [ {| year := of_Z 0;
         principal := Math_round currentTotalValue;
         interest := of_Z 0;
         total := Math_round currentTotalValue |} ] in
  (* Running totals *)
  yearLoop currentTotalValue projection (years projection) 1
           (initialRunning currentTotalValue projection) data.

(** The running totals after [k] whole years. *)
Fixpoint runningAfter (currentTotalValue : number)
         (projection : ProjectionParams) (k : nat) : Running :=
  match k with
  | O => initialRunning currentTotalValue projection
  | S k' => months projection 12
                   (runningAfter currentTotalValue projection k')
  end.

(** The exact sum of a list of finite numbers. *)
Fixpoint sumQ (amounts : list number) : Q :=
  match amounts with
  | [] => 0
  | a :: rest => valQ a + sumQ rest
  end.

(** *** Concrete inputs *)

(** One target of 100 a month at 6%, on holdings of 1000 at 5%, two
    years. *)
Definition sampleProjection : ProjectionParams :=
  {| initialReturnRate := of_Z 5;
     years := 2;
     targets := [ {| id := "1"; name := "fund";
                     monthlyAmount := of_Z 100; returnRate := of_Z 6 |} ] |}.

End Projection.

(** ** The projector over binary64

    The projector adds the same contributions to [principalNewTotal] and
    to the balances of the targets in different orders, month after
    month, so its figures depend on how each addition rounds.  Here its
    numbers are the doubles of the source with the kernel's IEEE 754
    binary64 arithmetic, round to nearest, ties to even. *)

Module Double.

Local Open Scope float_scope.

Definition number : Set := float.

(** Whole numbers below 2^63 in magnitude; those below 2^53 are exact. *)
Definition of_Z (z : Z) : number :=
  if (z <? 0)%Z then - of_uint63 (Uint63.of_Z (- z))
  else of_uint63 (Uint63.of_Z z).

Definition of_nat (n : nat) : number := of_Z (Z.of_nat n).

(** The decimal literal [n / d]: the double nearest to the quotient of two
    whole numbers below 2^53. *)
Definition dec (n : Z) (d : positive) : number := of_Z n / of_Z (Z.pos d).

(** [Math.round(x)]: the whole number nearest to [x], a tie going up; a
    result of zero keeps the sign of [x].  A double [m * 2^e] with
    [e >= 0] is whole; otherwise [floor (x + 1/2)] is computed on the
    whole numbers [m] and [2^-e]. *)
Definition Math_round (x : number) : number :=
  match Prim2SF x with
  | S754_finite s m e =>
      if (0 <=? e)%Z then x
      else
        let d := (2 ^ (- e))%Z in
        let n := if s then Z.neg m else Z.pos m in
        let r := ((2 * n + d) / (2 * d))%Z in
        if (r =? 0)%Z then (if s then neg_zero else zero) else of_Z r
  | _ => x
  end.

Record InvestmentTarget : Type := {
  id : string;
  name : string;
  monthlyAmount : number;
  returnRate : number
}.

Record ProjectionParams : Type := {
  initialReturnRate : number;
  years : nat;
  targets : list InvestmentTarget
}.

Record YearlyResult : Type := {
  year : number;
  principal : number;
  interest : number;
  total : number
}.

Record Running : Type := {
  valueFromInitial : number;
  targetValues : list number;
  principalNewTotal : number
}.

Definition get (a : list number) (idx : nat) : number :=
  nth idx a nan.

Fixpoint set (a : list number) (idx : nat) (v : number) : list number :=
  match a, idx with
  | [], _ => []
  | _ :: a', O => v :: a'
  | x :: a', S i => x :: set a' i v
  end.

(** Body of [projection.targets.forEach]. *)
Definition growTarget (target : InvestmentTarget) (idx : nat)
           (st : Running) : Running :=
  let monthlyRate := returnRate target / of_Z 100 / of_Z 12 in
  (* Add Contribution *)
  let tv := set (targetValues st) idx
                (get (targetValues st) idx + monthlyAmount target) in
  let pnt := principalNewTotal st + monthlyAmount target in
  (* Compound *)
  let tv := set tv idx (get tv idx * (of_Z 1 + monthlyRate)) in
  {| valueFromInitial := valueFromInitial st;
     targetValues := tv;
     principalNewTotal := pnt |}.

(** Body of the month loop. *)
Definition month (projection : ProjectionParams) (st : Running) : Running :=
  let monthlyRateInitial := initialReturnRate projection / of_Z 100 / of_Z 12 in
  let st :=
    {| valueFromInitial := valueFromInitial st * (of_Z 1 + monthlyRateInitial);
       targetValues := targetValues st;
       principalNewTotal := principalNewTotal st |} in
  Projection.forEach growTarget (targets projection) 0%nat st.

Fixpoint months (projection : ProjectionParams) (m : nat)
         (st : Running) : Running :=
  match m with
  | O => st
  | S m' => months projection m' (month projection st)
  end.

(** The snapshot pushed at the end of year [y]. *)
Definition snapshot (currentTotalValue : number) (y : nat)
           (st : Running) : YearlyResult :=
  let principalInitial := currentTotalValue in
  let totalNewValue := fold_left PrimFloat.add (targetValues st) (of_Z 0) in
  let totalValue := valueFromInitial st + totalNewValue in
  let totalPrincipal := principalInitial + principalNewTotal st in
  {| year := of_nat y;
     principal := Math_round totalPrincipal;
     interest := Math_round (totalValue - totalPrincipal);
     total := Math_round totalValue |}.

Fixpoint yearLoop (currentTotalValue : number) (projection : ProjectionParams)
         (n : nat) (y : nat) (st : Running)
         (data : list YearlyResult) : list YearlyResult :=
  match n with
  | O => data
  | S n' =>
      let st := months projection 12 st in
      yearLoop currentTotalValue projection n' (S y) st
               (data ++ [snapshot currentTotalValue y st])
  end.

Definition initialRunning (currentTotalValue : number)
           (projection : ProjectionParams) : Running :=
  {| valueFromInitial := currentTotalValue;
     targetValues := map (fun _ => of_Z 0) (targets projection);
     principalNewTotal := of_Z 0 |}.

Definition projectionData (currentTotalValue : number)
           (projection : ProjectionParams) : list YearlyResult :=
  (* Initial State *)
  let data :=
    [ {| year := of_Z 0;
         principal := Math_round currentTotalValue;
         interest := of_Z 0;
         total := Math_round currentTotalValue |} ] in
  (* Running totals *)
  yearLoop currentTotalValue projection (years projection) 1
           (initialRunning currentTotalValue projection) data.

(** The running totals after [k] whole years. *)
Fixpoint runningAfter (currentTotalValue : number)
         (projection : ProjectionParams) (k : nat) : Running :=
  match k with
  | O => initialRunning currentTotalValue projection
  | S k' => months projection 12
                   (runningAfter currentTotalValue projection k')
  end.

(** What [principalNewTotal] holds after [m] months when it held [q]
    before: each month adds the amounts one after the other. *)
Definition contributed (amounts : list number) (m : nat) (q : number)
  : number :=
  Nat.iter m (fun q => fold_left PrimFloat.add amounts q) q.

(** The closed formula [startingValue + 12 * year * sum of monthlyAmounts],
    evaluated in the same arithmetic. *)
Definition sumMonthlyAmounts (ts : list InvestmentTarget) : number :=
  fold_left PrimFloat.add (map monthlyAmount ts) (of_Z 0).

Definition closedFormula (currentTotalValue : number)
           (projection : ProjectionParams) (y : nat) : number :=
  currentTotalValue + of_Z 12 * of_nat y * sumMonthlyAmounts (targets projection).

(** Holdings of 10,010.42 and one target of 1,463.46 a month, four years. *)
Definition savingsPlan (rate : number) : ProjectionParams :=
  {| initialReturnRate := rate;
     years := 4;
     targets := [ {| id := "1"; name := "fund";
                     monthlyAmount := dec 146346 100;
                     returnRate := rate |} ] |}.

End Double.

(** ** Guyton-Klinger withdrawal simulation *)

Module GK.

Local Open Scope num_scope.

Record WithdrawalParams : Type := {
  initialRate : number;
  upperGuardrail : number;
  lowerGuardrail : number;
  expectedAPY : number;
  volatility : number;
  simulations : number;
  years : nat
}.

Inductive Guardrail : Type := upper | lower.

(** [guardrailTriggered] is ['upper' | 'lower' | null]. *)
Record WithdrawalResult : Type := {
  year : number;
  portfolioValue : number;
  withdrawalAmount : number;
  withdrawalRate : number;
  returnRate : number;
  inflationAdjusted : bool;
  guardrailTriggered : option Guardrail
}.

(** *** The host's [Math] object

    [Math.log], [Math.sqrt], [Math.cos] and [Math.PI] are host functions
    and are taken as given.  [Math.random] is modelled by the sequence of
    values its successive calls return; the state threaded through the
    program is the number of calls made so far. *)
Record MathObject : Type := {
  Math_log : number -> number;
  Math_sqrt : number -> number;
  Math_cos : number -> number;
  Math_PI : number;
  Math_random : nat -> number
}.

Definition Rand (A : Type) : Type := nat -> A * nat.

Definition ret {A : Type} (a : A) : Rand A := fun calls => (a, calls).

Definition bind {A B : Type} (c : Rand A) (k : A -> Rand B) : Rand B :=
  fun calls => let (a, calls') := c calls in k a calls'.

Notation "x <- c ;; k" := (bind c (fun x => k))
  (at level 61, c at next level, right associativity).

Section Simulation.

Variable Math : MathObject.

Definition random : Rand number :=
  fun calls => (Math_random Math calls, S calls).

Definition generateRandomReturn (mean stdDev : number) : Rand number :=
  u1 <- random ;;
  u2 <- random ;;
  let z := Math_sqrt Math (of_Z (-2) * Math_log Math u1)
           * Math_cos Math (of_Z 2 * Math_PI Math * u2) in
  ret (mean + z * stdDev).

(** Step 4 of the loop body: the withdrawal of the next year and the two
    flags of this year's record. *)
Definition applyGKRules (params : WithdrawalParams)
           (initialWithdrawalRate currentRate withdrawalAmount : number)
           (portfolioGained : bool) : number * option Guardrail * bool :=
  let nextWithdrawal := withdrawalAmount in
  (* Capital Preservation Rule (Upper Guardrail) *)
  if currentRate >?
       initialWithdrawalRate * (of_Z 1 + upperGuardrail params / of_Z 100)
  then (nextWithdrawal * dec 9 10, Some upper, false)
  (* Prosperity Rule (Lower Guardrail) *)
  else if currentRate <?
       initialWithdrawalRate * (of_Z 1 - lowerGuardrail params / of_Z 100)
  then (nextWithdrawal * dec 11 10, Some lower, false)
  (* Inflation Rule *)
  else if portfolioGained
  then (nextWithdrawal * dec 103 100, None, true)
  else (nextWithdrawal, None, false).

(** One pass through the loop body once the year's return is sampled: the
    record pushed, and the values of [portfolioValue] and
    [withdrawalAmount] at the end of the pass. *)
Definition yearBody (params : WithdrawalParams)
           (initialWithdrawalRate : number) (year : nat)
           (portfolioValue withdrawalAmount randomReturn : number)
  : WithdrawalResult * number * number :=
  (* 1. Deduct withdrawal at year start *)
  let portfolioValue := portfolioValue - withdrawalAmount in
  (* 2. Apply random market return *)
  let previousValue := portfolioValue in
  let portfolioValue := portfolioValue * (of_Z 1 + randomReturn) in
  let portfolioGained := portfolioValue >? previousValue in
  (* 3. Calculate current withdrawal rate *)
  let currentRate := withdrawalAmount / portfolioValue in
  (* 4. Apply GK Rules for NEXT year's withdrawal *)
  let '(nextWithdrawal, guardrailTriggered, inflationAdjusted) :=
    applyGKRules params initialWithdrawalRate currentRate withdrawalAmount
                 portfolioGained in
  ({| year := of_nat year;
      portfolioValue := Math_max (of_Z 0) portfolioValue;
      withdrawalAmount := withdrawalAmount;
      withdrawalRate := currentRate * of_Z 100;
      returnRate := randomReturn * of_Z 100;
      inflationAdjusted := inflationAdjusted;
      guardrailTriggered := guardrailTriggered |},
   portfolioValue, nextWithdrawal).

(** [for (let year = 1; year <= years; year++)]: [n] passes remain and
    [year] is the loop variable; the loop is left early once
    [portfolioValue <= 0]. *)
Fixpoint yearLoop (params : WithdrawalParams) (initialWithdrawalRate : number)
         (n : nat) (year : nat) (portfolioValue withdrawalAmount : number)
         (results : list WithdrawalResult) : Rand (list WithdrawalResult) :=
  match n with
  | O => ret results
  | S n' =>
      randomReturn <- generateRandomReturn
                        (expectedAPY params / of_Z 100)
                        (volatility params / of_Z 100) ;;
      let '(result, portfolioValue, nextWithdrawal) :=
        yearBody params initialWithdrawalRate year
                 portfolioValue withdrawalAmount randomReturn in
      let results := results ++ [result] in
      (* Stop if portfolio depleted *)
      if portfolioValue <=? of_Z 0 then ret results
      else yearLoop params initialWithdrawalRate n' (S year)
                    portfolioValue nextWithdrawal results
  end.

Definition runGKSimulation (startingValue : number)
           (params : WithdrawalParams) (years : nat)
  : Rand (list WithdrawalResult) :=
  let portfolioValue := startingValue in
  let withdrawalAmount := startingValue * (initialRate params / of_Z 100) in
  let initialWithdrawalRate := initialRate params / of_Z 100 in
  yearLoop params initialWithdrawalRate years 1
           portfolioValue withdrawalAmount [].

(** The deviate [z] that the call of [generateRandomReturn] starting at
    call number [calls] of [Math.random] computes, and the return the loop
    samples there. *)
Definition deviate (calls : nat) : number :=
  let u1 := Math_random Math calls in
  let u2 := Math_random Math (S calls) in
  Math_sqrt Math (of_Z (-2) * Math_log Math u1)
  * Math_cos Math (of_Z 2 * Math_PI Math * u2).

Definition sampledReturn (params : WithdrawalParams) (calls : nat) : number :=
  fst (generateRandomReturn (expectedAPY params / of_Z 100)
                            (volatility params / of_Z 100) calls).

(** The records the loop pushes when it is entered with [n] passes to go,
    and the records of a run; [calls] calls of [Math.random] have been
    made before. *)
Definition loopRecords (params : WithdrawalParams) (n year : nat)
           (portfolioValue withdrawalAmount : number) (calls : nat)
  : list WithdrawalResult :=
  fst (yearLoop params (initialRate params / of_Z 100) n year
                portfolioValue withdrawalAmount [] calls).

Definition runRecords (startingValue : number) (params : WithdrawalParams)
           (years calls : nat) : list WithdrawalResult :=
  fst (runGKSimulation startingValue params years calls).

End Simulation.

(** *** Quantities of one simulated year, read off a run

    [rs] are the records of a run from [startingValue]; [i] counts years
    from 0.  The balance a year starts with is the balance the year
    before reported (a year that is not the last reports its balance
    unchanged). *)
Definition balanceBefore (startingValue : number)
           (rs : list WithdrawalResult) (i : nat) : number :=
  match i with
  | O => startingValue
  | S j => match nth_error rs j with
           | Some r => portfolioValue r
           | None => NaN
           end
  end.

(** The guardrail conditions of the source, as functions of the rate. *)
Definition upperCrossed (params : WithdrawalParams) (currentRate : number)
  : bool :=
  currentRate >?
    (initialRate params / of_Z 100)
    * (of_Z 1 + upperGuardrail params / of_Z 100).

Definition lowerCrossed (params : WithdrawalParams) (currentRate : number)
  : bool :=
  currentRate <?
    (initialRate params / of_Z 100)
    * (of_Z 1 - lowerGuardrail params / of_Z 100).

(** The rule table of the specification: which withdrawal the next year
    gets and which flags the year's record carries, given the year's
    rate, the withdrawal just applied and whether the portfolio gained. *)
Inductive NextYear (params : WithdrawalParams)
          (currentRate current : number) (gained : bool)
  : number -> option Guardrail -> bool -> Prop :=
| rule_upper :
    upperCrossed params currentRate = true ->
    NextYear params currentRate current gained
             (current * dec 9 10) (Some upper) false
| rule_lower :
    upperCrossed params currentRate = false ->
    lowerCrossed params currentRate = true ->
    NextYear params currentRate current gained
             (current * dec 11 10) (Some lower) false
| rule_inflation :
    upperCrossed params currentRate = false ->
    lowerCrossed params currentRate = false ->
    gained = true ->
    NextYear params currentRate current gained
             (current * dec 103 100) None true
| rule_unchanged :
    upperCrossed params currentRate = false ->
    lowerCrossed params currentRate = false ->
    gained = false ->
    NextYear params currentRate current gained current None false.

(** *** Statistics over a batch of runs *)

Definition calculateSuccessRate (sims : list (list WithdrawalResult))
  : number :=
  let successful :=
    length (filter (fun sim =>
                      match last_elem sim with
                      | Some final => portfolioValue final >? of_Z 0
                      | None => false
                      end) sims) in
  Math_round ((of_nat successful / of_nat (length sims)) * of_Z 100).

(** [Array.prototype.sort] with a comparator: a stable sort; [x] goes
    after [y] exactly when [compareFn(x, y)] is positive (a [NaN] result
    counts as zero). *)
Fixpoint sort_insert (compareFn : number -> number -> number)
         (x : number) (a : list number) : list number :=
  match a with
  | [] => [x]
  | y :: a' =>
      if compareFn x y >? of_Z 0 then y :: sort_insert compareFn x a'
      else x :: a
  end.

Definition sort (compareFn : number -> number -> number)
           (a : list number) : list number :=
  fold_right (sort_insert compareFn) [] a.

(** [sims.map(sim => sim[sim.length - 1]?.portfolioValue || 0)]: the
    terminal portfolio values of a batch, in the order of the runs. *)
Definition terminalValues (sims : list (list WithdrawalResult))
  : list number :=
  map (fun sim =>
         or_else (option_map portfolioValue (last_elem sim)) (of_Z 0))
      sims.

Definition calculateMedianFinal (sims : list (list WithdrawalResult))
  : option number :=
  let finalValues := sort (fun a b => a - b) (terminalValues sims) in
  array_get finalValues
            (Math_floor (of_nat (length finalValues) / of_Z 2)).

(** The runs that count as successful: those whose last record has a
    positive balance. *)
Definition succeeded (sim : list WithdrawalResult) : bool :=
  match rev sim with
  | final :: _ => portfolioValue final >? of_Z 0
  | [] => false
  end.

Definition successCount (sims : list (list WithdrawalResult)) : nat :=
  length (filter succeeded sims).

(** An array in ascending order, and an array without [NaN]. *)
Definition ascending (a : list number) : Prop :=
  Sorted (fun x y => leb x y = true) a.

Definition noNaN (a : list number) : Prop :=
  Forall (fun x => is_nan x = false) a.

(** The two middle positions of an ascending array of even length [n]:
    the lower median is the smaller of the two middle elements. *)
Definition lowerMedianIndex (n : nat) : nat := n / 2 - 1.
Definition upperMedianIndex (n : nat) : nat := n / 2.

(** *** Concrete inputs *)

(** A host for concrete runs: [Math.random] returns the values of
    [draws] in turn.  [Math.log], [Math.sqrt] and [Math.cos] have their
    special values; on the other arguments simple stand-ins are used (the
    runs below have volatility 0, so a finite deviate does not influence
    them). *)
Definition sampleMath (draws : nat -> number) : MathObject :=
  {| Math_log := fun x =>
       match x with
       | Fin q => if Qeq_bool q 0 then NegInf
                  else if Qle_bool q 0 then NaN
                  else Fin (Qred (q - 1))
       | PosInf => PosInf
       | _ => NaN
       end;
     Math_sqrt := fun x =>
       match x with
       | Fin q => if Qle_bool 0 q then Fin q else NaN
       | PosInf => PosInf
       | _ => NaN
       end;
     Math_cos := fun x =>
       match x with
       | Fin _ => Fin 1
       | _ => NaN
       end;
     Math_PI := Fin (355 # 113);
     Math_random := draws |}.

(** The example of the specification: rate 4, guardrails 20 and 20, no
    expected return, no volatility, 5 years. *)
Definition exampleParams : WithdrawalParams :=
  {| initialRate := of_Z 4;
     upperGuardrail := of_Z 20;
     lowerGuardrail := of_Z 20;
     expectedAPY := of_Z 0;
     volatility := of_Z 0;
     simulations := of_Z 1;
     years := 5 |}.

(** Guardrails too wide to matter in the runs below: flat returns with
    the rate of the example, and a return of 1% a year with a rate of 40. *)
Definition wideParams : WithdrawalParams :=
  {| initialRate := of_Z 4;
     upperGuardrail := of_Z 1000000000;
     lowerGuardrail := of_Z 1000000000;
     expectedAPY := of_Z 0;
     volatility := of_Z 0;
     simulations := of_Z 1;
     years := 5 |}.

Definition depletingParams : WithdrawalParams :=
  {| initialRate := of_Z 40;
     upperGuardrail := of_Z 1000000000;
     lowerGuardrail := of_Z 1000000000;
     expectedAPY := of_Z 1;
     volatility := of_Z 0;
     simulations := of_Z 1;
     years := 5 |}.

(** A one-year run that ends with the balance [v], and a batch of four
    such runs. *)
Definition runEndingWith (v : number) : list WithdrawalResult :=
  [ {| year := of_Z 1; portfolioValue := v; withdrawalAmount := of_Z 1;
       withdrawalRate := of_Z 4; returnRate := of_Z 0;
       inflationAdjusted := false; guardrailTriggered := None |} ].

Definition fourRuns : list (list WithdrawalResult) :=
  [ runEndingWith (of_Z 3); runEndingWith (of_Z 1);
    runEndingWith (of_Z 4); runEndingWith (of_Z 2) ].

(** A batch of three runs of which one succeeded: one ends with a
    balance of 3, one is depleted and one has no record. *)
Definition oneOfThree : list (list WithdrawalResult) :=
  [ runEndingWith (of_Z 3); runEndingWith (of_Z 0); [] ].

(** *** What a record says about its year

    [before] is the balance the year starts with, [randomReturn] the
    return sampled in it and [next] the withdrawal of the year after. *)
Definition describesYear (params : WithdrawalParams)
           (before randomReturn : number) (r : WithdrawalResult)
           (next : number) : Prop :=
  let previousValue := (before - withdrawalAmount r)%num in
  let pv := (previousValue * (of_Z 1 + randomReturn))%num in
  let currentRate := (withdrawalAmount r / pv)%num in
  NextYear params currentRate (withdrawalAmount r) (pv >? previousValue)%num
           next (guardrailTriggered r) (inflationAdjusted r)
  /\ portfolioValue r = Math_max (of_Z 0) pv
  /\ withdrawalRate r = (currentRate * of_Z 100)%num
  /\ returnRate r = (randomReturn * of_Z 100)%num.

End GK.

(** ** Holdings and their handlers *)

Module Portfolio.

Local Open Scope num_scope.

(** [isEstimate] is optional. *)
Record StockItem : Type := {
  id : string;
  ticker : string;
  name : string;
  quantity : number;
  price : number;
  isEstimate : option bool
}.

Definition currentTotalValue (portfolio : list StockItem) : number :=
  fold_left (fun sum item => sum + quantity item * price item)
            portfolio (of_Z 0).

Definition handleRemoveStock (id0 : string) (portfolio : list StockItem)
  : list StockItem :=
  filter (fun item => negb (String.eqb (id item) id0)) portfolio.

(** What the price service answered to a request: nothing usable (a
    network error, a status that is not ok, a body that is not JSON), or
    the two fields read off the body: [price] a number, as the declared
    type of the result has it, and [isEstimate] possibly missing. *)
Inductive ApiOutcome : Type :=
| Failed
| Responded (price : number) (isEstimate : option bool).

(** The value [getStockPrice] resolves to. *)
Record Quote : Type := {
  quotePrice : number;
  quoteIsEstimate : option bool
}.

Section Host.

(** Conversions of the host, and the price service: [api n t] is the
    outcome of request number [n], made for the ticker [t]. *)
Variable Number : string -> number.
Variable toUpperCase : string -> string.
Variable trim : string -> string.
Variable api : nat -> string -> ApiOutcome.

Definition handlePriceChange (id0 newPrice : string)
           (portfolio : list StockItem) : list StockItem :=
  map (fun item =>
         if String.eqb (id item) id0
         then {| id := id item; ticker := ticker item; name := name item;
                 quantity := quantity item;
                 price := Number newPrice; isEstimate := Some false |}
         else item)
      portfolio.

Definition handleQuantityChange (id0 newQuantity : string)
           (portfolio : list StockItem) : list StockItem :=
  map (fun item =>
         if String.eqb (id item) id0
         then {| id := id item; ticker := ticker item; name := name item;
                 quantity := Number newQuantity;
                 price := price item; isEstimate := isEstimate item |}
         else item)
      portfolio.

Definition getStockPrice (request : nat) (ticker : string) : Quote :=
  let cleanTicker := toUpperCase (trim ticker) in
  match api request cleanTicker with
  | Responded price isEstimate =>
      {| quotePrice := price; quoteIsEstimate := isEstimate |}
  | Failed =>
      (* Ultimate fallback *)
      {| quotePrice := of_Z 100; quoteIsEstimate := Some true |}
  end.

(** The loop of [updateAllPrices] over the copy of the portfolio, one
    request per item; the pauses between requests are left out. *)
Fixpoint updateAllPrices (request : nat) (portfolio : list StockItem)
  : list StockItem :=
  match portfolio with
  | [] => []
  | item :: rest =>
      let result := getStockPrice request (ticker item) in
      (if quotePrice result >? of_Z 0
       then {| id := id item; ticker := ticker item; name := name item;
               quantity := quantity item;
               price := quotePrice result;
               isEstimate := quoteIsEstimate result |}
       else item)
      :: updateAllPrices (S request) rest
  end.

(** [now] is [Date.now().toString()]. *)
Definition handleAddStock (now : string) (request : nat)
           (tickerInput qtyInput : string) (portfolio : list StockItem)
  : list StockItem :=
  if String.eqb tickerInput EmptyString || String.eqb qtyInput EmptyString
  then portfolio
  else
    let result := getStockPrice request tickerInput in
    let newItem :=
      {| id := now; ticker := toUpperCase tickerInput; name := EmptyString;
         quantity := Number qtyInput;
         price := quotePrice result;
         isEstimate := quoteIsEstimate result |} in
    portfolio ++ [newItem].

End Host.

(** Holdings whose quantity and price are finite, and their exact worth. *)
Definition finiteHoldings (portfolio : list StockItem) : Prop :=
  Forall (fun item => is_finite (quantity item) = true
                      /\ is_finite (price item) = true) portfolio.

Fixpoint worth (portfolio : list StockItem) : Q :=
  match portfolio with
  | [] => 0
  | item :: rest => valQ (quantity item) * valQ (price item) + worth rest
  end.

(** Holdings whose quantity and price are finite and not negative. *)
Definition nonNegativeHoldings (portfolio : list StockItem) : Prop :=
  Forall (fun item => nonNegative (quantity item)
                      /\ nonNegative (price item)) portfolio.

End Portfolio.

(** ** Handlers of the contribution targets *)

Module Targets.

Import Projection.

Local Open Scope num_scope.

(** [now] is [Date.now().toString()]; [label] is the name given to a new
    target. *)
Definition addTarget (now label : string) (p : ProjectionParams)
  : ProjectionParams :=
  let newTarget :=
    {| id := now; name := label;
       monthlyAmount := of_Z 10000; returnRate := of_Z 10 |} in
  {| initialReturnRate := initialReturnRate p;
     years := years p;
     targets := targets p ++ [newTarget] |}.

Definition removeTarget (id0 : string) (p : ProjectionParams)
  : ProjectionParams :=
  {| initialReturnRate := initialReturnRate p;
     years := years p;
     targets := filter (fun t => negb (String.eqb (id t) id0)) (targets p) |}.

(** A field of a target together with the value written to it, of the
    type the field is declared with, as at every call of [updateTarget]. *)
Inductive FieldValue : Type :=
| set_id (value : string)
| set_name (value : string)
| set_monthlyAmount (value : number)
| set_returnRate (value : number).

Definition withField (t : InvestmentTarget) (fv : FieldValue)
  : InvestmentTarget :=
  match fv with
  | set_id v =>
      {| id := v; name := name t;
         monthlyAmount := monthlyAmount t; returnRate := returnRate t |}
  | set_name v =>
      {| id := id t; name := v;
         monthlyAmount := monthlyAmount t; returnRate := returnRate t |}
  | set_monthlyAmount v =>
      {| id := id t; name := name t;
         monthlyAmount := v; returnRate := returnRate t |}
  | set_returnRate v =>
      {| id := id t; name := name t;
         monthlyAmount := monthlyAmount t; returnRate := v |}
  end.

Definition updateTarget (id0 : string) (fv : FieldValue)
           (p : ProjectionParams) : ProjectionParams :=
  {| initialReturnRate := initialReturnRate p;
     years := years p;
     targets := map (fun t => if String.eqb (id t) id0
                              then withField t fv else t)
                    (targets p) |}.

Definition totalMonthlyContribution (p : ProjectionParams) : number :=
  fold_left (fun sum t => sum + monthlyAmount t) (targets p) (of_Z 0).

(** The numbers of a target that enter the projection. *)
Definition figures (t : InvestmentTarget) : number * number :=
  (monthlyAmount t, returnRate t).

(** Rates and amounts that are finite and not negative. *)
Definition nonNegativeTargets (ts : list InvestmentTarget) : Prop :=
  Forall (fun t => nonNegative (monthlyAmount t)
                   /\ nonNegative (returnRate t)) ts.

(** The running totals while no rate is negative: the holdings are worth
    at least [c], every target balance is at least 0, and together the
    targets are worth at least what was paid in. *)
Definition gaining (c : Q) (n : nat) (st : Running) : Prop :=
  (exists v, valueFromInitial st = Fin v /\ (c <= v)%Q)
  /\ Forall nonNegative (targetValues st)
  /\ (exists pq, principalNewTotal st = Fin pq
                 /\ (0 <= pq)%Q /\ (pq <= sumQ (targetValues st))%Q)
  /\ length (targetValues st) = n.

End Targets.

(** ** Running a batch and summarising it *)

Module Orchestrator.

Import GK.

Local Open Scope num_scope.

(** [Math.min(x, y)], and [Math.max(...a)] and [Math.min(...a)] of an
    array: [-Infinity] and [Infinity] when the array is empty.  The limit
    an engine puts on the number of spread arguments is left out. *)
Definition Math_min (x y : number) : number :=
  match x, y with
  | NaN, _ | _, NaN => NaN
  | _, _ => if ltb y x then y else x
  end.

Definition Math_max_of (a : list number) : number :=
  fold_left Math_max a NegInf.

Definition Math_min_of (a : list number) : number :=
  fold_left Math_min a PosInf.

Definition getBestCase (sims : list (list WithdrawalResult)) : number :=
  Math_max_of (terminalValues sims).

Definition getWorstCase (sims : list (list WithdrawalResult)) : number :=
  Math_min_of (terminalValues sims).

(** How often the body of [for (let i = 0; i < x; i++)] runs; the loop
    does not end when [x] is [Infinity]. *)
Definition passes (x : number) : option nat :=
  match x with
  | Fin q => Some (Z.to_nat (Qceiling q))
  | PosInf => None
  | _ => Some O
  end.

Section Batch.

Variable Math : MathObject.

(** The loop of [handleRunSimulation] with [n] passes to go. *)
Fixpoint simulate (n : nat) (startingValue : number)
         (withdrawalParams : WithdrawalParams)
         (simulations : list (list WithdrawalResult))
  : Rand (list (list WithdrawalResult)) :=
  match n with
  | O => ret simulations
  | S n' =>
      simResult <- runGKSimulation Math startingValue withdrawalParams
                                   (years withdrawalParams) ;;
      simulate n' startingValue withdrawalParams (simulations ++ [simResult])
  end.

(** Use current total value if no accumulation years, otherwise use
    final projection value. *)
Definition startingValueOf (currentTotalValue : number)
           (projection : Projection.ProjectionParams) : number :=
  let projectionData :=
    Projection.projectionData currentTotalValue projection in
  if Nat.eqb (Projection.years projection) 0
  then currentTotalValue
  else or_else (option_map Projection.total (last_elem projectionData))
               currentTotalValue.

(** The batch handed to [setAllSimulations]; [None] when the loop does
    not end. *)
Definition handleRunSimulation (currentTotalValue : number)
           (projection : Projection.ProjectionParams)
           (withdrawalParams : WithdrawalParams)
  : option (Rand (list (list WithdrawalResult))) :=
  let startingValue := startingValueOf currentTotalValue projection in
  match passes (simulations withdrawalParams) with
  | None => None
  | Some n => Some (simulate n startingValue withdrawalParams [])
  end.

(** Where the runs of a batch start in the sequence of draws: each run
    takes two draws for every record it returns. *)
Fixpoint batchFrom (n : nat) (startingValue : number)
         (withdrawalParams : WithdrawalParams) (calls : nat)
  : list (list WithdrawalResult) :=
  match n with
  | O => []
  | S n' =>
      let run := runRecords Math startingValue withdrawalParams
                            (years withdrawalParams) calls in
      run :: batchFrom n' startingValue withdrawalParams
                       (calls + 2 * length run)
  end.

End Batch.

End Orchestrator.

(** ** Inputs for concrete instances *)

Module Samples.

Import Portfolio.

(** Two holdings: 10 at 25.5 and 3 at 100. *)
Definition twoHoldings : list StockItem :=
  [ {| id := "1"; ticker := "AAA"; name := ""; quantity := of_Z 10;
       price := dec 51 2; isEstimate := Some false |};
    {| id := "2"; ticker := "BBB"; name := ""; quantity := of_Z 3;
       price := of_Z 100; isEstimate := Some true |} ].

(** A host that reads every input as 2 and leaves tickers as they are,
    and a price service that never answers. *)
Definition readAsTwo (input : string) : number := of_Z 2.
Definition asIs (text : string) : string := text.
Definition noAnswer (request : nat) (ticker : string) : ApiOutcome := Failed.

(** One target of 100 a month, everything at 0%, three years. *)
Definition flatProjection : Projection.ProjectionParams :=
  {| Projection.initialReturnRate := of_Z 0;
     Projection.years := 3;
     Projection.targets :=
       [ {| Projection.id := "1"; Projection.name := "cash";
            Projection.monthlyAmount := of_Z 100;
            Projection.returnRate := of_Z 0 |} ] |}.

(** The parameters of the example with a rate of 100 and a return of 7%
    without volatility, and with three simulations. *)
Definition spendingAll : GK.WithdrawalParams :=
  {| GK.initialRate := of_Z 100;
     GK.upperGuardrail := of_Z 20;
     GK.lowerGuardrail := of_Z 20;
     GK.expectedAPY := of_Z 7;
     GK.volatility := of_Z 0;
     GK.simulations := of_Z 3;
     GK.years := 5 |}.

Definition threeRuns : GK.WithdrawalParams :=
  {| GK.initialRate := of_Z 4;
     GK.upperGuardrail := of_Z 20;
     GK.lowerGuardrail := of_Z 20;
     GK.expectedAPY := of_Z 7;
     GK.volatility := of_Z 0;
     GK.simulations := of_Z 3;
     GK.years := 5 |}.

End Samples.

(** * Properties *)

(** ** Arithmetic of finite numbers *)

Module NumFacts.

Local Open Scope num_scope.

Lemma is_finite_Fin x : is_finite x = true -> exists q, x = Fin q.
Proof. destruct x; simpl; try discriminate. intros _; eexists; reflexivity. Qed.

Lemma div_Fin_nonzero a b :
  ~ b == 0 -> Fin a / Fin b = Fin (Qred (a / b)).
Proof.
  intro Hb. simpl.
  destruct (Qeq_bool b 0) eqn:E; [|reflexivity].
  apply Qeq_bool_eq in E. contradiction.
Qed.

End NumFacts.

(** ** The compound growth projector *)

Module ProjectionProofs.

Import Projection NumFacts.
Local Open Scope num_scope.

Section Projector.

Variable currentTotalValue : number.
Variable projection : ProjectionParams.

Let snap (y : nat) : YearlyResult :=
  snapshot currentTotalValue y (runningAfter currentTotalValue projection y).

Lemma yearLoop_running n : forall k data,
  yearLoop currentTotalValue projection n (S k)
           (runningAfter currentTotalValue projection k) data
  = data ++ map snap (seq (S k) n).
Proof.
  induction n as [|n IH]; intros k data; simpl.
  - now rewrite app_nil_r.
  - change (months projection 12 (runningAfter currentTotalValue projection k))
      with (runningAfter currentTotalValue projection (S k)).
    rewrite IH, <- app_assoc. reflexivity.
Qed.

Lemma projectionData_unfold :
  projectionData currentTotalValue projection
  = {| year := of_Z 0;
       principal := Math_round currentTotalValue;
       interest := of_Z 0;
       total := Math_round currentTotalValue |}
    :: map snap (seq 1 (years projection)).
Proof.
  unfold projectionData.
  change (initialRunning currentTotalValue projection)
    with (runningAfter currentTotalValue projection 0).
  now rewrite yearLoop_running.
Qed.

Lemma projectionData_nth y s :
  nth_error (projectionData currentTotalValue projection) (S y) = Some s ->
  s = snap (S y) /\ (S y <= years projection)%nat.
Proof.
  rewrite projectionData_unfold. simpl.
  intro H.
  assert (Hlt : (y < years projection)%nat).
  { assert (Hn : nth_error (map snap (seq 1 (years projection))) y <> None)
      by congruence.
    apply nth_error_Some in Hn. now rewrite length_map, length_seq in Hn. }
  rewrite nth_error_map, nth_error_seq in H.
  destruct (Nat.ltb_spec y (years projection)); [|lia].
  simpl in H. injection H as <-. split; [reflexivity | lia].
Qed.

End Projector.

Lemma fold_add_finite amounts :
  Forall (fun a => is_finite a = true) amounts ->
  forall q, exists q',
    fold_left add amounts (Fin q) = Fin q' /\ q' == q + sumQ amounts.
Proof.
  induction 1 as [|a rest Ha _ IH]; intro q; simpl.
  - exists q. split; [reflexivity | ring].
  - apply is_finite_Fin in Ha as [qa ->]. cbn [add valQ].
    destruct (IH (Qred (q + qa))) as [q' [E Hq']].
    exists q'. split; [exact E|]. rewrite Hq', Qred_correct. ring.
Qed.

(** *** Slots of [targetValues] *)

Lemma set_length a : forall idx v, length (set a idx v) = length a.
Proof.
  induction a as [|x a IH]; intros [|idx] v; simpl; auto.
Qed.

Lemma set_Forall (P : number -> Prop) a : forall idx v,
  Forall P a -> P v -> Forall P (set a idx v).
Proof.
  induction a as [|x a IH]; intros [|idx] v Ha Hv; simpl; auto;
    inversion Ha; subst; constructor; auto.
Qed.

Lemma get_Forall (P : number -> Prop) a idx :
  Forall P a -> (idx < length a)%nat -> P (get a idx).
Proof.
  intros Ha Hlt. unfold get. rewrite Forall_forall in Ha.
  apply Ha, nth_In, Hlt.
Qed.

(** *** Rounded fields *)

Lemma Qred_inject_Z k : Qred (inject_Z k) = inject_Z k.
Proof.
  unfold Qred, inject_Z.
  pose proof (Z.ggcd_gcd k 1) as Hg.
  pose proof (Z.ggcd_correct_divisors k 1) as Hd.
  destruct (Z.ggcd k 1) as [g [r1 r2]]. simpl in Hg, Hd.
  rewrite Z.gcd_1_r in Hg. subst g. destruct Hd as [H1 H2].
  assert (E1 : r1 = k) by lia. assert (E2 : r2 = 1%Z) by lia.
  simpl. rewrite E1, E2. reflexivity.
Qed.

Lemma of_Z_sub a b : of_Z a - of_Z b = of_Z (a - b).
Proof.
  unfold of_Z. cbn [sub]. f_equal.
  rewrite <- (Qred_inject_Z (a - b)). apply Qred_complete.
  unfold Zminus. rewrite inject_Z_plus, inject_Z_opp. ring.
Qed.

(** C4, as the code has it.  The snapshot of year 0 has a growth of 0,
    which is its total minus its principal when the starting value is
    finite.  In the snapshot of a later year the three fields are rounded
    one by one: the total is the rounded sum of the balances, the
    principal the rounded sum of the starting value and the contributions,
    and the growth the rounding of the difference of these two unrounded
    sums. *)
Theorem growth_is_rounded_difference :
  forall (currentTotalValue : number) (projection : ProjectionParams),
    (forall snap,
        nth_error (projectionData currentTotalValue projection) 0 = Some snap ->
        total snap = Math_round currentTotalValue
        /\ principal snap = Math_round currentTotalValue
        /\ interest snap = of_Z 0
        /\ (is_finite currentTotalValue = true ->
            interest snap = total snap - principal snap))
    /\ (forall y snap,
          nth_error (projectionData currentTotalValue projection) (S y)
          = Some snap ->
          let st := runningAfter currentTotalValue projection (S y) in
          let totalNewValue := fold_left add (targetValues st) (of_Z 0) in
          let totalValue := valueFromInitial st + totalNewValue in
          let totalPrincipal := currentTotalValue + principalNewTotal st in
          total snap = Math_round totalValue
          /\ principal snap = Math_round totalPrincipal
          /\ interest snap = Math_round (totalValue - totalPrincipal)).
Proof.
  intros ctv p. split.
  - intros snap Hnth.
    rewrite projectionData_unfold in Hnth. injection Hnth as <-.
    cbn [total principal interest]. repeat split.
    intro Hc. apply is_finite_Fin in Hc as [s ->].
    cbn [Math_round]. rewrite of_Z_sub. f_equal. lia.
  - intros y snap Hnth.
    apply projectionData_nth in Hnth as [-> _].
    cbv zeta. repeat split.
Qed.

(** C4, counterexample.  One holding worth 4.6, no targets, 12% a year,
    one year: the year-1 snapshot has principal 5, total 5 and growth 1. *)
Lemma growth_not_total_minus_principal :
  let data :=
    projectionData (dec 46 10)
      {| initialReturnRate := of_Z 12; years := 1; targets := [] |} in
  nth_error data 1
  = Some {| year := of_Z 1; principal := of_Z 5;
            interest := of_Z 1; total := of_Z 5 |}
  /\ ~ Forall (fun snap => interest snap = total snap - principal snap) data.
Proof.
  split; [vm_compute; reflexivity|].
  intro H. rewrite Forall_forall in H.
  specialize (H {| year := of_Z 1; principal := of_Z 5;
                   interest := of_Z 1; total := of_Z 5 |}).
  assert (Hin : In {| year := of_Z 1; principal := of_Z 5;
                      interest := of_Z 1; total := of_Z 5 |}
                   (projectionData (dec 46 10)
                      {| initialReturnRate := of_Z 12; years := 1;
                         targets := [] |})).
  { vm_compute. right. left. reflexivity. }
  specialize (H Hin). vm_compute in H. discriminate H.
Qed.

(** The snapshots of [sampleProjection] with holdings of 1000. *)
Lemma growth_rounding_example :
  let data := projectionData (of_Z 1000) sampleProjection in
  let year0 := {| year := of_Z 0; principal := of_Z 1000;
                  interest := of_Z 0; total := of_Z 1000 |} in
  let year1 := {| year := of_Z 1; principal := of_Z 2200;
                  interest := of_Z 91; total := of_Z 2291 |} in
  let st := runningAfter (of_Z 1000) sampleProjection 1 in
  nth_error data 0 = Some year0
  /\ nth_error data 1 = Some year1
  /\ is_finite (of_Z 1000) = true
  /\ interest year0 = total year0 - principal year0
  /\ interest year1
     = Math_round (valueFromInitial st
                   + fold_left add (targetValues st) (of_Z 0)
                   - (of_Z 1000 + principalNewTotal st)).
Proof.
  cbv zeta.
  assert (H0 : nth_error (projectionData (of_Z 1000) sampleProjection) 0
               = Some {| year := of_Z 0; principal := of_Z 1000;
                         interest := of_Z 0; total := of_Z 1000 |})
    by (vm_compute; reflexivity).
  assert (H1 : nth_error (projectionData (of_Z 1000) sampleProjection) 1
               = Some {| year := of_Z 1; principal := of_Z 2200;
                         interest := of_Z 91; total := of_Z 2291 |})
    by (vm_compute; reflexivity).
  assert (F : is_finite (of_Z 1000) = true) by reflexivity.
  split; [exact H0|]. split; [exact H1|]. split; [exact F|]. split.
  - exact (proj2 (proj2 (proj2
             (proj1 (@growth_is_rounded_difference
                       (of_Z 1000) sampleProjection) _ H0))) F).
  - exact (proj2 (proj2
             (proj2 (@growth_is_rounded_difference
                       (of_Z 1000) sampleProjection) _ _ H1))).
Defined.

End ProjectionProofs.

(** ** The projector in binary64 *)

Module DoubleProofs.

Import Double.
Local Open Scope float_scope.

Section Projector.

Variable currentTotalValue : number.
Variable projection : ProjectionParams.

Let snap (y : nat) : YearlyResult :=
  snapshot currentTotalValue y (runningAfter currentTotalValue projection y).

Lemma double_yearLoop_running n : forall k data,
  yearLoop currentTotalValue projection n (S k)
           (runningAfter currentTotalValue projection k) data
  = data ++ map snap (seq (S k) n).
Proof.
  induction n as [|n IH]; intros k data; simpl.
  - now rewrite app_nil_r.
  - change (months projection 12 (runningAfter currentTotalValue projection k))
      with (runningAfter currentTotalValue projection (S k)).
    rewrite IH, <- app_assoc. reflexivity.
Qed.

Lemma double_projectionData_unfold :
  projectionData currentTotalValue projection
  = {| year := of_Z 0;
       principal := Math_round currentTotalValue;
       interest := of_Z 0;
       total := Math_round currentTotalValue |}
    :: map snap (seq 1 (years projection)).
Proof.
  unfold projectionData.
  change (initialRunning currentTotalValue projection)
    with (runningAfter currentTotalValue projection 0).
  now rewrite double_yearLoop_running.
Qed.

Lemma double_forEach_pnt ts : forall idx st,
  principalNewTotal (Projection.forEach growTarget ts idx st)
  = fold_left PrimFloat.add (map monthlyAmount ts) (principalNewTotal st).
Proof.
  induction ts as [|t ts IH]; intros idx st; simpl; [reflexivity|].
  now rewrite IH.
Qed.

Lemma double_months_pnt m : forall st,
  principalNewTotal (months projection m st)
  = contributed (map monthlyAmount (targets projection)) m
                (principalNewTotal st).
Proof.
  induction m as [|m IH]; intro st; [reflexivity|].
  cbn [months]. rewrite IH. unfold month.
  rewrite double_forEach_pnt. cbn [principalNewTotal].
  unfold contributed. now rewrite Nat.iter_succ_r.
Qed.

Lemma double_runningAfter_pnt k :
  principalNewTotal (runningAfter currentTotalValue projection k)
  = contributed (map monthlyAmount (targets projection)) (12 * k) (of_Z 0).
Proof.
  induction k as [|k IH]; [reflexivity|].
  cbn [runningAfter]. rewrite double_months_pnt, IH.
  unfold contributed. rewrite <- Nat.iter_add. f_equal. lia.
Qed.

End Projector.

Lemma double_principal_column ctv p :
  map principal (projectionData ctv p)
  = Math_round ctv
    :: map (fun y => Math_round
                       (ctv + contributed (map monthlyAmount (targets p))
                                          (12 * y) (of_Z 0)))
           (seq 1 (years p)).
Proof.
  rewrite double_projectionData_unfold. cbn [map principal]. f_equal.
  rewrite map_map. apply map_ext. intro y.
  cbn [snapshot principal]. now rewrite double_runningAfter_pnt.
Qed.

(** C6, as the code has it.  The snapshot of year 0 has the rounded
    starting value as its principal.  The snapshot of a later year [y] has
    principal [round(startingValue + c)], where [c] is what adding the
    monthly amounts, one after the other, in each of the [12 * y] months
    gives.  Two projections with the same horizon and the same monthly
    amounts have the same principal column, whatever their rates are. *)
Theorem principal_is_start_plus_added_contributions :
  forall (currentTotalValue : number) (projection : ProjectionParams),
    (forall y snap,
        nth_error (projectionData currentTotalValue projection) y = Some snap ->
        year snap = of_nat y
        /\ principal snap
           = match y with
             | O => Math_round currentTotalValue
             | S _ =>
                 Math_round
                   (currentTotalValue
                    + contributed (map monthlyAmount (targets projection))
                                  (12 * y) (of_Z 0))
             end)
    /\ (forall projection',
          years projection' = years projection ->
          map monthlyAmount (targets projection')
          = map monthlyAmount (targets projection) ->
          map principal (projectionData currentTotalValue projection')
          = map principal (projectionData currentTotalValue projection)).
Proof.
  intros ctv p. split.
  - intros y snap Hnth.
    rewrite double_projectionData_unfold in Hnth.
    destruct y as [|y].
    + injection Hnth as <-. split; reflexivity.
    + cbn [nth_error] in Hnth.
      rewrite nth_error_map in Hnth.
      destruct (nth_error (seq 1 (years p)) y) as [y'|] eqn:E;
        [|discriminate Hnth].
      assert (Hy : y' = S y).
      { assert (Hlt : (y < length (seq 1 (years p)))%nat)
          by (apply nth_error_Some; congruence).
        rewrite length_seq in Hlt.
        rewrite nth_error_seq in E.
        destruct (Nat.ltb_spec y (years p)); [|lia].
        injection E as <-. reflexivity. }
      subst y'. cbn [option_map] in Hnth. injection Hnth as <-.
      cbn [snapshot year principal]. split; [reflexivity|].
      rewrite <- (double_runningAfter_pnt ctv p (S y)). reflexivity.
  - intros p' Hy Ha. rewrite !double_principal_column, Hy, Ha. reflexivity.
Qed.

(** C6, counterexample.  Holdings of 10,010.42 and one target of 1,463.46
    a month: the closed formula gives 80,256.5 for year 4, which rounds
    to 80,257; the 48 additions of the loop give a sum below 80,256.5, and
    the principal of year 4 is 80,256. *)
Lemma principal_is_not_the_closed_formula :
  let start := dec 1001042 100 in
  let plan := savingsPlan (of_Z 0) in
  map principal (projectionData start plan)
  = [of_Z 10010; of_Z 27572; of_Z 45133; of_Z 62695; of_Z 80256]
  /\ closedFormula start plan 4 = dec 802565 10
  /\ Math_round (closedFormula start plan 4) = of_Z 80257
  /\ ~ (forall y snap,
          nth_error (projectionData start plan) y = Some snap ->
          principal snap = Math_round (closedFormula start plan y)).
Proof.
  cbv zeta.
  split; [vm_compute; reflexivity|].
  split; [vm_compute; reflexivity|].
  split; [vm_compute; reflexivity|].
  intro H.
  specialize (H 4%nat {| year := of_Z 4; principal := of_Z 80256;
                         interest := of_Z 0; total := of_Z 80256 |}).
  assert (E : nth_error (projectionData (dec 1001042 100)
                                        (savingsPlan (of_Z 0))) 4
              = Some {| year := of_Z 4; principal := of_Z 80256;
                        interest := of_Z 0; total := of_Z 80256 |})
    by (vm_compute; reflexivity).
  specialize (H E). vm_compute in H. discriminate H.
Qed.

(** The plan at 7% has the principal column of the plan at 0%. *)
Lemma savings_plan_principal :
  let start := dec 1001042 100 in
  years (savingsPlan (of_Z 7)) = years (savingsPlan (of_Z 0))
  /\ map monthlyAmount (targets (savingsPlan (of_Z 7)))
     = map monthlyAmount (targets (savingsPlan (of_Z 0)))
  /\ map principal (projectionData start (savingsPlan (of_Z 7)))
     = [of_Z 10010; of_Z 27572; of_Z 45133; of_Z 62695; of_Z 80256]
  /\ map total (projectionData start (savingsPlan (of_Z 7)))
     = [of_Z 10010; of_Z 28976; of_Z 49312; of_Z 71119; of_Z 94502].
Proof.
  cbv zeta. split; [reflexivity|]. split; [reflexivity|]. split.
  - rewrite (proj2 (principal_is_start_plus_added_contributions
                      (dec 1001042 100) (savingsPlan (of_Z 0)))
                   (savingsPlan (of_Z 7)) eq_refl eq_refl).
    vm_compute. reflexivity.
  - vm_compute. reflexivity.
Defined.

End DoubleProofs.

(** ** The withdrawal simulator *)

Module GKProofs.

Import GK NumFacts.
Local Open Scope num_scope.

(** Replace a closed term by its value. *)
Ltac evaluate t :=
  let v := eval vm_compute in t in
  let E := fresh "E" in
  assert (E : t = v) by (vm_compute; reflexivity);
  rewrite E in *; clear E.

Section Run.

Variable Math : MathObject.
Variable params : WithdrawalParams.

Let iwr : number := initialRate params / of_Z 100.

Lemma generateRandomReturn_eq mean stdDev calls :
  generateRandomReturn Math mean stdDev calls
  = (mean + deviate Math calls * stdDev, S (S calls)).
Proof. reflexivity. Qed.

(** One pass of the loop, with the sampling made explicit. *)
Lemma yearLoop_S n year pv w acc calls :
  yearLoop Math params iwr (S n) year pv w acc calls
  = let '(result, pv', next) :=
      yearBody params iwr year pv w (sampledReturn Math params calls) in
    if pv' <=? of_Z 0 then (acc ++ [result], S (S calls))
    else yearLoop Math params iwr n (S year) pv' next (acc ++ [result])
                  (S (S calls)).
Proof.
  cbn [yearLoop]. unfold bind, sampledReturn.
  rewrite generateRandomReturn_eq. cbn [fst].
  destruct (yearBody params iwr year pv w _) as [[result pv'] next].
  destruct (pv' <=? of_Z 0); reflexivity.
Qed.

Lemma yearLoop_acc n : forall year pv w acc calls,
  fst (yearLoop Math params iwr n year pv w acc calls)
  = acc ++ fst (yearLoop Math params iwr n year pv w [] calls).
Proof.
  induction n as [|n IH]; intros year pv w acc calls.
  - simpl. now rewrite app_nil_r.
  - rewrite !yearLoop_S.
    destruct (yearBody params iwr year pv w _) as [[result pv'] next].
    destruct (pv' <=? of_Z 0); [reflexivity|].
    rewrite IH, (IH _ _ _ ([] ++ [result])), <- app_assoc. reflexivity.
Qed.

Lemma loopRecords_S n year pv w calls :
  loopRecords Math params (S n) year pv w calls
  = let '(result, pv', next) :=
      yearBody params iwr year pv w (sampledReturn Math params calls) in
    result :: (if pv' <=? of_Z 0 then []
               else loopRecords Math params n (S year) pv' next (S (S calls))).
Proof.
  unfold loopRecords. rewrite yearLoop_S.
  destruct (yearBody params iwr year pv w _) as [[result pv'] next].
  destruct (pv' <=? of_Z 0); [reflexivity|].
  rewrite yearLoop_acc. reflexivity.
Qed.

Lemma runRecords_loop sv years calls :
  runRecords Math sv params years calls
  = loopRecords Math params years 1 sv (sv * iwr) calls.
Proof. reflexivity. Qed.

Lemma yearBody_spec year pv w r :
  exists result next,
    yearBody params iwr year pv w r
    = (result, (pv - w) * (of_Z 1 + r), next)
    /\ GK.year result = of_nat year
    /\ withdrawalAmount result = w
    /\ describesYear params pv r result next.
Proof.
  unfold yearBody, applyGKRules, describesYear.
  set (previousValue := pv - w).
  set (pv' := previousValue * (of_Z 1 + r)).
  set (currentRate := w / pv').
  fold iwr.
  destruct (currentRate >? iwr * (of_Z 1 + upperGuardrail params / of_Z 100))
    eqn:Hu;
    [|destruct (currentRate <?
                  iwr * (of_Z 1 - lowerGuardrail params / of_Z 100)) eqn:Hl;
      [|destruct (pv' >? previousValue) eqn:Hg]];
    eexists; eexists; (split; [reflexivity|]);
    cbn [GK.year withdrawalAmount portfolioValue withdrawalRate returnRate
         inflationAdjusted guardrailTriggered];
    fold previousValue; fold pv'; fold currentRate;
    repeat split; try rewrite Hg.
  - now apply rule_upper.
  - now apply rule_lower.
  - now apply rule_inflation.
  - now apply rule_unchanged.
Qed.

(** A year that is not the last one reports its balance unchanged. *)
Lemma Math_max_not_depleted x :
  (x <=? of_Z 0) = false -> Math_max (of_Z 0) x = x.
Proof.
  destruct x as [| |q|]; try reflexivity; try discriminate.
  unfold Math_max, leb, ltb, of_Z. change (inject_Z 0) with 0.
  intro H. rewrite H. reflexivity.
Qed.

Lemma loop_years n : forall year pv w calls i r,
  nth_error (loopRecords Math params n year pv w calls) i = Some r ->
  exists next,
    describesYear params
      (balanceBefore pv (loopRecords Math params n year pv w calls) i)
      (sampledReturn Math params (calls + 2 * i)) r next
    /\ GK.year r = of_nat (year + i)
    /\ (i = 0%nat -> withdrawalAmount r = w)
    /\ (forall r',
          nth_error (loopRecords Math params n year pv w calls) (S i)
          = Some r' ->
          withdrawalAmount r' = next).
Proof.
  induction n as [|n IH]; intros year pv w calls i r Hnth.
  - destruct i; discriminate Hnth.
  - rewrite loopRecords_S in Hnth |- *.
    destruct (yearBody_spec year pv w (sampledReturn Math params calls))
      as (result & next & E & Hyear & Hw & Hdesc).
    rewrite E in Hnth |- *. clear E.
    set (pv' := (pv - w) * (of_Z 1 + sampledReturn Math params calls)) in *.
    destruct i as [|i].
    + injection Hnth as <-. exists next.
      replace (calls + 2 * 0)%nat with calls by lia.
      replace (year + 0)%nat with year by lia. cbn [balanceBefore].
      split; [exact Hdesc|]. split; [exact Hyear|].
      split; [intros _; exact Hw|].
      intros r' Hr'.
      change (nth_error
                (if pv' <=? of_Z 0 then []
                 else loopRecords Math params n (S year) pv' next
                                  (S (S calls))) 0 = Some r') in Hr'.
      destruct (pv' <=? of_Z 0); [discriminate Hr'|].
      destruct (IH _ _ _ _ _ _ Hr') as (_ & _ & _ & H0 & _). now apply H0.
    + change (nth_error
                (if pv' <=? of_Z 0 then []
                 else loopRecords Math params n (S year) pv' next
                                  (S (S calls))) i = Some r) in Hnth.
      destruct (pv' <=? of_Z 0) eqn:Hdep; [destruct i; discriminate Hnth|].
      destruct (IH _ _ _ _ _ _ Hnth) as (next' & Hd & Hy & Hw0 & Hnext).
      exists next'.
      replace (calls + 2 * S i)%nat with (S (S calls) + 2 * i)%nat by lia.
      replace (year + S i)%nat with (S year + i)%nat by lia.
      split; [|split; [exact Hy|split; [discriminate|exact Hnext]]].
      destruct i as [|i]; cbn [balanceBefore nth_error] in Hd |- *.
      * destruct Hdesc as (_ & Hpv & _). rewrite Hpv, Hw.
        fold pv'. rewrite (Math_max_not_depleted _ Hdep). exact Hd.
      * exact Hd.
Qed.

End Run.

(** C1.  Year [i+1] of a run, read off its record [r]: the rate is the
    withdrawal just applied over the balance after growth, the rule table
    picks the next withdrawal and the flags by priority, the next record
    (when there is one) carries that withdrawal, and a record never has
    both a guardrail and the inflation flag. *)
Theorem gk_rules_are_priority_ordered :
  forall (Math : MathObject) (startingValue : number)
         (params : WithdrawalParams) (years calls i : nat)
         (r : WithdrawalResult),
    let rs := runRecords Math startingValue params years calls in
    nth_error rs i = Some r ->
    let initialWithdrawalRate := initialRate params / of_Z 100 in
    let randomReturn := sampledReturn Math params (calls + 2 * i) in
    let previousValue :=
      balanceBefore startingValue rs i - withdrawalAmount r in
    let pv := previousValue * (of_Z 1 + randomReturn) in
    let currentRate := withdrawalAmount r / pv in
    let nextIs w := forall r', nth_error rs (S i) = Some r' ->
                               withdrawalAmount r' = w in
    (i = 0%nat ->
     withdrawalAmount r = startingValue * initialWithdrawalRate)
    /\ portfolioValue r = Math_max (of_Z 0) pv
    /\ withdrawalRate r = currentRate * of_Z 100
    /\ returnRate r = randomReturn * of_Z 100
    /\ (if currentRate >?
           initialWithdrawalRate * (of_Z 1 + upperGuardrail params / of_Z 100)
        then nextIs (withdrawalAmount r * dec 9 10)
             /\ guardrailTriggered r = Some upper
             /\ inflationAdjusted r = false
        else if currentRate <?
           initialWithdrawalRate * (of_Z 1 - lowerGuardrail params / of_Z 100)
        then nextIs (withdrawalAmount r * dec 11 10)
             /\ guardrailTriggered r = Some lower
             /\ inflationAdjusted r = false
        else if pv >? previousValue
        then nextIs (withdrawalAmount r * dec 103 100)
             /\ guardrailTriggered r = None
             /\ inflationAdjusted r = true
        else nextIs (withdrawalAmount r)
             /\ guardrailTriggered r = None
             /\ inflationAdjusted r = false)
    /\ (guardrailTriggered r = None \/ inflationAdjusted r = false).
Proof.
  intros Math sv params years calls i r rs Hnth.
  unfold rs in *. rewrite runRecords_loop in *.
  destruct (@loop_years Math params _ _ _ _ _ _ _ Hnth)
    as (next & Hd & _ & Hw & Hnext).
  destruct Hd as (Hrule & Hpv & Hrate & Hret).
  cbv zeta. repeat split; auto.
  - inversion Hrule as [Hu|Hu Hl|Hu Hl Hg|Hu Hl Hg]; subst next;
      unfold upperCrossed in Hu; try unfold lowerCrossed in Hl;
      rewrite Hu; try rewrite Hl; try rewrite Hg; repeat split; auto.
  - inversion Hrule; auto.
Qed.


(** *** Termination and depletion *)

Lemma Math_max_depleted x :
  (x <=? of_Z 0) = true -> (Math_max (of_Z 0) x <=? of_Z 0) = true.
Proof.
  destruct x as [| |q|]; try reflexivity; try discriminate.
  unfold Math_max, leb, ltb, of_Z. change (inject_Z 0) with 0.
  intro H. rewrite H. reflexivity.
Qed.

Lemma Math_max_reported_depleted x :
  (Math_max (of_Z 0) x <=? of_Z 0) = true -> (x <=? of_Z 0) = true.
Proof.
  destruct x as [| |q|]; try reflexivity; try discriminate.
  unfold Math_max, leb, ltb, of_Z. change (inject_Z 0) with 0.
  destruct (Qle_bool q 0) eqn:E; [reflexivity|].
  cbn [negb]. now rewrite E.
Qed.

Lemma not_depleted_is_positive x :
  (x <=? of_Z 0) = false -> is_nan x = false -> (x >? of_Z 0) = true.
Proof.
  destruct x as [| |q|]; try discriminate; try reflexivity.
  unfold gtb, leb, ltb, of_Z. change (inject_Z 0) with 0.
  intros H _. now rewrite H.
Qed.

Lemma last_elem_cons {A : Type} (x y : A) (l : list A) :
  last_elem (x :: y :: l) = last_elem (y :: l).
Proof. reflexivity. Qed.

Section Depletion.

Variable Math : MathObject.
Variable params : WithdrawalParams.

Lemma loop_length n : forall year pv w calls,
  (length (loopRecords Math params n year pv w calls) <= n)%nat.
Proof.
  induction n as [|n IH]; intros year pv w calls; [apply Nat.le_refl|].
  rewrite loopRecords_S.
  destruct (yearBody_spec params year pv w (sampledReturn Math params calls))
    as (result & next & E & _). rewrite E.
  set (pv' := (pv - w) * (of_Z 1 + sampledReturn Math params calls)).
  specialize (IH (S year) pv' next (S (S calls))).
  destruct (pv' <=? of_Z 0); simpl; lia.
Qed.

Lemma loop_stops_when_depleted n : forall year pv w calls i r,
  nth_error (loopRecords Math params n year pv w calls) i = Some r ->
  (portfolioValue r <=? of_Z 0) = true ->
  S i = length (loopRecords Math params n year pv w calls).
Proof.
  induction n as [|n IH]; intros year pv w calls i r Hnth Hdep.
  - destruct i; discriminate Hnth.
  - rewrite loopRecords_S in Hnth |- *.
    destruct (yearBody_spec params year pv w (sampledReturn Math params calls))
      as (result & next & E & _ & Hw & _ & Hpv & _).
    rewrite E in Hnth |- *. clear E. rewrite Hw in Hpv.
    set (pv' := (pv - w) * (of_Z 1 + sampledReturn Math params calls)) in *.
    destruct i as [|i].
    + injection Hnth as <-. rewrite Hpv in Hdep.
      apply Math_max_reported_depleted in Hdep.
      fold pv' in Hdep. rewrite Hdep. reflexivity.
    + change (nth_error
                (if pv' <=? of_Z 0 then []
                 else loopRecords Math params n (S year) pv' next
                                  (S (S calls))) i = Some r) in Hnth.
      destruct (pv' <=? of_Z 0); [destruct i; discriminate Hnth|].
      simpl. f_equal. eapply IH; eassumption.
Qed.

Lemma loop_short_means_depleted n : forall year pv w calls,
  (length (loopRecords Math params n year pv w calls) < n)%nat ->
  exists r,
    last_elem (loopRecords Math params n year pv w calls) = Some r
    /\ (portfolioValue r <=? of_Z 0) = true.
Proof.
  induction n as [|n IH]; intros year pv w calls Hlen; [inversion Hlen|].
  rewrite loopRecords_S in Hlen |- *.
  destruct (yearBody_spec params year pv w (sampledReturn Math params calls))
    as (result & next & E & _ & Hw & _ & Hpv & _).
  rewrite E in Hlen |- *. clear E. rewrite Hw in Hpv.
  set (pv' := (pv - w) * (of_Z 1 + sampledReturn Math params calls)) in *.
  destruct (pv' <=? of_Z 0) eqn:Hdep.
  - exists result. split; [reflexivity|].
    rewrite Hpv. apply Math_max_depleted. exact Hdep.
  - simpl in Hlen.
    destruct (IH (S year) pv' next (S (S calls))) as (r & Hlast & Hr); [lia|].
    exists r. split; [|exact Hr].
    destruct (loopRecords Math params n (S year) pv' next (S (S calls)))
      as [|y l]; [discriminate Hlast|].
    rewrite last_elem_cons. exact Hlast.
Qed.

End Depletion.

(** C7, as the code has it.  A run is a total function of its inputs and
    returns at most [years] records, numbered from 1.  A record that
    reports a balance [<= 0] is the last one, and a run shorter than the
    horizon ends with such a record.  A record that is not the last one
    reports a balance that is not [<= 0]: it is [> 0] unless it is
    [NaN]. *)
Theorem run_stops_at_depletion :
  forall (Math : MathObject) (startingValue : number)
         (params : WithdrawalParams) (years calls : nat),
    let rs := runRecords Math startingValue params years calls in
    (length rs <= years)%nat
    /\ (forall i r, nth_error rs i = Some r -> GK.year r = of_nat (S i))
    /\ (forall i r, nth_error rs i = Some r ->
                    (portfolioValue r <=? of_Z 0) = true ->
                    S i = length rs)
    /\ ((length rs < years)%nat ->
        exists r, last_elem rs = Some r
                  /\ (portfolioValue r <=? of_Z 0) = true)
    /\ (forall i r, nth_error rs i = Some r ->
                    (S i < length rs)%nat ->
                    (portfolioValue r <=? of_Z 0) = false
                    /\ (is_nan (portfolioValue r) = false ->
                        (portfolioValue r >? of_Z 0) = true)).
Proof.
  intros Math sv params years calls rs. unfold rs.
  rewrite runRecords_loop.
  split; [apply loop_length|].
  split.
  { intros i r Hnth.
    destruct (@loop_years Math params _ _ _ _ _ _ _ Hnth) as (_ & _ & Hy & _).
    exact Hy. }
  split; [apply loop_stops_when_depleted|].
  split; [apply loop_short_means_depleted|].
  intros i r Hnth Hlen.
  assert (Hdep : (portfolioValue r <=? of_Z 0) = false).
  { destruct (portfolioValue r <=? of_Z 0) eqn:E; [|reflexivity].
    pose proof (@loop_stops_when_depleted Math params _ _ _ _ _ _ _ Hnth E).
    lia. }
  split; [exact Hdep|]. now apply not_depleted_is_positive.
Qed.

(** C7, counterexample.  The run of the example on a host whose every
    draw is 0: every sampled return is [NaN], so is every balance, and
    the run has five records none of which reports a balance [> 0]. *)
Lemma zero_draw_run_reports_no_balance :
  let Math := sampleMath (fun _ => of_Z 0) in
  let rs := runRecords Math (of_Z 10000000) exampleParams 5 0 in
  map portfolioValue rs = [NaN; NaN; NaN; NaN; NaN]
  /\ ~ (forall i r, nth_error rs i = Some r ->
                    (S i < length rs)%nat ->
                    (portfolioValue r >? of_Z 0) = true).
Proof.
  cbv zeta.
  evaluate (runRecords (sampleMath (fun _ => of_Z 0))
                       (of_Z 10000000) exampleParams 5 0).
  split; [reflexivity|].
  intro H. specialize (H 0%nat _ eq_refl). cbn [length] in H.
  assert (L : (1 < 5)%nat) by lia.
  specialize (H L). discriminate H.
Qed.

(** *** The withdrawal never turns negative *)

Lemma nonNegative_mul x y :
  nonNegative x -> nonNegative y -> nonNegative (x * y).
Proof.
  intros [Fx Hx] [Fy Hy].
  apply is_finite_Fin in Fx as [a ->]. apply is_finite_Fin in Fy as [b ->].
  split; [reflexivity|].
  unfold leb, of_Z in *. cbn [mul]. change (inject_Z 0) with 0 in *.
  apply Qle_bool_iff in Hx, Hy. apply Qle_bool_iff.
  rewrite Qred_correct. now apply Qmult_le_0_compat.
Qed.

Lemma nonNegative_rate x : nonNegative x -> nonNegative (x / of_Z 100).
Proof.
  intros [Fx Hx]. apply is_finite_Fin in Fx as [a ->].
  split; [reflexivity|].
  unfold leb, of_Z in *. change (inject_Z 0) with 0 in *.
  rewrite div_Fin_nonzero by discriminate.
  apply Qle_bool_iff in Hx. apply Qle_bool_iff.
  rewrite Qred_correct. change (inject_Z 100) with 100.
  apply Qle_shift_div_l; [reflexivity|]. now rewrite Qmult_0_l.
Qed.

Lemma NextYear_factor params c w g next gt infl :
  NextYear params c w g next gt infl ->
  next = w * dec 9 10 \/ next = w * dec 11 10
  \/ next = w * dec 103 100 \/ next = w.
Proof. inversion 1; auto. Qed.

Lemma NextYear_nonNegative params c w g next gt infl :
  NextYear params c w g next gt infl -> nonNegative w -> nonNegative next.
Proof.
  intros H Hw.
  destruct (NextYear_factor H) as [-> | [-> | [-> | ->]]]; auto;
    apply nonNegative_mul; auto; split; reflexivity.
Qed.

Lemma loop_withdrawal_nonNegative Math params n : forall year pv w calls i r,
  nonNegative w ->
  nth_error (loopRecords Math params n year pv w calls) i = Some r ->
  nonNegative (withdrawalAmount r).
Proof.
  induction n as [|n IH]; intros year pv w calls i r Hw Hnth.
  - destruct i; discriminate Hnth.
  - rewrite loopRecords_S in Hnth.
    destruct (yearBody_spec params year pv w (sampledReturn Math params calls))
      as (result & next & E & _ & Ew & Hrule & _).
    rewrite E in Hnth. clear E. rewrite Ew in Hrule.
    destruct i as [|i].
    + injection Hnth as <-. now rewrite Ew.
    + simpl in Hnth. destruct (_ <=? of_Z 0); [destruct i; discriminate Hnth|].
      eapply IH; [|exact Hnth].
      eapply NextYear_nonNegative; eassumption.
Qed.

(** Without finiteness: a withdrawal that is not negative (it may be
    [Infinity] or [NaN]) stays so. *)
Lemma negative_mul_positive x (c : Q) :
  (0 < c)%Q -> negative x = false -> negative (x * Fin c) = false.
Proof.
  intros Hc Hx.
  assert (Hc0 : Qeq_bool c 0 = false).
  { destruct (Qeq_bool c 0) eqn:E; [|reflexivity].
    apply Qeq_bool_eq in E. rewrite E in Hc. inversion Hc. }
  assert (Hc1 : Qle_bool 0 c = true)
    by (apply Qle_bool_iff, Qlt_le_weak, Hc).
  destruct x as [| |q|]; try reflexivity; try discriminate.
  - cbn [negative mul] in *. apply negb_false_iff in Hx.
    apply negb_false_iff, Qle_bool_iff. rewrite Qred_correct.
    apply Qle_bool_iff in Hx. apply Qmult_le_0_compat; [exact Hx|].
    now apply Qlt_le_weak.
  - cbn [mul is_zero negative orb]. rewrite Hc0, Hc1. reflexivity.
Qed.

Lemma NextYear_not_negative params c w g next gt infl :
  NextYear params c w g next gt infl ->
  negative w = false -> negative next = false.
Proof.
  intros H Hw.
  destruct (NextYear_factor H) as [-> | [-> | [-> | ->]]]; auto;
    apply negative_mul_positive; auto; reflexivity.
Qed.

Lemma first_withdrawal_not_negative sv rate :
  (of_Z 0 <=? sv) = true -> (of_Z 0 <=? rate) = true ->
  negative (sv * (rate / of_Z 100)) = false.
Proof.
  intros Hsv Hrate.
  assert (Hr : negative (rate / of_Z 100) = false).
  { destruct rate as [| |b|]; try discriminate; [|reflexivity].
    destruct (@nonNegative_rate (Fin b)) as [_ H]; [now split|].
    unfold of_Z in H |- *. rewrite div_Fin_nonzero in H |- * by discriminate.
    cbn [negative]. unfold leb in H. change (inject_Z 0) with 0 in H.
    now rewrite H. }
  destruct sv as [| |a|]; try discriminate.
  - destruct (rate / of_Z 100) as [| |q|]; try reflexivity; try discriminate.
    + cbn [negative mul] in *. apply negb_false_iff in Hr.
      apply negb_false_iff, Qle_bool_iff. rewrite Qred_correct.
      unfold leb, of_Z in Hsv. change (inject_Z 0) with 0 in Hsv.
      apply Qle_bool_iff in Hsv, Hr. now apply Qmult_le_0_compat.
    + unfold leb, of_Z in Hsv. change (inject_Z 0) with 0 in Hsv.
      cbn [mul is_zero negative orb]. rewrite Hsv.
      destruct (Qeq_bool a 0); reflexivity.
  - destruct (rate / of_Z 100) as [| |q|]; try reflexivity; try discriminate.
    cbn [negative mul is_zero orb] in *. rewrite Hr.
    destruct (Qeq_bool q 0); reflexivity.
Qed.

Lemma not_negative_not_below_zero x :
  negative x = false -> (x <? of_Z 0) = false.
Proof.
  destruct x as [| |q|]; try reflexivity; try discriminate.
  unfold negative, ltb, of_Z. change (inject_Z 0) with 0. auto.
Qed.

Lemma loop_withdrawal_not_negative Math params n : forall year pv w calls i r,
  negative w = false ->
  nth_error (loopRecords Math params n year pv w calls) i = Some r ->
  negative (withdrawalAmount r) = false.
Proof.
  induction n as [|n IH]; intros year pv w calls i r Hw Hnth.
  - destruct i; discriminate Hnth.
  - rewrite loopRecords_S in Hnth.
    destruct (yearBody_spec params year pv w (sampledReturn Math params calls))
      as (result & next & E & _ & Ew & Hrule & _).
    rewrite E in Hnth. clear E. rewrite Ew in Hrule.
    destruct i as [|i].
    + injection Hnth as <-. now rewrite Ew.
    + simpl in Hnth. destruct (_ <=? of_Z 0); [destruct i; discriminate Hnth|].
      eapply IH; [|exact Hnth].
      eapply NextYear_not_negative; eassumption.
Qed.

(** C10.  With a starting value [>= 0] and a rate [>= 0], no record of a
    run carries a withdrawal below zero, and when both are finite every
    withdrawal is [>= 0].  The first withdrawal is
    [startingValue * (initialRate / 100)], and each later one is the one
    before it, unchanged or multiplied by 0.9, 1.1 or 1.03; no clamping is
    involved, and nothing is assumed of the sampled returns or of the
    balance. *)
Theorem withdrawal_never_negative :
  forall (Math : MathObject) (startingValue : number)
         (params : WithdrawalParams) (years calls : nat),
    (of_Z 0 <=? startingValue) = true ->
    (of_Z 0 <=? initialRate params) = true ->
    let rs := runRecords Math startingValue params years calls in
    (forall i r, nth_error rs i = Some r ->
                 (withdrawalAmount r <? of_Z 0) = false)
    /\ (is_finite startingValue = true ->
        is_finite (initialRate params) = true ->
        forall i r, nth_error rs i = Some r ->
                    (of_Z 0 <=? withdrawalAmount r) = true)
    /\ (forall r, nth_error rs 0 = Some r ->
                  withdrawalAmount r
                  = startingValue * (initialRate params / of_Z 100))
    /\ (forall i r r',
          nth_error rs i = Some r -> nth_error rs (S i) = Some r' ->
          withdrawalAmount r' = withdrawalAmount r * dec 9 10
          \/ withdrawalAmount r' = withdrawalAmount r * dec 11 10
          \/ withdrawalAmount r' = withdrawalAmount r * dec 103 100
          \/ withdrawalAmount r' = withdrawalAmount r).
Proof.
  intros Math sv params years calls Hsv Hrate rs. unfold rs.
  rewrite runRecords_loop. split; [|split; [|split]].
  - intros i r Hnth. apply not_negative_not_below_zero.
    eapply (@loop_withdrawal_not_negative Math params); [|exact Hnth].
    now apply first_withdrawal_not_negative.
  - intros Fsv Frate i r Hnth.
    eapply (@loop_withdrawal_nonNegative Math params); [|exact Hnth].
    apply nonNegative_mul; [now split|]. apply nonNegative_rate. now split.
  - intros r Hnth.
    destruct (@loop_years Math params _ _ _ _ _ _ _ Hnth)
      as (_ & _ & _ & H0 & _).
    now apply H0.
  - intros i r r' Hnth Hnth'.
    destruct (@loop_years Math params _ _ _ _ _ _ _ Hnth)
      as (next & (Hrule & _) & _ & _ & Hnext).
    rewrite (Hnext _ Hnth').
    exact (NextYear_factor Hrule).
Qed.

(** *** The inflation rule *)

Lemma flat_return_does_not_gain (previousValue : number) :
  (previousValue * (of_Z 1 + of_Z 0) >? previousValue) = false.
Proof.
  change (of_Z 1 + of_Z 0) with (Fin 1).
  destruct previousValue as [| |p|]; try reflexivity.
  unfold gtb, ltb. cbn [mul]. apply negb_false_iff, Qle_bool_iff.
  rewrite Qred_correct. ring_simplify. apply Qle_refl.
Qed.

(** C5, as the code has it.  In a year in which neither guardrail
    condition holds, the record has no guardrail, and its inflation flag
    is set exactly when the balance after growth is greater than the
    balance after the withdrawal.  A return of 0 does not set the flag. *)
Theorem inflation_flag_without_guardrails :
  forall (Math : MathObject) (startingValue : number)
         (params : WithdrawalParams) (years calls i : nat)
         (r : WithdrawalResult),
    let rs := runRecords Math startingValue params years calls in
    nth_error rs i = Some r ->
    let randomReturn := sampledReturn Math params (calls + 2 * i) in
    let previousValue :=
      balanceBefore startingValue rs i - withdrawalAmount r in
    let pv := previousValue * (of_Z 1 + randomReturn) in
    let currentRate := withdrawalAmount r / pv in
    upperCrossed params currentRate = false ->
    lowerCrossed params currentRate = false ->
    guardrailTriggered r = None
    /\ inflationAdjusted r = (pv >? previousValue)
    /\ (randomReturn = of_Z 0 -> inflationAdjusted r = false).
Proof.
  intros Math sv params years calls i r rs Hnth. unfold rs in *.
  rewrite runRecords_loop in *.
  destruct (@loop_years Math params _ _ _ _ _ _ _ Hnth)
    as (next & (Hrule & _) & _).
  cbv zeta. intros Hu Hl.
  assert (H : guardrailTriggered r = None
              /\ inflationAdjusted r
                 = ((balanceBefore sv
                       (loopRecords Math params years 1 sv
                          (sv * (initialRate params / of_Z 100)) calls) i
                     - withdrawalAmount r)
                    * (of_Z 1 + sampledReturn Math params (calls + 2 * i))
                    >? balanceBefore sv
                         (loopRecords Math params years 1 sv
                            (sv * (initialRate params / of_Z 100)) calls) i
                       - withdrawalAmount r)).
  { inversion Hrule as [Hu'|Hu' Hl'|Hu' Hl' Hg|Hu' Hl' Hg]; try congruence;
      rewrite Hg; split; reflexivity. }
  destruct H as [Hg Hi]. repeat split; auto.
  intros Hr. rewrite Hi, Hr. apply flat_return_does_not_gain.
Qed.

(** C5, counterexample.  Guardrails of 1,000,000,000 are crossed in
    neither run.  With flat returns no record has the inflation flag; with
    a return of 1% every year and a rate of 40, the third year starts
    with less than its withdrawal and its record has no flag either. *)
Lemma inflation_flag_not_always_set :
  let Math := sampleMath (fun _ => Fin (1 # 2)) in
  let flat := runRecords Math (of_Z 10000000) wideParams 5 0 in
  let rising := runRecords Math (of_Z 100) depletingParams 5 0 in
  (map returnRate flat = [of_Z 0; of_Z 0; of_Z 0; of_Z 0; of_Z 0]
   /\ (forall i r,
         nth_error flat i = Some r ->
         let previousValue :=
           balanceBefore (of_Z 10000000) flat i - withdrawalAmount r in
         let pv := previousValue
                   * (of_Z 1 + sampledReturn Math wideParams (2 * i)) in
         upperCrossed wideParams (withdrawalAmount r / pv) = false
         /\ lowerCrossed wideParams (withdrawalAmount r / pv) = false)
   /\ map inflationAdjusted flat = [false; false; false; false; false])
  /\ (map returnRate rising = [of_Z 1; of_Z 1; of_Z 1]
      /\ (forall i r,
            nth_error rising i = Some r ->
            let previousValue :=
              balanceBefore (of_Z 100) rising i - withdrawalAmount r in
            let pv := previousValue
                      * (of_Z 1 + sampledReturn Math depletingParams (2 * i)) in
            upperCrossed depletingParams (withdrawalAmount r / pv) = false
            /\ lowerCrossed depletingParams (withdrawalAmount r / pv) = false)
      /\ map inflationAdjusted rising = [true; true; false]).
Proof.
  cbv zeta.
  evaluate (runRecords (sampleMath (fun _ => Fin (1 # 2)))
                       (of_Z 10000000) wideParams 5 0).
  evaluate (runRecords (sampleMath (fun _ => Fin (1 # 2)))
                       (of_Z 100) depletingParams 5 0).
  split; (split; [reflexivity|]); (split; [|reflexivity]); intros i r H.
  - do 5 (destruct i as [|i];
          [injection H as <-; vm_compute; split; reflexivity|]).
    destruct i; discriminate H.
  - do 3 (destruct i as [|i];
          [injection H as <-; vm_compute; split; reflexivity|]).
    destruct i; discriminate H.
Qed.

(** *** The example of the specification *)

Lemma loopRecords_ext Math Math' params n : forall year pv w calls,
  (forall j, (j < n)%nat ->
             sampledReturn Math params (calls + 2 * j)
             = sampledReturn Math' params (calls + 2 * j)) ->
  loopRecords Math params n year pv w calls
  = loopRecords Math' params n year pv w calls.
Proof.
  induction n as [|n IH]; intros year pv w calls Hret; [reflexivity|].
  rewrite !loopRecords_S.
  assert (H0 : sampledReturn Math params calls
               = sampledReturn Math' params calls).
  { specialize (Hret 0%nat). rewrite Nat.mul_0_r, Nat.add_0_r in Hret.
    apply Hret. lia. }
  rewrite H0.
  destruct (yearBody params _ year pv w _) as [[result pv'] next].
  rewrite IH; [reflexivity|].
  intros j Hj.
  replace (S (S calls) + 2 * j)%nat with (calls + 2 * S j)%nat by lia.
  apply Hret. lia.
Qed.

Lemma flat_return Math params calls :
  expectedAPY params = of_Z 0 ->
  volatility params = of_Z 0 ->
  is_finite (deviate Math calls) = true ->
  sampledReturn Math params calls = of_Z 0.
Proof.
  intros Ea Ev F. unfold sampledReturn.
  rewrite generateRandomReturn_eq, Ea, Ev. cbn [fst].
  apply is_finite_Fin in F as [z ->].
  change (of_Z 0 / of_Z 100) with (Fin 0). cbn [mul add].
  unfold of_Z. f_equal.
  rewrite (Qred_complete (z * 0) 0) by ring. reflexivity.
Qed.

(** C2, as the code has it.  When the five deviates of the run are
    finite, the run of the example applies a withdrawal of 400,000 in
    each of its five years, samples a return of 0 every year, never
    adjusts for inflation, and ends with 8,000,000; no guardrail fires in
    years 1 to 4, and the upper guardrail fires in year 5, where the rate
    is 5% and the threshold 4.8%. *)
Theorem example_run :
  forall (Math : MathObject) (calls : nat),
    (forall j, (j < 5)%nat ->
               is_finite (deviate Math (calls + 2 * j)) = true) ->
    runRecords Math (of_Z 10000000) exampleParams 5 calls
    = [ {| year := of_Z 1; portfolioValue := of_Z 9600000;
           withdrawalAmount := of_Z 400000; withdrawalRate := dec 25 6;
           returnRate := of_Z 0; inflationAdjusted := false;
           guardrailTriggered := None |};
        {| year := of_Z 2; portfolioValue := of_Z 9200000;
           withdrawalAmount := of_Z 400000; withdrawalRate := dec 100 23;
           returnRate := of_Z 0; inflationAdjusted := false;
           guardrailTriggered := None |};
        {| year := of_Z 3; portfolioValue := of_Z 8800000;
           withdrawalAmount := of_Z 400000; withdrawalRate := dec 50 11;
           returnRate := of_Z 0; inflationAdjusted := false;
           guardrailTriggered := None |};
        {| year := of_Z 4; portfolioValue := of_Z 8400000;
           withdrawalAmount := of_Z 400000; withdrawalRate := dec 100 21;
           returnRate := of_Z 0; inflationAdjusted := false;
           guardrailTriggered := None |};
        {| year := of_Z 5; portfolioValue := of_Z 8000000;
           withdrawalAmount := of_Z 400000; withdrawalRate := of_Z 5;
           returnRate := of_Z 0; inflationAdjusted := false;
           guardrailTriggered := Some upper |} ].
Proof.
  intros Math calls F.
  rewrite runRecords_loop.
  rewrite (@loopRecords_ext Math (sampleMath (fun _ => Fin (1 # 2)))).
  - vm_compute. reflexivity.
  - intros j Hj. rewrite !flat_return; auto.
Qed.

(** C2, counterexample.  The run of the example with every draw 1/2: the
    record of year 5 has the upper guardrail. *)
Lemma example_run_fires_upper_guardrail :
  let rs := runRecords (sampleMath (fun _ => Fin (1 # 2)))
                       (of_Z 10000000) exampleParams 5 0 in
  map returnRate rs = [of_Z 0; of_Z 0; of_Z 0; of_Z 0; of_Z 0]
  /\ map guardrailTriggered rs = [None; None; None; None; Some upper]
  /\ ~ Forall (fun r => guardrailTriggered r = None) rs.
Proof.
  cbv zeta. split; [vm_compute; reflexivity|].
  split; [vm_compute; reflexivity|].
  intro H.
  assert (E : map guardrailTriggered
                  (runRecords (sampleMath (fun _ => Fin (1 # 2)))
                              (of_Z 10000000) exampleParams 5 0)
              = [None; None; None; None; Some upper])
    by (vm_compute; reflexivity).
  apply (Forall_map guardrailTriggered (fun g => g = None)) in H.
  rewrite E in H.
  do 4 (apply Forall_inv_tail in H). apply Forall_inv in H. discriminate H.
Qed.

(** *** The sampler *)

(** C9, at the failing draw.  [Math.log(0)] is [-Infinity] and
    [Math.sqrt(Infinity)] is [Infinity]; when the first draw of a call is
    0, the value returned is not finite, whatever the second draw, the
    mean and the deviation are. *)
Theorem zero_draw_return_not_finite :
  forall (Math : MathObject) (mean stdDev : number) (calls : nat),
    Math_log Math (of_Z 0) = NegInf ->
    Math_sqrt Math PosInf = PosInf ->
    Math_random Math calls = of_Z 0 ->
    is_finite (fst (generateRandomReturn Math mean stdDev calls)) = false.
Proof.
  intros Math mean stdDev calls Hlog Hsqrt Hu1.
  rewrite generateRandomReturn_eq. cbn [fst]. unfold deviate.
  rewrite Hu1, Hlog.
  change (of_Z (-2) * NegInf) with PosInf. rewrite Hsqrt.
  destruct (Math_cos Math _) as [| |c|]; destruct stdDev as [| |s|];
    destruct mean as [| |m|]; cbn; try reflexivity;
    repeat match goal with
           | |- context [Qeq_bool ?a ?b] => destruct (Qeq_bool a b); cbn
           | |- context [Qle_bool ?a ?b] => destruct (Qle_bool a b); cbn
           end; reflexivity.
Qed.

(** *** The theorems at concrete runs *)

(** Year 5 of the example run. *)
Lemma example_year_five_rules :
  let Math := sampleMath (fun _ => Fin (1 # 2)) in
  let r5 := {| year := of_Z 5; portfolioValue := of_Z 8000000;
               withdrawalAmount := of_Z 400000; withdrawalRate := of_Z 5;
               returnRate := of_Z 0; inflationAdjusted := false;
               guardrailTriggered := Some upper |} in
  nth_error (runRecords Math (of_Z 10000000) exampleParams 5 0) 4 = Some r5
  /\ portfolioValue r5
     = Math_max (of_Z 0)
         ((balanceBefore (of_Z 10000000)
             (runRecords Math (of_Z 10000000) exampleParams 5 0) 4
           - withdrawalAmount r5)
          * (of_Z 1 + sampledReturn Math exampleParams (0 + 2 * 4))).
Proof.
  cbv zeta.
  assert (H : nth_error
                (runRecords (sampleMath (fun _ => Fin (1 # 2)))
                            (of_Z 10000000) exampleParams 5 0) 4
              = Some {| year := of_Z 5; portfolioValue := of_Z 8000000;
                        withdrawalAmount := of_Z 400000;
                        withdrawalRate := of_Z 5;
                        returnRate := of_Z 0; inflationAdjusted := false;
                        guardrailTriggered := Some upper |})
    by (vm_compute; reflexivity).
  split; [exact H|].
  exact (proj1 (proj2 (@gk_rules_are_priority_ordered _ _ _ _ _ _ _ H))).
Defined.

(** The run that is depleted in its third year. *)
Lemma depleting_run_stops :
  let Math := sampleMath (fun _ => Fin (1 # 2)) in
  let rs := runRecords Math (of_Z 100) depletingParams 5 0 in
  let r1 := {| year := of_Z 1; portfolioValue := dec 303 5;
               withdrawalAmount := of_Z 40; withdrawalRate := dec 20000 303;
               returnRate := of_Z 1; inflationAdjusted := true;
               guardrailTriggered := None |} in
  nth_error rs 0 = Some r1
  /\ (1 < length rs)%nat
  /\ is_nan (portfolioValue r1) = false
  /\ (length rs < 5)%nat
  /\ (portfolioValue r1 >? of_Z 0) = true
  /\ exists r, last_elem rs = Some r
               /\ (portfolioValue r <=? of_Z 0) = true.
Proof.
  cbv zeta.
  set (r1 := {| year := of_Z 1; portfolioValue := dec 303 5;
                withdrawalAmount := of_Z 40; withdrawalRate := dec 20000 303;
                returnRate := of_Z 1; inflationAdjusted := true;
                guardrailTriggered := None |}).
  assert (H : nth_error
                (runRecords (sampleMath (fun _ => Fin (1 # 2)))
                            (of_Z 100) depletingParams 5 0) 0 = Some r1)
    by (vm_compute; reflexivity).
  assert (L : (1 < length (runRecords (sampleMath (fun _ => Fin (1 # 2)))
                                      (of_Z 100) depletingParams 5 0))%nat)
    by (vm_compute; lia).
  assert (N : is_nan (portfolioValue r1) = false) by reflexivity.
  assert (S : (length (runRecords (sampleMath (fun _ => Fin (1 # 2)))
                                  (of_Z 100) depletingParams 5 0) < 5)%nat)
    by (vm_compute; lia).
  split; [exact H|]. split; [exact L|]. split; [exact N|]. split; [exact S|].
  split.
  - exact (proj2 (proj2 (proj2 (proj2 (proj2
             (@run_stops_at_depletion (sampleMath (fun _ => Fin (1 # 2)))
                (of_Z 100) depletingParams 5 0)))) 0%nat r1 H L) N).
  - exact (proj1 (proj2 (proj2 (proj2
             (@run_stops_at_depletion (sampleMath (fun _ => Fin (1 # 2)))
                (of_Z 100) depletingParams 5 0)))) S).
Defined.

Lemma depleting_run_withdrawals :
  let Math := sampleMath (fun _ => Fin (1 # 2)) in
  let rs := runRecords Math (of_Z 100) depletingParams 5 0 in
  let r3 := {| year := of_Z 3; portfolioValue := of_Z 0;
               withdrawalAmount := dec 10609 250;
               withdrawalRate := dec (-212180000) 1153521;
               returnRate := of_Z 1; inflationAdjusted := false;
               guardrailTriggered := None |} in
  is_finite (of_Z 100) = true
  /\ is_finite (initialRate depletingParams) = true
  /\ (of_Z 0 <=? of_Z 100) = true
  /\ (of_Z 0 <=? initialRate depletingParams) = true
  /\ nth_error rs 2 = Some r3
  /\ (of_Z 0 <=? withdrawalAmount r3) = true.
Proof.
  cbv zeta.
  assert (F : is_finite (of_Z 100) = true) by reflexivity.
  assert (R : is_finite (initialRate depletingParams) = true) by reflexivity.
  assert (P : (of_Z 0 <=? of_Z 100) = true) by reflexivity.
  assert (Q : (of_Z 0 <=? initialRate depletingParams) = true) by reflexivity.
  assert (H : nth_error
                (runRecords (sampleMath (fun _ => Fin (1 # 2)))
                            (of_Z 100) depletingParams 5 0) 2
              = Some {| year := of_Z 3; portfolioValue := of_Z 0;
                        withdrawalAmount := dec 10609 250;
                        withdrawalRate := dec (-212180000) 1153521;
                        returnRate := of_Z 1; inflationAdjusted := false;
                        guardrailTriggered := None |})
    by (vm_compute; reflexivity).
  split; [exact F|]. split; [exact R|]. split; [exact P|]. split; [exact Q|].
  split; [exact H|].
  exact (proj1 (proj2 (@withdrawal_never_negative
                         (sampleMath (fun _ => Fin (1 # 2))) (of_Z 100)
                         depletingParams 5 0 P Q)) F R _ _ H).
Defined.

(** Year 1 of the depleting run gains, and year 1 of the run with flat
    returns does not. *)
Lemma depleting_run_first_year_flag :
  let Math := sampleMath (fun _ => Fin (1 # 2)) in
  let r1 := {| year := of_Z 1; portfolioValue := dec 303 5;
               withdrawalAmount := of_Z 40; withdrawalRate := dec 20000 303;
               returnRate := of_Z 1; inflationAdjusted := true;
               guardrailTriggered := None |} in
  let f1 := {| year := of_Z 1; portfolioValue := of_Z 9600000;
               withdrawalAmount := of_Z 400000; withdrawalRate := dec 25 6;
               returnRate := of_Z 0; inflationAdjusted := false;
               guardrailTriggered := None |} in
  nth_error (runRecords Math (of_Z 100) depletingParams 5 0) 0 = Some r1
  /\ guardrailTriggered r1 = None
  /\ nth_error (runRecords Math (of_Z 10000000) wideParams 5 0) 0 = Some f1
  /\ sampledReturn Math wideParams (0 + 2 * 0) = of_Z 0
  /\ inflationAdjusted f1 = false.
Proof.
  cbv zeta.
  set (r1 := {| year := of_Z 1; portfolioValue := dec 303 5;
                withdrawalAmount := of_Z 40; withdrawalRate := dec 20000 303;
                returnRate := of_Z 1; inflationAdjusted := true;
                guardrailTriggered := None |}).
  set (f1 := {| year := of_Z 1; portfolioValue := of_Z 9600000;
                withdrawalAmount := of_Z 400000; withdrawalRate := dec 25 6;
                returnRate := of_Z 0; inflationAdjusted := false;
                guardrailTriggered := None |}).
  assert (H : nth_error
                (runRecords (sampleMath (fun _ => Fin (1 # 2)))
                            (of_Z 100) depletingParams 5 0) 0 = Some r1)
    by (vm_compute; reflexivity).
  assert (G : nth_error
                (runRecords (sampleMath (fun _ => Fin (1 # 2)))
                            (of_Z 10000000) wideParams 5 0) 0 = Some f1)
    by (vm_compute; reflexivity).
  assert (Z : sampledReturn (sampleMath (fun _ => Fin (1 # 2)))
                            wideParams (0 + 2 * 0) = of_Z 0)
    by (vm_compute; reflexivity).
  split; [exact H|].
  split.
  - destruct (@inflation_flag_without_guardrails _ _ _ _ _ _ _ H)
      as (Hg & _); [vm_compute; reflexivity | vm_compute; reflexivity |].
    exact Hg.
  - split; [exact G|]. split; [exact Z|].
    destruct (@inflation_flag_without_guardrails _ _ _ _ _ _ _ G)
      as (_ & _ & Hi); [vm_compute; reflexivity | vm_compute; reflexivity |].
    exact (Hi Z).
Defined.

Lemma example_run_with_sample_host :
  (forall j, (j < 5)%nat ->
             is_finite (deviate (sampleMath (fun _ => Fin (1 # 2)))
                                (0 + 2 * j)) = true)
  /\ map portfolioValue
         (runRecords (sampleMath (fun _ => Fin (1 # 2)))
                     (of_Z 10000000) exampleParams 5 0)
     = [of_Z 9600000; of_Z 9200000; of_Z 8800000; of_Z 8400000;
        of_Z 8000000].
Proof.
  assert (F : forall j, (j < 5)%nat ->
             is_finite (deviate (sampleMath (fun _ => Fin (1 # 2)))
                                (0 + 2 * j)) = true)
    by (intros j _; reflexivity).
  split; [exact F|].
  rewrite (@example_run (sampleMath (fun _ => Fin (1 # 2))) 0 F).
  reflexivity.
Defined.

(** A host whose every draw is 0. *)
Lemma zero_draw_example :
  let Math := sampleMath (fun _ => of_Z 0) in
  Math_log Math (of_Z 0) = NegInf
  /\ Math_sqrt Math PosInf = PosInf
  /\ Math_random Math 0%nat = of_Z 0
  /\ is_finite (fst (generateRandomReturn Math (dec 7 100) (dec 15 100)
                                          0%nat))
     = false.
Proof.
  cbv zeta.
  split; [reflexivity|]. split; [reflexivity|]. split; [reflexivity|].
  apply zero_draw_return_not_finite; reflexivity.
Defined.

End GKProofs.

(** ** Statistics of a batch *)

Module BatchProofs.

Import GK NumFacts.
Local Open Scope num_scope.

(** *** Success rate *)

Lemma last_elem_rev {A : Type} (a : list A) : last_elem a = hd_error (rev a).
Proof.
  destruct a as [|x a] using rev_ind; [reflexivity|].
  unfold last_elem. rewrite length_app, Nat.add_comm. simpl.
  rewrite nth_error_app2, Nat.sub_diag, rev_app_distr by lia. reflexivity.
Qed.

Lemma successful_filter sims :
  filter (fun sim => match last_elem sim with
                     | Some final => portfolioValue final >? of_Z 0
                     | None => false
                     end) sims
  = filter succeeded sims.
Proof.
  apply filter_ext. intro sim. unfold succeeded.
  rewrite last_elem_rev. destruct (rev sim); reflexivity.
Qed.

Lemma round_percentage (c n : Z) :
  (0 < n)%Z ->
  exists k,
    Math_round ((of_Z c / of_Z n) * of_Z 100) = of_Z k
    /\ (inject_Z c / inject_Z n * 100 - (1 # 2) < inject_Z k)%Q
    /\ (inject_Z k <= inject_Z c / inject_Z n * 100 + (1 # 2))%Q.
Proof.
  intro Hn.
  assert (Hn' : ~ inject_Z n == 0).
  { intro H. unfold Qeq in H. simpl in H. lia. }
  unfold of_Z. rewrite div_Fin_nonzero by exact Hn'.
  cbn [mul Math_round]. change (inject_Z 100) with 100.
  set (x := (inject_Z c / inject_Z n * 100)%Q).
  assert (E : (Qred (Qred (inject_Z c / inject_Z n) * 100) + (1 # 2)
               == x + (1 # 2))%Q).
  { rewrite !Qred_correct. reflexivity. }
  rewrite (Qfloor_comp _ _ E).
  exists (Qfloor (x + (1 # 2))%Q). split; [reflexivity|].
  pose proof (Qfloor_le (x + (1 # 2))%Q) as H1.
  pose proof (Qlt_floor (x + (1 # 2))%Q) as H2.
  rewrite inject_Z_plus in H2. change (inject_Z 1) with 1 in H2.
  split; lra.
Qed.

(** C8.  The success rate is [count / total * 100] rounded, [count]
    being the number of runs whose last record has a balance [> 0].  For
    a batch that is not empty it is a whole number nearest to the
    percentage: the two differ by at most 1/2. *)
Theorem success_rate_is_rounded_percentage :
  forall sims : list (list WithdrawalResult),
    calculateSuccessRate sims
    = Math_round (of_nat (successCount sims) / of_nat (length sims)
                  * of_Z 100)
    /\ (sims <> [] ->
        let count := inject_Z (Z.of_nat (successCount sims)) in
        let total := inject_Z (Z.of_nat (length sims)) in
        exists k : Z,
          calculateSuccessRate sims = of_Z k
          /\ (count / total * 100 - (1 # 2) <= inject_Z k)%Q
          /\ (inject_Z k <= count / total * 100 + (1 # 2))%Q).
Proof.
  intro sims.
  assert (E0 : calculateSuccessRate sims
               = Math_round (of_nat (successCount sims)
                             / of_nat (length sims) * of_Z 100)).
  { unfold calculateSuccessRate, successCount.
    now rewrite successful_filter. }
  split; [exact E0|].
  intros Hne. cbv zeta. rewrite E0. unfold successCount, of_nat.
  destruct (@round_percentage
              (Z.of_nat (length (filter succeeded sims)))
              (Z.of_nat (length sims))) as (k & E & Hlo & Hhi).
  { destruct sims; [contradiction|]. simpl. lia. }
  exists k. split; [exact E|]. split; [|exact Hhi].
  apply Qlt_le_weak. exact Hlo.
Qed.

(** *** Median *)

Lemma compare_by_difference x y :
  is_nan x = false -> is_nan y = false ->
  (x - y >? of_Z 0) = (y <? x).
Proof.
  destruct x as [| |a|], y as [| |b|]; try discriminate; try reflexivity.
  intros _ _. unfold gtb, ltb, of_Z. cbn [sub]. change (inject_Z 0) with 0.
  f_equal. apply eq_true_iff_eq. rewrite !Qle_bool_iff, Qred_correct.
  split; intro H; lra.
Qed.

Lemma not_after_is_le x y :
  is_nan x = false -> is_nan y = false ->
  (y <? x) = false -> (x <=? y) = true.
Proof.
  destruct x as [| |a|], y as [| |b|]; try discriminate; try reflexivity.
  unfold ltb, leb. intros _ _ H. apply negb_false_iff in H. exact H.
Qed.

Lemma after_is_ge x y : (y <? x) = true -> (y <=? x) = true.
Proof.
  destruct x as [| |a|], y as [| |b|]; try discriminate; try reflexivity.
  unfold ltb, leb. intro H. apply negb_true_iff in H.
  apply Qle_bool_iff. apply Qlt_le_weak, Qnot_le_lt.
  intro H'. apply Qle_bool_iff in H'. congruence.
Qed.

Lemma sort_insert_perm x a :
  Permutation (x :: a) (sort_insert (fun a b => a - b) x a).
Proof.
  induction a as [|y a IH]; cbn [sort_insert]; [reflexivity|].
  destruct (x - y >? of_Z 0); [|reflexivity].
  rewrite perm_swap. now apply perm_skip.
Qed.

Lemma sort_perm a : Permutation a (sort (fun a b => a - b) a).
Proof.
  induction a as [|x a IH]; [reflexivity|].
  unfold sort. cbn [fold_right]. fold (sort (fun a b => a - b) a).
  rewrite <- sort_insert_perm. now apply perm_skip.
Qed.

Lemma sort_insert_ascending x a :
  is_nan x = false -> noNaN a -> ascending a ->
  ascending (sort_insert (fun a b => a - b) x a).
Proof.
  intros Hx Ha Hs. induction a as [|y a IH]; cbn [sort_insert].
  - repeat constructor.
  - inversion Ha as [|? ? Hy Ha']; subst.
    inversion Hs as [|? ? Hs' Hhd]; subst.
    rewrite compare_by_difference by assumption.
    destruct (y <? x) eqn:E.
    + constructor; [now apply IH|].
      destruct a as [|z a]; cbn [sort_insert].
      * constructor. now apply after_is_ge.
      * destruct (x - z >? of_Z 0); constructor.
        -- now inversion Hhd.
        -- now apply after_is_ge.
    + constructor; [assumption|]. constructor.
      now apply not_after_is_le.
Qed.

Lemma sort_noNaN a : noNaN a -> noNaN (sort (fun a b => a - b) a).
Proof.
  intro H. unfold noNaN in *. rewrite Forall_forall in *.
  intros x Hx. apply H. eapply Permutation_in; [|exact Hx].
  symmetry. apply sort_perm.
Qed.

Lemma sort_ascending a : noNaN a -> ascending (sort (fun a b => a - b) a).
Proof.
  induction 1 as [|x a Hx Ha IH]; [constructor|].
  unfold sort. cbn [fold_right]. fold (sort (fun a b => a - b) a).
  apply sort_insert_ascending; auto. now apply sort_noNaN.
Qed.

Lemma terminalValues_noNaN sims : noNaN (terminalValues sims).
Proof.
  unfold noNaN, terminalValues. apply Forall_map, Forall_forall. intros sim _.
  destruct (option_map portfolioValue (last_elem sim)) as [v|]; simpl;
    [|reflexivity].
  unfold truthy.
  destruct v; reflexivity
              || (simpl; destruct (Qeq_bool q 0); reflexivity).
Qed.

Lemma array_get_half {A : Type} (a : list A) :
  array_get a (Math_floor (of_nat (length a) / of_Z 2))
  = nth_error a (length a / 2).
Proof.
  unfold of_nat, of_Z. rewrite div_Fin_nonzero by discriminate.
  cbn [Math_floor]. unfold of_Z.
  rewrite (Qfloor_comp _ _ (Qred_correct _)), <- Zdiv_Qdiv.
  unfold array_get. rewrite !Qfloor_Z.
  rewrite Qeq_bool_refl. cbn [andb].
  assert (H : (0 <= Z.of_nat (length a) / 2)%Z)
    by (apply Z.div_pos; lia).
  apply Z.leb_le in H. rewrite H.
  f_equal. change 2%Z with (Z.of_nat 2).
  rewrite <- Nat2Z.inj_div. apply Nat2Z.id.
Qed.

Lemma ascending_adjacent a : forall i lo hi,
  ascending a ->
  nth_error a i = Some lo -> nth_error a (S i) = Some hi ->
  (lo <=? hi) = true.
Proof.
  induction a as [|x a IH]; intros i lo hi Hs Hlo Hhi.
  - destruct i; discriminate Hlo.
  - inversion Hs as [|? ? Hs' Hhd]; subst.
    destruct i as [|i].
    + injection Hlo as <-. destruct a as [|y a]; [discriminate Hhi|].
      injection Hhi as <-. now inversion Hhd.
    + eapply IH; eassumption.
Qed.

(** C3, as the code has it.  For a batch that is not empty, the median
    is the element at index [floor(n/2)] of the terminal values in
    ascending order.  When [n] is even this is the upper median: the
    position after the lower median, holding a value that is not
    smaller. *)
Theorem median_is_upper_middle_element :
  forall sims : list (list WithdrawalResult),
    sims <> [] ->
    let n := length sims in
    let sorted := sort (fun a b => a - b) (terminalValues sims) in
    Permutation (terminalValues sims) sorted
    /\ ascending sorted
    /\ exists v,
         calculateMedianFinal sims = Some v
         /\ nth_error sorted (n / 2) = Some v
         /\ (Nat.even n = true ->
             (n / 2 = upperMedianIndex n
              /\ upperMedianIndex n = S (lowerMedianIndex n))%nat
             /\ exists lo,
                  nth_error sorted (lowerMedianIndex n) = Some lo
                  /\ (lo <=? v) = true).
Proof.
  intros sims Hne n sorted.
  assert (Hperm : Permutation (terminalValues sims) sorted) by apply sort_perm.
  assert (Hasc : ascending sorted)
    by apply sort_ascending, terminalValues_noNaN.
  assert (Hlen : length sorted = n).
  { rewrite <- (Permutation_length Hperm). apply length_map. }
  assert (Hn : (0 < n)%nat).
  { unfold n. destruct sims; [contradiction|]. simpl. lia. }
  split; [exact Hperm|]. split; [exact Hasc|].
  assert (Hhalf : (n / 2 < length sorted)%nat).
  { rewrite Hlen. apply Nat.div_lt; lia. }
  destruct (nth_error sorted (n / 2)) as [v|] eqn:Ev;
    [|apply nth_error_None in Ev; lia].
  exists v. split.
  { unfold calculateMedianFinal. fold sorted.
    rewrite array_get_half, Hlen. exact Ev. }
  split; [reflexivity|].
  intro Heven. unfold upperMedianIndex, lowerMedianIndex.
  assert (H2 : (1 <= n / 2)%nat).
  { apply Nat.even_spec in Heven as [m Hm].
    rewrite Hm, Nat.mul_comm, Nat.div_mul by lia. lia. }
  split; [split; [reflexivity | lia]|].
  destruct (nth_error sorted (n / 2 - 1)) as [lo|] eqn:El;
    [|apply nth_error_None in El; lia].
  exists lo. split; [reflexivity|].
  apply (@ascending_adjacent sorted (n / 2 - 1)); auto.
  now replace (S (n / 2 - 1)) with (n / 2)%nat by lia.
Qed.

(** C3, counterexample.  Four runs ending with 3, 1, 4 and 2: the median
    computed is 3, and the lower median of 1, 2, 3, 4 is 2. *)
Lemma median_of_four_is_not_lower :
  let sorted := sort (fun a b => a - b) (terminalValues fourRuns) in
  sorted = [of_Z 1; of_Z 2; of_Z 3; of_Z 4]
  /\ calculateMedianFinal fourRuns = Some (of_Z 3)
  /\ nth_error sorted (lowerMedianIndex (length fourRuns)) = Some (of_Z 2)
  /\ calculateMedianFinal fourRuns
     <> nth_error sorted (lowerMedianIndex (length fourRuns)).
Proof.
  cbv zeta. repeat split; try (vm_compute; reflexivity).
  vm_compute. discriminate.
Qed.

(** *** The theorems at concrete batches *)

Lemma success_rate_of_three_runs :
  oneOfThree <> []
  /\ successCount oneOfThree = 1%nat
  /\ calculateSuccessRate oneOfThree = of_Z 33
  /\ exists k : Z,
       calculateSuccessRate oneOfThree = of_Z k
       /\ (inject_Z 1 / inject_Z 3 * 100 - (1 # 2) <= inject_Z k)%Q
       /\ (inject_Z k <= inject_Z 1 / inject_Z 3 * 100 + (1 # 2))%Q.
Proof.
  assert (H : oneOfThree <> []) by discriminate.
  split; [exact H|]. split; [reflexivity|].
  split; [vm_compute; reflexivity|].
  exact (proj2 (@success_rate_is_rounded_percentage oneOfThree) H).
Defined.

Lemma median_of_four_runs :
  fourRuns <> []
  /\ ascending (sort (fun a b => a - b) (terminalValues fourRuns))
  /\ calculateMedianFinal fourRuns = Some (of_Z 3).
Proof.
  assert (H : fourRuns <> []) by discriminate.
  split; [exact H|].
  split; [exact (proj1 (proj2 (@median_is_upper_middle_element fourRuns H)))|].
  vm_compute. reflexivity.
Defined.

End BatchProofs.

(** * Further properties *)

(** ** Shape and sign of the projection, and the target handlers *)

Module ProjectionShape.

Import Projection Targets NumFacts ProjectionProofs.
Local Open Scope num_scope.

(** *** Number and order of the snapshots *)

(** X1.  The projection has one snapshot for year 0 and one for each
    year of the horizon, numbered 0, 1, ..., [years] in this order; with a
    horizon of 0 it is the single snapshot of the rounded holdings with
    no growth. *)
Theorem projection_has_one_snapshot_per_year :
  forall (currentTotalValue : number) (projection : ProjectionParams),
    length (projectionData currentTotalValue projection)
    = S (years projection)
    /\ map year (projectionData currentTotalValue projection)
       = map of_nat (seq 0 (S (years projection)))
    /\ (years projection = 0%nat ->
        projectionData currentTotalValue projection
        = [ {| year := of_Z 0;
               principal := Math_round currentTotalValue;
               interest := of_Z 0;
               total := Math_round currentTotalValue |} ]).
Proof.
  intros ctv p. rewrite projectionData_unfold.
  split; [|split].
  - cbn [length]. now rewrite length_map, length_seq.
  - cbn [map seq year]. f_equal. rewrite map_map. reflexivity.
  - intros ->. reflexivity.
Qed.

(** *** Only the figures of a target matter *)

Lemma growTarget_figures t t' idx st :
  figures t = figures t' -> growTarget t idx st = growTarget t' idx st.
Proof.
  unfold figures, growTarget. intro H. injection H as Ha Hr.
  now rewrite Ha, Hr.
Qed.

Lemma forEach_growTarget_figures ts : forall ts' idx st,
  map figures ts = map figures ts' ->
  forEach growTarget ts idx st = forEach growTarget ts' idx st.
Proof.
  induction ts as [|t ts IH]; intros [|t' ts'] idx st H;
    try discriminate H; [reflexivity|].
  cbn [map] in H. unfold figures at 1 3 in H. injection H as Ha Hr Hts.
  assert (Ht : figures t = figures t') by (unfold figures; now rewrite Ha, Hr).
  cbn [forEach]. rewrite (growTarget_figures _ _ Ht). now apply IH.
Qed.

Lemma months_figures p p' m : forall st,
  initialReturnRate p = initialReturnRate p' ->
  map figures (targets p) = map figures (targets p') ->
  months p m st = months p' m st.
Proof.
  induction m as [|m IH]; intros st Hr Hf; [reflexivity|].
  cbn [months].
  assert (E : month p st = month p' st).
  { unfold month. rewrite Hr. now apply forEach_growTarget_figures. }
  rewrite E. now apply IH.
Qed.

Lemma runningAfter_figures ctv p p' k :
  initialReturnRate p = initialReturnRate p' ->
  map figures (targets p) = map figures (targets p') ->
  runningAfter ctv p k = runningAfter ctv p' k.
Proof.
  intros Hr Hf. induction k as [|k IH].
  - cbn [runningAfter]. unfold initialRunning. f_equal.
    apply (f_equal (@length _)) in Hf. rewrite !length_map in Hf.
    clear - Hf. revert Hf. generalize (targets p'). 
    induction (targets p) as [|t ts IH]; intros [|t' ts'] H;
      try discriminate H; [reflexivity|].
    cbn [map]. f_equal. apply IH. now injection H.
  - cbn [runningAfter]. rewrite IH. now apply months_figures.
Qed.

Lemma projectionData_figures ctv p p' :
  initialReturnRate p = initialReturnRate p' ->
  years p = years p' ->
  map figures (targets p) = map figures (targets p') ->
  projectionData ctv p = projectionData ctv p'.
Proof.
  intros Hr Hy Hf. rewrite !projectionData_unfold, Hy.
  f_equal. apply map_ext. intro y.
  now rewrite (runningAfter_figures ctv p p' y Hr Hf).
Qed.

(** X4.  Writing the name or the id of targets with [updateTarget]
    leaves the whole projection as it was. *)
Theorem renaming_a_target_keeps_the_projection :
  forall (currentTotalValue : number) (p : ProjectionParams)
         (id0 value : string),
    projectionData currentTotalValue (updateTarget id0 (set_name value) p)
    = projectionData currentTotalValue p
    /\ projectionData currentTotalValue (updateTarget id0 (set_id value) p)
       = projectionData currentTotalValue p.
Proof.
  intros ctv p id0 value.
  split; apply projectionData_figures; try reflexivity;
    cbn [updateTarget targets]; rewrite map_map; apply map_ext;
    intro t; destruct (String.eqb (id t) id0); reflexivity.
Qed.

(** *** Writing a slot of [targetValues] *)

Lemma get_set a : forall idx v,
  (idx < length a)%nat -> get (set a idx v) idx = v.
Proof.
  induction a as [|x a IH]; intros [|idx] v H; simpl in H; try lia.
  - reflexivity.
  - apply (IH idx v). lia.
Qed.

Lemma set_set a : forall idx v v', set (set a idx v) idx v' = set a idx v'.
Proof.
  induction a as [|x a IH]; intros [|idx] v v'; simpl; auto.
  now rewrite IH.
Qed.

Lemma sumQ_set a : forall idx v,
  (idx < length a)%nat ->
  (sumQ (set a idx v) == sumQ a - valQ (get a idx) + valQ v)%Q.
Proof.
  induction a as [|x a IH]; intros [|idx] v H; simpl in H; try lia.
  - cbn [set sumQ get nth]. ring.
  - cbn [set sumQ]. rewrite IH by lia. unfold get. cbn [nth]. ring.
Qed.

Lemma targetValues_growTarget t idx st :
  targetValues (growTarget t idx st)
  = set (targetValues st) idx
        (get (set (targetValues st) idx
                  (get (targetValues st) idx + monthlyAmount t)) idx
         * (of_Z 1 + returnRate t / of_Z 100 / of_Z 12)).
Proof. unfold growTarget. cbn [targetValues]. apply set_set. Qed.

Lemma nonNegative_Fin x :
  nonNegative x -> exists q, x = Fin q /\ (0 <= q)%Q.
Proof.
  intros [F H]. apply is_finite_Fin in F as [q ->]. exists q.
  split; [reflexivity|]. unfold leb, of_Z in H.
  change (inject_Z 0) with 0%Q in H. now apply Qle_bool_iff.
Qed.

Lemma Fin_nonNegative q : (0 <= q)%Q -> nonNegative (Fin q).
Proof.
  intro H. split; [reflexivity|]. unfold leb, of_Z.
  change (inject_Z 0) with 0%Q. now apply Qle_bool_iff.
Qed.

Lemma monthly_factor r :
  nonNegative r ->
  exists f, of_Z 1 + r / of_Z 100 / of_Z 12 = Fin f /\ (1 <= f)%Q.
Proof.
  intro H. apply nonNegative_Fin in H as (q & -> & Hq).
  unfold of_Z. rewrite !div_Fin_nonzero by discriminate. cbn [add].
  eexists. split; [reflexivity|]. rewrite !Qred_correct.
  change (inject_Z 1) with 1%Q. change (inject_Z 100) with 100%Q.
  change (inject_Z 12) with 12%Q.
  assert (0 <= q / 100 / 12)%Q; [|lra].
  apply Qle_shift_div_l; [reflexivity|]. rewrite Qmult_0_l.
  apply Qle_shift_div_l; [reflexivity|]. now rewrite Qmult_0_l.
Qed.

(** *** Amounts and rates that are not negative *)

Lemma growTarget_gaining c n t idx st :
  nonNegative (monthlyAmount t) -> nonNegative (returnRate t) ->
  (idx < n)%nat ->
  gaining c n st -> gaining c n (growTarget t idx st).
Proof.
  intros Ha Hr Hidx (Hv & Htv & (pq & Hp & Hpq & Hle) & Hlen).
  apply nonNegative_Fin in Ha as (a & Ea & Ha).
  destruct (monthly_factor Hr) as (f & Ef & Hf).
  assert (Hg : nonNegative (get (targetValues st) idx))
    by (apply (@get_Forall nonNegative); [exact Htv | lia]).
  apply nonNegative_Fin in Hg as (x & Ex & Hx).
  unfold gaining. rewrite targetValues_growTarget.
  rewrite get_set by lia. rewrite Ex, Ea, Ef. cbn [add mul].
  unfold growTarget. cbn [valueFromInitial principalNewTotal].
  rewrite Hp, Ea. cbn [add].
  split; [exact Hv|]. split; [|split].
  - apply set_Forall; [exact Htv|]. apply Fin_nonNegative.
    rewrite !Qred_correct. apply Qmult_le_0_compat; lra.
  - eexists. split; [reflexivity|].
    rewrite sumQ_set by lia. rewrite Ex. cbn [valQ].
    rewrite !Qred_correct. split; nra.
  - now rewrite set_length.
Qed.

Lemma forEach_growTarget_gaining c n ts : forall idx st,
  nonNegativeTargets ts ->
  (idx + length ts <= n)%nat ->
  gaining c n st -> gaining c n (forEach growTarget ts idx st).
Proof.
  induction ts as [|t ts IH]; intros idx st Hts Hlen Hst; [exact Hst|].
  inversion Hts as [|? ? [Ha Hr] Hts']; subst. simpl in Hlen.
  cbn [forEach]. apply IH; [exact Hts' | lia |].
  apply growTarget_gaining; auto. lia.
Qed.

Lemma months_gaining c p m : forall st,
  (0 <= c)%Q ->
  nonNegative (initialReturnRate p) ->
  nonNegativeTargets (targets p) ->
  gaining c (length (targets p)) st ->
  gaining c (length (targets p)) (months p m st).
Proof.
  induction m as [|m IH]; intros st Hc Hr Hts Hst; [exact Hst|].
  cbn [months]. apply IH; auto.
  unfold month. apply forEach_growTarget_gaining; [exact Hts | simpl; lia |].
  destruct Hst as ((v & Ev & Hv) & Htv & Hp & Hlen).
  destruct (monthly_factor Hr) as (f & Ef & Hf).
  unfold gaining; cbn [valueFromInitial targetValues principalNewTotal].
  split; [|auto]. rewrite Ev, Ef. cbn [mul].
  eexists. split; [reflexivity|]. rewrite Qred_correct. nra.
Qed.

Lemma sumQ_zeros {A : Type} (ts : list A) :
  (sumQ (map (fun _ => of_Z 0) ts) == 0)%Q.
Proof.
  induction ts as [|t ts IH]; cbn [map sumQ valQ of_Z]; [reflexivity|].
  rewrite IH. reflexivity.
Qed.

Lemma runningAfter_gaining c p k :
  (0 <= c)%Q ->
  nonNegative (initialReturnRate p) ->
  nonNegativeTargets (targets p) ->
  gaining c (length (targets p)) (runningAfter (Fin c) p k).
Proof.
  intros Hc Hr Hts. induction k as [|k IH].
  - unfold runningAfter, initialRunning, gaining;
      cbn [valueFromInitial targetValues principalNewTotal].
    split; [exists c; split; [reflexivity | lra]|].
    split; [apply Forall_map, Forall_forall; intros;
            apply Fin_nonNegative; discriminate|].
    split; [|apply length_map].
    exists 0%Q. split; [reflexivity|]. split; [lra|].
    rewrite sumQ_zeros. lra.
  - cbn [runningAfter]. apply months_gaining; auto.
Qed.

Lemma Forall_nonNegative_finite a :
  Forall nonNegative a -> Forall (fun v => is_finite v = true) a.
Proof. apply Forall_impl. now intros x [F _]. Qed.

Lemma round_le (a b : Q) :
  (a <= b)%Q -> (Math_round (Fin a) <=? Math_round (Fin b)) = true.
Proof.
  intro H. cbn [Math_round]. unfold leb, of_Z. apply Qle_bool_iff.
  rewrite <- Zle_Qle. apply Qfloor_resp_le. lra.
Qed.

Lemma round_zero : Math_round (Fin 0) = of_Z 0.
Proof. reflexivity. Qed.

Lemma snapshots_gain c p snap :
  (0 <= c)%Q ->
  nonNegative (initialReturnRate p) ->
  nonNegativeTargets (targets p) ->
  In snap (projectionData (Fin c) p) ->
  (of_Z 0 <=? principal snap) = true
  /\ (of_Z 0 <=? total snap) = true.
Proof.
  intros Hc Hr Hts Hin.
  rewrite projectionData_unfold in Hin. destruct Hin as [<- | Hin].
  - cbn [interest principal total].
    split; rewrite <- round_zero; apply round_le; exact Hc.
  - apply in_map_iff in Hin as (y & <- & _).
    destruct (@runningAfter_gaining c p y Hc Hr Hts)
      as ((v & Ev & Hv) & Htv & (pq & Ep & H0 & Hp) & _).
    destruct (fold_add_finite (Forall_nonNegative_finite Htv) (inject_Z 0))
      as (s & Es & Hs).
    change (inject_Z 0) with 0%Q in Hs.
    change (Fin (inject_Z 0)) with (of_Z 0) in Es.
    unfold snapshot. cbv zeta. cbn [interest principal total].
    rewrite Es, Ev, Ep. cbn [add sub].
    rewrite <- round_zero.
    split; apply round_le; rewrite ?Qred_correct; lra.
Qed.

(** X3.  When the holdings, the amounts and the rates are finite and not
    negative, no snapshot has a principal or a total that is negative or
    [NaN]: both are at least 0. *)
Theorem no_snapshot_is_negative :
  forall (currentTotalValue : number) (projection : ProjectionParams),
    nonNegative currentTotalValue ->
    nonNegative (initialReturnRate projection) ->
    nonNegativeTargets (targets projection) ->
    forall snap,
      In snap (projectionData currentTotalValue projection) ->
      (of_Z 0 <=? principal snap) = true
      /\ (of_Z 0 <=? total snap) = true.
Proof.
  intros ctv p Hc Hr Hts snap Hin.
  apply nonNegative_Fin in Hc as (c & -> & Hc).
  exact (@snapshots_gain c p snap Hc Hr Hts Hin).
Qed.

(** *** Adding and removing targets *)

(** X10.  [addTarget] appends one target of 10,000 a month at 10% and
    touches nothing else: the total monthly contribution grows by
    10,000, and the projection gets no snapshot more or less. *)
Theorem adding_a_target :
  forall (now label : string) (p : ProjectionParams)
         (currentTotalValue : number),
    targets (addTarget now label p)
    = targets p ++ [ {| id := now; name := label;
                        monthlyAmount := of_Z 10000;
                        returnRate := of_Z 10 |} ]
    /\ totalMonthlyContribution (addTarget now label p)
       = totalMonthlyContribution p + of_Z 10000
    /\ firstn (length (targets p)) (targets (addTarget now label p))
       = targets p
    /\ length (targets (addTarget now label p)) = S (length (targets p))
    /\ years (addTarget now label p) = years p
    /\ initialReturnRate (addTarget now label p) = initialReturnRate p
    /\ length (projectionData currentTotalValue (addTarget now label p))
       = length (projectionData currentTotalValue p).
Proof.
  intros now label p ctv. unfold totalMonthlyContribution.
  cbn [addTarget targets years initialReturnRate].
  split; [reflexivity|].
  split; [now rewrite fold_left_app|].
  split; [now rewrite firstn_app, Nat.sub_diag, firstn_all, app_nil_r|].
  split; [rewrite length_app; cbn [length]; lia|].
  split; [reflexivity|]. split; [reflexivity|].
  rewrite !projectionData_unfold. cbn [length].
  now rewrite !length_map, !length_seq.
Qed.

(** X11.  [removeTarget] keeps exactly the targets with another id, and
    the horizon and the rate of the holdings.  An id that no target has
    changes nothing, neither with [removeTarget] nor with
    [updateTarget]. *)
Theorem removing_a_target :
  forall (id0 : string) (p : ProjectionParams),
    (forall t, In t (targets (removeTarget id0 p))
               <-> In t (targets p) /\ id t <> id0)
    /\ years (removeTarget id0 p) = years p
    /\ initialReturnRate (removeTarget id0 p) = initialReturnRate p
    /\ ((forall t, In t (targets p) -> id t <> id0) ->
        removeTarget id0 p = p
        /\ forall fv, updateTarget id0 fv p = p).
Proof.
  intros id0 p. split; [|split; [reflexivity|split; [reflexivity|]]].
  - intro t. cbn [removeTarget targets].
    rewrite filter_In, negb_true_iff, String.eqb_neq. tauto.
  - intro H. destruct p as [r y ts]. cbn [targets] in H.
    unfold removeTarget, updateTarget.
    cbn [targets years initialReturnRate].
    split; [|intro fv]; f_equal.
    + induction ts as [|t ts IH]; [reflexivity|]. cbn [filter].
      assert (E : String.eqb (id t) id0 = false)
        by (apply String.eqb_neq, H; now left).
      rewrite E. cbn [negb]. f_equal. apply IH.
      intros t' Ht'. apply H. now right.
    + rewrite <- (map_id ts) at 2. apply map_ext_in.
      intros t Hin. specialize (H t Hin).
      apply String.eqb_neq in H. now rewrite H.
Qed.

End ProjectionShape.

(** ** Holdings *)

Module PortfolioProofs.

Import Portfolio NumFacts.
Local Open Scope num_scope.

(** *** The total value *)

Lemma fold_value_finite portfolio :
  finiteHoldings portfolio ->
  forall q, exists q',
    fold_left (fun sum item => sum + quantity item * price item)
              portfolio (Fin q) = Fin q'
    /\ (q' == q + worth portfolio)%Q.
Proof.
  induction 1 as [|item rest [Fq Fp] _ IH]; intro q; cbn [fold_left worth].
  - exists q. split; [reflexivity | ring].
  - apply is_finite_Fin in Fq as [a Ea]. apply is_finite_Fin in Fp as [b Eb].
    rewrite Ea, Eb. cbn [mul add valQ].
    destruct (IH (Qred (q + Qred (a * b)))) as [q' [E Hq']].
    exists q'. split; [exact E|]. rewrite Hq', !Qred_correct. ring.
Qed.

Lemma currentTotalValue_worth portfolio :
  finiteHoldings portfolio ->
  exists q, currentTotalValue portfolio = Fin q /\ (q == worth portfolio)%Q.
Proof.
  intro H. destruct (fold_value_finite H (inject_Z 0)) as [q [E Hq]].
  exists q. split; [exact E|]. rewrite Hq. change (inject_Z 0) with 0%Q. ring.
Qed.

Lemma worth_nonNegative p : nonNegativeHoldings p -> (0 <= worth p)%Q.
Proof.
  induction 1 as [|item rest [[Fq Hq] [Fp Hp]] _ IH]; cbn [worth]; [lra|].
  apply is_finite_Fin in Fq as [a Ea]. apply is_finite_Fin in Fp as [b Eb].
  rewrite Ea, Eb in *. cbn [valQ]. unfold leb, of_Z in Hq, Hp.
  change (inject_Z 0) with 0%Q in Hq, Hp. apply Qle_bool_iff in Hq, Hp.
  assert (0 <= a * b)%Q by (apply Qmult_le_0_compat; assumption). lra.
Qed.

Lemma nonNegative_finiteHoldings p :
  nonNegativeHoldings p -> finiteHoldings p.
Proof. apply Forall_impl. intros item [[Fq _] [Fp _]]. now split. Qed.

Lemma currentTotalValue_nonNegative portfolio :
  nonNegativeHoldings portfolio -> nonNegative (currentTotalValue portfolio).
Proof.
  intro Hn.
  destruct (currentTotalValue_worth (nonNegative_finiteHoldings Hn))
    as [q [E Hq]].
  rewrite E. split; [reflexivity|].
  unfold leb, of_Z. change (inject_Z 0) with 0%Q. apply Qle_bool_iff.
  rewrite Hq. now apply worth_nonNegative.
Qed.

(** X5.  The total value is built holding by holding: a holding put at
    the end adds its quantity times its price.  It is at least 0 when no
    quantity and no price is negative. *)
Theorem total_value_is_the_sum_of_the_holdings :
  forall portfolio : list StockItem,
    (forall item,
        currentTotalValue (portfolio ++ [item])
        = currentTotalValue portfolio + quantity item * price item)
    /\ (nonNegativeHoldings portfolio ->
        (of_Z 0 <=? currentTotalValue portfolio) = true).
Proof.
  intro p. split.
  - intro item. unfold currentTotalValue. now rewrite fold_left_app.
  - intro H. exact (proj2 (currentTotalValue_nonNegative H)).
Qed.

(** *** Removing a holding *)

Lemma worth_filter (f : StockItem -> bool) p :
  nonNegativeHoldings p -> (worth (filter f p) <= worth p)%Q.
Proof.
  induction 1 as [|item rest Hitem Hrest IH]; cbn [filter worth]; [lra|].
  assert (H0 : (0 <= valQ (quantity item) * valQ (price item))%Q).
  { pose proof (@worth_nonNegative [item]) as H. cbn [worth] in H.
    assert (0 <= valQ (quantity item) * valQ (price item) + 0)%Q
      by (apply H; repeat constructor; apply Hitem).
    lra. }
  destruct (f item); cbn [worth]; lra.
Qed.

(** X6.  [handleRemoveStock] keeps exactly the holdings with another id,
    changes nothing when no holding has the id, changes nothing when
    repeated, and never raises the total value of holdings that are not
    negative. *)
Theorem removing_a_holding :
  forall (id0 : string) (portfolio : list StockItem),
    let kept := handleRemoveStock id0 portfolio in
    (forall item, In item kept <-> In item portfolio /\ id item <> id0)
    /\ ((forall item, In item portfolio -> id item <> id0) ->
        kept = portfolio)
    /\ handleRemoveStock id0 kept = kept
    /\ (nonNegativeHoldings portfolio ->
        (currentTotalValue kept <=? currentTotalValue portfolio) = true).
Proof.
  intros id0 p kept. unfold kept, handleRemoveStock.
  split; [|split; [|split]].
  - intro item. rewrite filter_In, negb_true_iff, String.eqb_neq. tauto.
  - intro H. induction p as [|item rest IH]; [reflexivity|].
    cbn [filter].
    assert (E : String.eqb (id item) id0 = false)
      by (apply String.eqb_neq, H; now left).
    rewrite E. cbn [negb]. f_equal. apply IH.
    intros i Hi. apply H. now right.
  - induction p as [|item rest IH]; [reflexivity|].
    cbn [filter]. destruct (negb (String.eqb (id item) id0)) eqn:E;
      [cbn [filter]; rewrite E; now f_equal | exact IH].
  - intro Hn.
    assert (Hk : nonNegativeHoldings
                   (filter (fun item => negb (String.eqb (id item) id0)) p)).
    { unfold nonNegativeHoldings in *. rewrite Forall_forall in *.
      intros item Hin. apply Hn. apply filter_In in Hin. tauto. }
    destruct (currentTotalValue_worth (nonNegative_finiteHoldings Hn))
      as [q [E Hq]].
    destruct (currentTotalValue_worth (nonNegative_finiteHoldings Hk))
      as [q' [E' Hq']].
    rewrite E, E'. unfold leb. apply Qle_bool_iff.
    rewrite Hq, Hq'. now apply worth_filter.
Qed.

Section Handlers.

Variable Number : string -> number.
Variable toUpperCase : string -> string.
Variable trim : string -> string.
Variable api : nat -> string -> ApiOutcome.

(** *** Adding a holding *)

(** X7.  [handleAddStock] leaves the portfolio as it is when the ticker
    or the quantity input is empty.  Otherwise it appends one holding;
    the total value grows by its quantity times its price, and when the
    price lookup fails the holding gets the price 100, marked as an
    estimate. *)
Theorem adding_a_holding :
  forall (now : string) (request : nat) (tickerInput qtyInput : string)
         (portfolio : list StockItem),
    let added := handleAddStock Number toUpperCase trim api now request
                                tickerInput qtyInput portfolio in
    (tickerInput = EmptyString \/ qtyInput = EmptyString ->
     added = portfolio)
    /\ (tickerInput <> EmptyString -> qtyInput <> EmptyString ->
        exists item,
          added = portfolio ++ [item]
          /\ id item = now
          /\ quantity item = Number qtyInput
          /\ currentTotalValue added
             = currentTotalValue portfolio + Number qtyInput * price item
          /\ (api request (toUpperCase (trim tickerInput)) = Failed ->
              price item = of_Z 100 /\ isEstimate item = Some true)).
Proof.
  intros now request tickerInput qtyInput p added. unfold added, handleAddStock.
  split.
  - intros [-> | ->]; [reflexivity|].
    now rewrite String.eqb_refl, orb_true_r.
  - intros Ht Hq.
    apply String.eqb_neq in Ht, Hq. rewrite Ht, Hq. cbn [orb].
    eexists. split; [reflexivity|]. cbn [id quantity price isEstimate].
    split; [reflexivity|]. split; [reflexivity|]. split.
    + unfold currentTotalValue. rewrite fold_left_app. reflexivity.
    + intro Hf. unfold getStockPrice. rewrite Hf. split; reflexivity.
Qed.

(** *** Editing a holding *)

(** X8.  A price change and a quantity change commute, whatever the two
    ids are.  Neither changes the ids; a price change keeps every
    quantity and a quantity change keeps every price; after a price
    change every holding with the id has the new price and is no longer
    an estimate; an id that no holding has changes nothing. *)
Theorem editing_price_and_quantity :
  forall (idP newPrice idQ newQuantity : string)
         (portfolio : list StockItem),
    handlePriceChange Number idP newPrice
      (handleQuantityChange Number idQ newQuantity portfolio)
    = handleQuantityChange Number idQ newQuantity
        (handlePriceChange Number idP newPrice portfolio)
    /\ map id (handlePriceChange Number idP newPrice portfolio)
       = map id portfolio
    /\ map quantity (handlePriceChange Number idP newPrice portfolio)
       = map quantity portfolio
    /\ map id (handleQuantityChange Number idQ newQuantity portfolio)
       = map id portfolio
    /\ map price (handleQuantityChange Number idQ newQuantity portfolio)
       = map price portfolio
    /\ (forall item,
          In item (handlePriceChange Number idP newPrice portfolio) ->
          id item = idP ->
          price item = Number newPrice /\ isEstimate item = Some false)
    /\ ((forall item, In item portfolio -> id item <> idP) ->
        handlePriceChange Number idP newPrice portfolio = portfolio).
Proof.
  intros idP newPrice idQ newQuantity p.
  unfold handlePriceChange, handleQuantityChange.
  split; [|split; [|split; [|split; [|split; [|split]]]]].
  - rewrite !map_map. apply map_ext. intro item.
    destruct (String.eqb (id item) idQ) eqn:EQ;
      destruct (String.eqb (id item) idP) eqn:EP;
      cbn [id]; rewrite ?EQ, ?EP; reflexivity.
  - rewrite map_map. apply map_ext. intro item.
    destruct (String.eqb (id item) idP); reflexivity.
  - rewrite map_map. apply map_ext. intro item.
    destruct (String.eqb (id item) idP); reflexivity.
  - rewrite map_map. apply map_ext. intro item.
    destruct (String.eqb (id item) idQ); reflexivity.
  - rewrite map_map. apply map_ext. intro item.
    destruct (String.eqb (id item) idQ); reflexivity.
  - intros item Hin Hid. apply in_map_iff in Hin as (old & <- & _).
    destruct (String.eqb (id old) idP) eqn:E; [split; reflexivity|].
    apply String.eqb_neq in E. contradiction.
  - intro H. rewrite <- (map_id p) at 2. apply map_ext_in.
    intros item Hin. specialize (H item Hin).
    apply String.eqb_neq in H. now rewrite H.
Qed.

(** *** Refreshing every price *)

Lemma updateAllPrices_map {B : Type} (f : StockItem -> B) p :
  forall request,
  (forall item result,
      f {| id := id item; ticker := ticker item; name := name item;
           quantity := quantity item; price := quotePrice result;
           isEstimate := quoteIsEstimate result |} = f item) ->
  map f (updateAllPrices toUpperCase trim api request p) = map f p.
Proof.
  induction p as [|item rest IH]; intros request Hf; [reflexivity|].
  cbn [updateAllPrices map]. rewrite (IH _ Hf). f_equal.
  destruct (_ >? of_Z 0); [apply Hf | reflexivity].
Qed.

(** X9.  [updateAllPrices] keeps the ids, the tickers and the quantities
    of the holdings in their order.  Prices that were all [> 0] stay all
    [> 0], as a price is only overwritten by a fetched price [> 0].  When
    every request fails, every holding ends with the fallback price 100,
    marked as an estimate. *)
Theorem refreshing_prices_keeps_the_holdings :
  forall (request : nat) (portfolio : list StockItem),
    let refreshed := updateAllPrices toUpperCase trim api request portfolio in
    map id refreshed = map id portfolio
    /\ map ticker refreshed = map ticker portfolio
    /\ map quantity refreshed = map quantity portfolio
    /\ (Forall (fun item => (price item >? of_Z 0) = true) portfolio ->
        Forall (fun item => (price item >? of_Z 0) = true) refreshed)
    /\ ((forall n t, api n t = Failed) ->
        Forall (fun item => price item = of_Z 100
                            /\ isEstimate item = Some true) refreshed).
Proof.
  intros request p refreshed. unfold refreshed. clear refreshed.
  split; [now apply updateAllPrices_map|].
  split; [now apply updateAllPrices_map|].
  split; [now apply updateAllPrices_map|].
  split.
  - intro H. revert request.
    induction H as [|item rest Hitem _ IH]; intro request;
      cbn [updateAllPrices]; constructor; [|apply IH].
    destruct (quotePrice
                (getStockPrice toUpperCase trim api request (ticker item))
              >? of_Z 0) eqn:E; [exact E | exact Hitem].
  - intro Hfail. revert request.
    induction p as [|item rest IH]; intro request;
      cbn [updateAllPrices]; constructor; [|apply IH].
    unfold getStockPrice. rewrite Hfail. cbn [quotePrice quoteIsEstimate].
    change (of_Z 100 >? of_Z 0) with true. cbv iota.
    split; reflexivity.
Qed.

End Handlers.

End PortfolioProofs.

(** ** More on single runs *)

Module RunProofs.

Import GK NumFacts GKProofs BatchProofs.
Local Open Scope num_scope.

(** *** The reported balance *)

Lemma Math_max_floor x : (Math_max (of_Z 0) x <? of_Z 0) = false.
Proof.
  destruct x as [| |q|]; try reflexivity.
  unfold Math_max, ltb, of_Z. change (inject_Z 0) with 0%Q.
  destruct (Qle_bool q 0) eqn:E; cbn [negb]; [reflexivity|].
  apply negb_false_iff, Qle_bool_iff. apply Qlt_le_weak, Qnot_le_lt.
  intro H. apply Qle_bool_iff in H. congruence.
Qed.

Lemma loop_reported_floor Math params n year pv w calls r :
  In r (loopRecords Math params n year pv w calls) ->
  (portfolioValue r <? of_Z 0) = false.
Proof.
  intro Hin. apply In_nth_error in Hin as [i Hnth].
  destruct (@loop_years Math params _ _ _ _ _ _ _ Hnth)
    as (next & (_ & Hpv & _) & _).
  rewrite Hpv. apply Math_max_floor.
Qed.

(** X12.  No record of a run reports a balance below 0: the balance is
    floored at 0 for reporting (and is [NaN] when the balance is). *)
Theorem reported_balance_is_never_negative :
  forall (Math : MathObject) (startingValue : number)
         (params : WithdrawalParams) (years calls : nat)
         (r : WithdrawalResult),
    In r (runRecords Math startingValue params years calls) ->
    (portfolioValue r <? of_Z 0) = false.
Proof.
  intros Math sv params years calls r. rewrite runRecords_loop.
  apply loop_reported_floor.
Qed.

(** *** Draws *)

Lemma yearLoop_calls Math params n : forall year pv w acc calls,
  snd (yearLoop Math params (initialRate params / of_Z 100)
                n year pv w acc calls)
  = (calls + 2 * length (loopRecords Math params n year pv w calls))%nat.
Proof.
  induction n as [|n IH]; intros year pv w acc calls.
  - cbn. lia.
  - rewrite yearLoop_S, loopRecords_S.
    destruct (yearBody params _ year pv w _) as [[result pv'] next].
    destruct (pv' <=? of_Z 0).
    + cbn [snd length]. lia.
    + rewrite IH. cbn [length]. lia.
Qed.

(** X13.  A run makes exactly two calls of [Math.random] for every
    record it returns. *)
Theorem a_run_takes_two_draws_per_record :
  forall (Math : MathObject) (startingValue : number)
         (params : WithdrawalParams) (years calls : nat),
    snd (runGKSimulation Math startingValue params years calls)
    = (calls
       + 2 * length (runRecords Math startingValue params years calls))%nat.
Proof.
  intros Math sv params years calls. rewrite runRecords_loop.
  unfold runGKSimulation. apply yearLoop_calls.
Qed.

(** *** Horizons *)

Lemma loopRecords_prefix Math params n extra : forall year pv w calls,
  loopRecords Math params n year pv w calls
  = firstn n (loopRecords Math params (n + extra) year pv w calls).
Proof.
  induction n as [|n IH]; intros year pv w calls; [reflexivity|].
  cbn [Nat.add]. rewrite !loopRecords_S.
  destruct (yearBody params _ year pv w _) as [[result pv'] next].
  cbn [firstn]. f_equal.
  destruct (pv' <=? of_Z 0); [now rewrite firstn_nil | apply IH].
Qed.

(** X14.  With the same draws, the run over [years] years is the first
    [years] records of the run over any longer horizon. *)
Theorem a_longer_horizon_extends_the_run :
  forall (Math : MathObject) (startingValue : number)
         (params : WithdrawalParams) (years extra calls : nat),
    runRecords Math startingValue params years calls
    = firstn years
             (runRecords Math startingValue params (years + extra) calls).
Proof.
  intros. rewrite !runRecords_loop. apply loopRecords_prefix.
Qed.

Lemma depleted_is_not_positive x :
  (x <=? of_Z 0) = true -> (x >? of_Z 0) = false.
Proof.
  destruct x as [| |q|]; try reflexivity; try discriminate.
  unfold leb, gtb, ltb, of_Z. intro H. now rewrite H.
Qed.

(** X15.  A run that counts as successful (its last record has a
    balance [> 0]) has a record for every year of the horizon. *)
Theorem a_successful_run_lasts_the_whole_horizon :
  forall (Math : MathObject) (startingValue : number)
         (params : WithdrawalParams) (years calls : nat),
    succeeded (runRecords Math startingValue params years calls) = true ->
    length (runRecords Math startingValue params years calls) = years.
Proof.
  intros Math sv params years calls Hs. rewrite runRecords_loop in *.
  pose proof (@loop_length Math params years 1 sv
                (sv * (initialRate params / of_Z 100)) calls) as Hle.
  destruct (Nat.eq_dec
              (length (loopRecords Math params years 1 sv
                         (sv * (initialRate params / of_Z 100)) calls))
              years) as [E | NE]; [exact E|].
  destruct (@loop_short_means_depleted Math params years 1 sv
              (sv * (initialRate params / of_Z 100)) calls)
    as (r & Hlast & Hdep); [lia|].
  rewrite last_elem_rev in Hlast. unfold succeeded in Hs.
  destruct (rev _) as [|final rest]; [discriminate Hs|].
  injection Hlast as ->.
  rewrite (depleted_is_not_positive _ Hdep) in Hs. discriminate Hs.
Qed.

(** *** No volatility *)

(** X16.  With a volatility of 0, a finite expected return and a finite
    deviate, the sampled return is [expectedAPY / 100]. *)
Theorem no_volatility_returns_the_expected_rate :
  forall (Math : MathObject) (params : WithdrawalParams) (calls : nat),
    volatility params = of_Z 0 ->
    is_finite (expectedAPY params) = true ->
    is_finite (deviate Math calls) = true ->
    sampledReturn Math params calls = expectedAPY params / of_Z 100.
Proof.
  intros Math params calls Hv Fa Fz. unfold sampledReturn.
  rewrite generateRandomReturn_eq, Hv. cbn [fst].
  apply is_finite_Fin in Fa as [a ->]. apply is_finite_Fin in Fz as [z ->].
  unfold of_Z. rewrite !div_Fin_nonzero by discriminate.
  cbn [mul add]. f_equal.
  apply Qred_complete. rewrite !Qred_correct.
  assert (H : (inject_Z 0 / inject_Z 100 == 0)%Q) by reflexivity.
  rewrite H. ring.
Qed.

(** *** A first withdrawal that takes everything *)

Lemma Math_max_of_depleted x :
  (x <=? of_Z 0) = true -> Math_max (of_Z 0) x = of_Z 0.
Proof.
  destruct x as [| |q|]; try reflexivity; try discriminate.
  unfold Math_max, leb, ltb, of_Z. change (inject_Z 0) with 0%Q.
  intro H. now rewrite H.
Qed.

(** X17.  When the starting value is finite and not negative, the first
    withdrawal is finite and takes the whole balance (an empty portfolio,
    or a rate of 100 or more), and the first return is finite and at
    least -100%, the run has a single record, which reports a balance of
    0, and the run does not count as successful. *)
Theorem a_run_that_starts_depleted_has_one_record :
  forall (Math : MathObject) (startingValue : number)
         (params : WithdrawalParams) (years calls : nat),
    let withdrawal := startingValue * (initialRate params / of_Z 100) in
    is_finite startingValue = true ->
    (of_Z 0 <=? startingValue) = true ->
    is_finite withdrawal = true ->
    (startingValue <=? withdrawal) = true ->
    is_finite (sampledReturn Math params calls) = true ->
    (of_Z (-1) <=? sampledReturn Math params calls) = true ->
    exists r,
      runRecords Math startingValue params (S years) calls = [r]
      /\ portfolioValue r = of_Z 0
      /\ withdrawalAmount r = withdrawal
      /\ succeeded (runRecords Math startingValue params (S years) calls)
         = false.
Proof.
  intros Math sv params years calls withdrawal Fsv _ Fw Hall Fret Hret.
  unfold withdrawal in *. clear withdrawal.
  rewrite runRecords_loop, loopRecords_S.
  destruct (yearBody_spec params 1 sv (sv * (initialRate params / of_Z 100))
                          (sampledReturn Math params calls))
    as (result & next & E & _ & Hw & _ & Hpv & _).
  rewrite E. rewrite Hw in Hpv.
  assert (Hdep : ((sv - sv * (initialRate params / of_Z 100))
                  * (of_Z 1 + sampledReturn Math params calls)
                  <=? of_Z 0) = true).
  { apply is_finite_Fin in Fsv as [s ->].
    apply is_finite_Fin in Fw as [w Ew]. rewrite Ew in *.
    apply is_finite_Fin in Fret as [q Eq]. rewrite Eq in *.
    unfold of_Z in *.
    cbn [mul sub add] in *. unfold leb in *. apply Qle_bool_iff in Hall, Hret.
    apply Qle_bool_iff. rewrite !Qred_correct in *.
    change (inject_Z (-1)) with (-1)%Q in Hret.
    change (inject_Z 1) with 1%Q. change (inject_Z 0) with 0%Q.
    nra. }
  rewrite Hdep. exists result.
  split; [reflexivity|]. rewrite Hpv, (Math_max_of_depleted _ Hdep).
  split; [reflexivity|]. split; [exact Hw|].
  unfold succeeded. cbn [rev app]. rewrite Hpv, (Math_max_of_depleted _ Hdep).
  reflexivity.
Qed.

End RunProofs.

(** ** Batches and their summaries *)

Module OrchestratorProofs.

Import GK Orchestrator NumFacts GKProofs BatchProofs RunProofs.
Local Open Scope num_scope.

(** *** The order of numbers that are not [NaN] *)

Lemma leb_refl x : is_nan x = false -> (x <=? x) = true.
Proof.
  destruct x as [| |q|]; try reflexivity; try discriminate.
  intros _. unfold leb. apply Qle_bool_iff, Qle_refl.
Qed.

Lemma leb_trans x y z :
  (x <=? y) = true -> (y <=? z) = true -> (x <=? z) = true.
Proof.
  destruct x as [| |a|], y as [| |b|], z as [| |c|];
    try reflexivity; try discriminate.
  unfold leb. rewrite !Qle_bool_iff. apply Qle_trans.
Qed.

Lemma leb_not_nan_l x y : (x <=? y) = true -> is_nan x = false.
Proof. destruct x, y; try reflexivity; discriminate. Qed.

Lemma Math_max_cases x y :
  is_nan x = false -> is_nan y = false ->
  (Math_max x y = x \/ Math_max x y = y)
  /\ (x <=? Math_max x y) = true /\ (y <=? Math_max x y) = true.
Proof.
  intros Hx Hy.
  assert (E : Math_max x y = if x <? y then y else x)
    by (destruct x, y; try discriminate; reflexivity).
  rewrite E. destruct (x <? y) eqn:L.
  - split; [now right|]. split; [|now apply leb_refl].
    now apply after_is_ge.
  - split; [now left|]. split; [now apply leb_refl|].
    now apply not_after_is_le.
Qed.

Lemma Math_min_cases x y :
  is_nan x = false -> is_nan y = false ->
  (Math_min x y = x \/ Math_min x y = y)
  /\ (Math_min x y <=? x) = true /\ (Math_min x y <=? y) = true.
Proof.
  intros Hx Hy.
  assert (E : Math_min x y = if y <? x then y else x)
    by (destruct x, y; try discriminate; reflexivity).
  rewrite E. destruct (y <? x) eqn:L.
  - split; [now right|]. split; [|now apply leb_refl].
    now apply after_is_ge.
  - split; [now left|]. split; [now apply leb_refl|].
    now apply not_after_is_le.
Qed.

Lemma fold_max a : forall m,
  is_nan m = false -> noNaN a ->
  let r := fold_left Math_max a m in
  (r = m \/ In r a)
  /\ (m <=? r) = true
  /\ Forall (fun x => (x <=? r) = true) a.
Proof.
  induction a as [|x a IH]; intros m Hm Ha; cbn [fold_left].
  - split; [now left|]. split; [now apply leb_refl | constructor].
  - inversion Ha as [|? ? Hx Ha']; subst.
    destruct (Math_max_cases m x Hm Hx) as (Hc & Hl & Hr).
    assert (Hn : is_nan (Math_max m x) = false)
      by (destruct Hc as [-> | ->]; assumption).
    destruct (IH (Math_max m x) Hn Ha') as (Hin & Hle & Hall).
    cbv zeta in *. split; [|split].
    + destruct Hin as [-> | Hin]; [|right; now right].
      destruct Hc as [-> | ->]; [now left | right; now left].
    + eapply leb_trans; eassumption.
    + constructor; [eapply leb_trans; eassumption | exact Hall].
Qed.

Lemma fold_min a : forall m,
  is_nan m = false -> noNaN a ->
  let r := fold_left Math_min a m in
  (r = m \/ In r a)
  /\ (r <=? m) = true
  /\ Forall (fun x => (r <=? x) = true) a.
Proof.
  induction a as [|x a IH]; intros m Hm Ha; cbn [fold_left].
  - split; [now left|]. split; [now apply leb_refl | constructor].
  - inversion Ha as [|? ? Hx Ha']; subst.
    destruct (Math_min_cases m x Hm Hx) as (Hc & Hl & Hr).
    assert (Hn : is_nan (Math_min m x) = false)
      by (destruct Hc as [-> | ->]; assumption).
    destruct (IH (Math_min m x) Hn Ha') as (Hin & Hle & Hall).
    cbv zeta in *. split; [|split].
    + destruct Hin as [-> | Hin]; [|right; now right].
      destruct Hc as [-> | ->]; [now left | right; now left].
    + eapply leb_trans; eassumption.
    + constructor; [eapply leb_trans; eassumption | exact Hall].
Qed.

Lemma max_of_nonempty a :
  a <> [] -> noNaN a ->
  In (Math_max_of a) a
  /\ Forall (fun x => (x <=? Math_max_of a) = true) a.
Proof.
  intros Hne Ha.
  destruct (@fold_max a NegInf eq_refl Ha) as (Hin & _ & Hall).
  split; [|exact Hall].
  destruct Hin as [E | Hin]; [|exact Hin].
  destruct a as [|x a]; [contradiction|].
  fold (Math_max_of (x :: a)) in E, Hall.
  inversion Hall as [|? ? Hx _]; subst. rewrite E in Hx.
  inversion Ha as [|? ? Nx _]; subst.
  destruct x; try discriminate. rewrite E. now left.
Qed.

Lemma min_of_nonempty a :
  a <> [] -> noNaN a ->
  In (Math_min_of a) a
  /\ Forall (fun x => (Math_min_of a <=? x) = true) a.
Proof.
  intros Hne Ha.
  destruct (@fold_min a PosInf eq_refl Ha) as (Hin & _ & Hall).
  split; [|exact Hall].
  destruct Hin as [E | Hin]; [|exact Hin].
  destruct a as [|x a]; [contradiction|].
  fold (Math_min_of (x :: a)) in E, Hall.
  inversion Hall as [|? ? Hx _]; subst. rewrite E in Hx.
  inversion Ha as [|? ? Nx _]; subst.
  destruct x; try discriminate. rewrite E. now left.
Qed.

(** X18.  For a batch that is not empty, the best and the worst case
    are terminal values of runs of the batch, every terminal value lies
    between them, and so does the median. *)
Theorem worst_median_best_are_ordered :
  forall sims : list (list WithdrawalResult),
    sims <> [] ->
    In (getBestCase sims) (terminalValues sims)
    /\ In (getWorstCase sims) (terminalValues sims)
    /\ Forall (fun v => (getWorstCase sims <=? v) = true
                        /\ (v <=? getBestCase sims) = true)
              (terminalValues sims)
    /\ exists median,
         calculateMedianFinal sims = Some median
         /\ In median (terminalValues sims)
         /\ (getWorstCase sims <=? median) = true
         /\ (median <=? getBestCase sims) = true.
Proof.
  intros sims Hne.
  assert (Ht : terminalValues sims <> []).
  { destruct sims; [contradiction | discriminate]. }
  pose proof (terminalValues_noNaN sims) as Hn.
  destruct (max_of_nonempty Ht Hn) as (Hbin & Hball).
  destruct (min_of_nonempty Ht Hn) as (Hwin & Hwall).
  fold (getBestCase sims) in Hbin, Hball.
  fold (getWorstCase sims) in Hwin, Hwall.
  assert (Hall : Forall (fun v => (getWorstCase sims <=? v) = true
                                  /\ (v <=? getBestCase sims) = true)
                        (terminalValues sims)).
  { rewrite Forall_forall in *. intros v Hv. split; auto. }
  split; [exact Hbin|]. split; [exact Hwin|]. split; [exact Hall|].
  set (sorted := sort (fun a b => a - b) (terminalValues sims)).
  assert (Hperm : Permutation (terminalValues sims) sorted)
    by apply sort_perm.
  assert (Hlen : (length sorted / 2 < length sorted)%nat).
  { apply Nat.div_lt; [|lia].
    rewrite <- (Permutation_length Hperm).
    destruct (terminalValues sims); [contradiction | simpl; lia]. }
  destruct (nth_error sorted (length sorted / 2)) as [v|] eqn:Ev;
    [|apply nth_error_None in Ev; lia].
  assert (Hv : In v (terminalValues sims)).
  { eapply Permutation_in; [symmetry; exact Hperm|].
    eapply nth_error_In; exact Ev. }
  exists v. split.
  { unfold calculateMedianFinal. fold sorted.
    rewrite array_get_half. exact Ev. }
  split; [exact Hv|].
  rewrite Forall_forall in Hall. exact (Hall v Hv).
Qed.

(** *** Batches without records *)

Lemma terminalValues_of_empty_runs n :
  terminalValues (repeat [] n) = repeat (of_Z 0) n.
Proof. induction n as [|n IH]; [reflexivity|]. cbn. now f_equal. Qed.

Lemma sort_zeros n :
  sort (fun a b => a - b) (repeat (of_Z 0) n) = repeat (of_Z 0) n.
Proof.
  induction n as [|n IH]; [reflexivity|].
  cbn [repeat]. unfold sort. cbn [fold_right].
  fold (sort (fun a b => a - b) (repeat (of_Z 0) n)). rewrite IH.
  destruct n; reflexivity.
Qed.

Lemma fold_max_zeros n :
  fold_left Math_max (repeat (of_Z 0) n) (of_Z 0) = of_Z 0.
Proof. induction n as [|n IH]; [reflexivity|]. exact IH. Qed.

Lemma fold_min_zeros n :
  fold_left Math_min (repeat (of_Z 0) n) (of_Z 0) = of_Z 0.
Proof. induction n as [|n IH]; [reflexivity|]. exact IH. Qed.

Lemma filter_succeeded_empty_runs n :
  filter succeeded (repeat ([] : list WithdrawalResult) n) = [].
Proof. induction n as [|n IH]; [reflexivity|]. exact IH. Qed.

(** X19.  The summaries of a batch without records.  Of an empty batch,
    the success rate is [NaN], the median is undefined, the best case is
    [-Infinity] and the worst case [Infinity].  Of a batch of runs that
    are all empty (a horizon of 0 years), the success rate, the median,
    the best and the worst case are all 0. *)
Theorem summaries_of_batches_without_records :
  (calculateSuccessRate [] = NaN
   /\ calculateMedianFinal [] = None
   /\ getBestCase [] = NegInf
   /\ getWorstCase [] = PosInf)
  /\ forall n,
       let sims := repeat ([] : list WithdrawalResult) (S n) in
       calculateSuccessRate sims = of_Z 0
       /\ calculateMedianFinal sims = Some (of_Z 0)
       /\ getBestCase sims = of_Z 0
       /\ getWorstCase sims = of_Z 0.
Proof.
  split; [repeat split; reflexivity|].
  intros n sims. unfold sims. split; [|split; [|split]].
  - unfold calculateSuccessRate. rewrite successful_filter.
    rewrite filter_succeeded_empty_runs, repeat_length.
    destruct (@round_percentage 0 (Z.of_nat (S n))) as (k & E & H1 & H2);
      [lia|].
    change (of_nat (length (@nil (list WithdrawalResult)))) with (of_Z 0).
    unfold of_nat. rewrite E. f_equal.
    assert (H : (inject_Z 0 / inject_Z (Z.of_nat (S n)) * 100 == 0)%Q).
    { unfold Qdiv. change (inject_Z 0) with 0%Q. ring. }
    rewrite H in H1, H2.
    assert (Hk1 : (inject_Z (-1) < inject_Z k)%Q)
      by (change (inject_Z (-1)) with (-1)%Q; lra).
    assert (Hk2 : (inject_Z k < inject_Z 1)%Q)
      by (change (inject_Z 1) with 1%Q; lra).
    rewrite <- Zlt_Qlt in Hk1, Hk2. lia.
  - unfold calculateMedianFinal.
    rewrite terminalValues_of_empty_runs, sort_zeros, array_get_half.
    rewrite repeat_length.
    apply nth_error_repeat. apply Nat.div_lt; lia.
  - unfold getBestCase, Math_max_of.
    rewrite terminalValues_of_empty_runs. cbn [repeat fold_left].
    apply fold_max_zeros.
  - unfold getWorstCase, Math_min_of.
    rewrite terminalValues_of_empty_runs. cbn [repeat fold_left].
    apply fold_min_zeros.
Qed.

(** *** Batches of runs *)

Section Batches.

Variable Math : MathObject.

Lemma terminal_value_of_a_run sv params years calls :
  (of_Z 0
   <=? or_else (option_map portfolioValue
                  (last_elem (runRecords Math sv params years calls)))
               (of_Z 0)) = true.
Proof.
  destruct (last_elem (runRecords Math sv params years calls)) as [r|] eqn:E;
    [|reflexivity].
  cbn [option_map or_else].
  assert (Hin : In r (runRecords Math sv params years calls)).
  { rewrite last_elem_rev in E.
    apply in_rev. destruct (rev _) as [|x l]; [discriminate E|].
    injection E as ->. now left. }
  rewrite runRecords_loop in Hin. apply loop_reported_floor in Hin.
  destruct (truthy (portfolioValue r)) eqn:T; [|reflexivity].
  destruct (portfolioValue r) as [| |q|]; try discriminate; try reflexivity.
  unfold ltb, leb, of_Z in *. apply negb_false_iff in Hin. exact Hin.
Qed.

Lemma batchFrom_terminal n sv params : forall calls,
  Forall (fun v => (of_Z 0 <=? v) = true)
         (terminalValues (batchFrom Math n sv params calls)).
Proof.
  induction n as [|n IH]; intro calls; cbn [batchFrom terminalValues map];
    constructor; [apply terminal_value_of_a_run | apply IH].
Qed.

Lemma batchFrom_length n sv params : forall calls,
  length (batchFrom Math n sv params calls) = n.
Proof.
  induction n as [|n IH]; intro calls; cbn [batchFrom length]; auto.
Qed.

Lemma batchFrom_run_length n sv params : forall calls,
  Forall (fun run => (length run <= years params)%nat)
         (batchFrom Math n sv params calls).
Proof.
  induction n as [|n IH]; intro calls; cbn [batchFrom]; constructor;
    [|apply IH].
  rewrite runRecords_loop. apply loop_length.
Qed.

Lemma simulate_batchFrom n sv params : forall acc calls,
  simulate Math n sv params acc calls
  = (acc ++ batchFrom Math n sv params calls,
     (calls + 2 * length (concat (batchFrom Math n sv params calls)))%nat).
Proof.
  induction n as [|n IH]; intros acc calls.
  - cbn [simulate batchFrom concat length ret]. unfold ret.
    rewrite app_nil_r, Nat.mul_0_r, Nat.add_0_r. reflexivity.
  - cbn [simulate batchFrom]. unfold bind.
    rewrite (surjective_pairing
               (runGKSimulation Math sv params (years params) calls)).
    fold (runRecords Math sv params (years params) calls).
    rewrite IH. unfold runGKSimulation. rewrite yearLoop_calls.
    rewrite <- runRecords_loop, <- app_assoc. cbn [app concat].
    rewrite length_app. f_equal. lia.
Qed.

Lemma passes_of_nat n : passes (of_nat n) = Some n.
Proof.
  unfold passes, of_nat, of_Z. rewrite Qceiling_Z. now rewrite Nat2Z.id.
Qed.

(** X20.  When [simulations] is the whole number [n],
    [handleRunSimulation] returns [n] runs, each of at most [years]
    records and each from the same starting value; a run starts at the
    draw after the last draw of the run before it, and the batch has
    taken two draws for every record in it. *)
Theorem a_batch_has_one_run_per_simulation :
  forall (currentTotalValue : number)
         (projection : Projection.ProjectionParams)
         (withdrawalParams : WithdrawalParams) (n calls : nat),
    simulations withdrawalParams = of_nat n ->
    exists batch,
      handleRunSimulation Math currentTotalValue projection withdrawalParams
      = Some batch
      /\ fst (batch calls)
         = batchFrom Math n (startingValueOf currentTotalValue projection)
                     withdrawalParams calls
      /\ length (fst (batch calls)) = n
      /\ Forall (fun run => (length run <= years withdrawalParams)%nat)
                (fst (batch calls))
      /\ snd (batch calls)
         = (calls + 2 * length (concat (fst (batch calls))))%nat.
Proof.
  intros ctv projection params n calls Hn.
  unfold handleRunSimulation. rewrite Hn, passes_of_nat.
  eexists. split; [reflexivity|].
  rewrite simulate_batchFrom. cbn [fst snd app].
  split; [reflexivity|]. split; [apply batchFrom_length|].
  split; [apply batchFrom_run_length | reflexivity].
Qed.

(** X21.  In a batch of runs of the simulator, no terminal value is
    below 0 or [NaN]; the worst case is at least 0, and so are the best
    case and the median when the batch is not empty. *)
Theorem a_batch_of_runs_has_no_negative_summary :
  forall (startingValue : number) (withdrawalParams : WithdrawalParams)
         (n calls : nat),
    let sims := batchFrom Math n startingValue withdrawalParams calls in
    Forall (fun v => (of_Z 0 <=? v) = true) (terminalValues sims)
    /\ (of_Z 0 <=? getWorstCase sims) = true
    /\ (n <> 0%nat ->
        (of_Z 0 <=? getBestCase sims) = true
        /\ exists median, calculateMedianFinal sims = Some median
                          /\ (of_Z 0 <=? median) = true).
Proof.
  intros sv params n calls sims.
  pose proof (batchFrom_terminal n sv params calls) as Hall.
  fold sims in Hall. split; [exact Hall|].
  pose proof (terminalValues_noNaN sims) as Hn.
  split.
  - destruct (@fold_min (terminalValues sims) PosInf eq_refl Hn)
      as (Hin & _ & _).
    fold (Math_min_of (terminalValues sims)) in Hin.
    fold (getWorstCase sims) in Hin.
    destruct Hin as [-> | Hin]; [reflexivity|].
    rewrite Forall_forall in Hall. now apply Hall.
  - intro Hne.
    assert (Hs : sims <> []).
    { unfold sims. destruct n; [contradiction | discriminate]. }
    assert (Ht : terminalValues sims <> []).
    { destruct sims; [contradiction | discriminate]. }
    destruct (max_of_nonempty Ht Hn) as (Hbin & _).
    fold (getBestCase sims) in Hbin.
    rewrite Forall_forall in Hall. split; [now apply Hall|].
    set (sorted := sort (fun a b => a - b) (terminalValues sims)).
    assert (Hperm : Permutation (terminalValues sims) sorted)
      by apply sort_perm.
    assert (Hlen : (length sorted / 2 < length sorted)%nat).
    { apply Nat.div_lt; [|lia].
      rewrite <- (Permutation_length Hperm).
      destruct (terminalValues sims); [contradiction | simpl; lia]. }
    destruct (nth_error sorted (length sorted / 2)) as [v|] eqn:Ev;
      [|apply nth_error_None in Ev; lia].
    exists v. split.
    + unfold calculateMedianFinal. fold sorted.
      rewrite array_get_half. exact Ev.
    + apply Hall. eapply Permutation_in; [symmetry; exact Hperm|].
      eapply nth_error_In; exact Ev.
Qed.

End Batches.

(** *** The starting value *)

Lemma last_snapshot ctv (p : Projection.ProjectionParams) :
  exists snap,
    last_elem (Projection.projectionData ctv p) = Some snap
    /\ In snap (Projection.projectionData ctv p)
    /\ Projection.year snap = of_nat (Projection.years p).
Proof.
  rewrite ProjectionProofs.projectionData_unfold.
  unfold last_elem. cbn [length]. rewrite length_map, length_seq.
  destruct (Projection.years p) as [|k].
  - eexists. split; [reflexivity|]. split; [now left | reflexivity].
  - cbn [nth_error]. rewrite nth_error_map, nth_error_seq.
    destruct (Nat.ltb_spec k (S k)); [|lia]. cbn [option_map].
    eexists. split; [reflexivity|]. split; [|reflexivity].
    right. apply in_map_iff. exists (1 + k)%nat. split; [reflexivity|].
    apply in_seq. lia.
Qed.

(** X22.  [handleRunSimulation] starts every run from the current total
    value when the projection horizon is 0, and otherwise from the
    rounded total of the last snapshot, unless that total is 0 or [NaN],
    where it falls back to the current total value.  With holdings,
    amounts and rates that are finite and not negative, the starting
    value is at least 0. *)
Theorem the_simulation_starts_from_the_projected_total :
  forall (portfolio : list Portfolio.StockItem)
         (projection : Projection.ProjectionParams),
    let currentTotalValue := Portfolio.currentTotalValue portfolio in
    (Projection.years projection = 0%nat ->
     startingValueOf currentTotalValue projection = currentTotalValue)
    /\ (Projection.years projection <> 0%nat ->
        exists snap,
          last_elem (Projection.projectionData currentTotalValue projection)
          = Some snap
          /\ Projection.year snap = of_nat (Projection.years projection)
          /\ startingValueOf currentTotalValue projection
             = (if truthy (Projection.total snap)
                then Projection.total snap else currentTotalValue))
    /\ (Portfolio.nonNegativeHoldings portfolio ->
        nonNegative (Projection.initialReturnRate projection) ->
        Targets.nonNegativeTargets (Projection.targets projection) ->
        (of_Z 0 <=? startingValueOf currentTotalValue projection) = true).
Proof.
  intros portfolio p ctv. unfold startingValueOf.
  split; [|split].
  - intros ->. reflexivity.
  - intro Hy. apply Nat.eqb_neq in Hy. rewrite Hy.
    destruct (last_snapshot ctv p) as (snap & E & _ & Hyear).
    exists snap. rewrite E. repeat split; auto.
  - intros Hh Hr Ht.
    pose proof (PortfolioProofs.currentTotalValue_nonNegative Hh) as Hc.
    fold ctv in Hc.
    destruct (Nat.eqb (Projection.years p) 0); [exact (proj2 Hc)|].
    destruct (last_snapshot ctv p) as (snap & E & Hin & _).
    rewrite E. cbn [option_map or_else].
    destruct (truthy (Projection.total snap)); [|exact (proj2 Hc)].
    destruct (ProjectionShape.nonNegative_Fin Hc) as (c & Ec & Hc0).
    rewrite Ec in Hin.
    exact (proj2 (@ProjectionShape.snapshots_gain c p snap Hc0 Hr Ht Hin)).
Qed.

(** *** Bounds of the success rate *)

(** X23.  For a batch that is not empty, the success rate is a whole
    number between 0 and 100; it is 0 when no run succeeded and 100 when
    every run did. *)
Theorem success_rate_is_a_percentage :
  forall sims : list (list WithdrawalResult),
    sims <> [] ->
    exists k : Z,
      calculateSuccessRate sims = of_Z k
      /\ (0 <= k <= 100)%Z
      /\ (successCount sims = 0%nat -> k = 0%Z)
      /\ (successCount sims = length sims -> k = 100%Z).
Proof.
  intros sims Hne.
  assert (Hn : (0 < Z.of_nat (length sims))%Z)
    by (destruct sims; [contradiction | simpl; lia]).
  assert (Hc : (successCount sims <= length sims)%nat)
    by apply filter_length_le.
  unfold calculateSuccessRate. rewrite successful_filter.
  fold (successCount sims). unfold of_nat.
  destruct (round_percentage (Z.of_nat (successCount sims)) Hn)
    as (k & E & H1 & H2).
  exists k. split; [exact E|].
  set (c := inject_Z (Z.of_nat (successCount sims))) in *.
  set (n := inject_Z (Z.of_nat (length sims))) in *.
  assert (Hn0 : (0 < n)%Q).
  { unfold n. change 0%Q with (inject_Z 0). now rewrite <- Zlt_Qlt. }
  assert (Hc0 : (0 <= c)%Q).
  { unfold c. change 0%Q with (inject_Z 0). rewrite <- Zle_Qle. lia. }
  assert (Hcn : (c <= n)%Q).
  { unfold c, n. rewrite <- Zle_Qle. lia. }
  assert (Hx0 : (0 <= c / n)%Q).
  { apply Qle_shift_div_l; [exact Hn0|]. now rewrite Qmult_0_l. }
  assert (Hx1 : (c / n <= 1)%Q).
  { apply Qle_shift_div_r; [exact Hn0|]. now rewrite Qmult_1_l. }
  assert (K : forall a b : Z,
             (inject_Z a < inject_Z b)%Q -> (a < b)%Z)
    by (intros a b H; now rewrite Zlt_Qlt).
  split; [|split].
  - split.
    + assert (H : (-1 < k)%Z)
        by (apply K; change (inject_Z (-1)) with (-1)%Q; lra).
      lia.
    + assert (H : (k < 101)%Z)
        by (apply K; change (inject_Z 101) with 101%Q; lra).
      lia.
  - intro H0.
    assert (Ez : (c == 0)%Q) by (unfold c; rewrite H0; reflexivity).
    assert (Ex : (c / n == 0)%Q) by (rewrite Ez; unfold Qdiv; ring).
    rewrite Ex in H1, H2.
    assert (Ha : (-1 < k)%Z)
      by (apply K; change (inject_Z (-1)) with (-1)%Q; lra).
    assert (Hb : (k < 1)%Z)
      by (apply K; change (inject_Z 1) with 1%Q; lra).
    lia.
  - intro Hall.
    assert (Ex : (c / n == 1)%Q).
    { unfold c. rewrite Hall. fold n. field. lra. }
    rewrite Ex in H1, H2.
    assert (Ha : (99 < k)%Z)
      by (apply K; change (inject_Z 99) with 99%Q; lra).
    assert (Hb : (k < 101)%Z)
      by (apply K; change (inject_Z 101) with 101%Q; lra).
    lia.
Qed.

End OrchestratorProofs.

(** ** Worked instances *)

(** *** The plan: projection, targets and holdings *)

Module PlanExamples.

Import Samples.
Local Open Scope string_scope.
Local Open Scope num_scope.

Lemma horizon_zero_projection :
  Projection.years
    {| Projection.initialReturnRate := of_Z 5; Projection.years := 0;
       Projection.targets := [] |} = 0%nat
  /\ Projection.projectionData (dec 51 2)
       {| Projection.initialReturnRate := of_Z 5; Projection.years := 0;
          Projection.targets := [] |}
     = [ {| Projection.year := of_Z 0; Projection.principal := of_Z 26;
            Projection.interest := of_Z 0; Projection.total := of_Z 26 |} ].
Proof.
  split; [reflexivity|].
  exact (proj2 (proj2 (ProjectionShape.projection_has_one_snapshot_per_year
                         (dec 51 2)
                         {| Projection.initialReturnRate := of_Z 5;
                            Projection.years := 0;
                            Projection.targets := [] |})) eq_refl).
Defined.

Lemma sample_projection_is_not_negative :
  let year2 := {| Projection.year := of_Z 2; Projection.principal := of_Z 3400;
                  Projection.interest := of_Z 261;
                  Projection.total := of_Z 3661 |} in
  nonNegative (of_Z 1000)
  /\ nonNegative (Projection.initialReturnRate Projection.sampleProjection)
  /\ Targets.nonNegativeTargets
       (Projection.targets Projection.sampleProjection)
  /\ In year2 (Projection.projectionData (of_Z 1000)
                                         Projection.sampleProjection)
  /\ (of_Z 0 <=? Projection.principal year2) = true
  /\ (of_Z 0 <=? Projection.total year2) = true.
Proof.
  cbv zeta.
  assert (C : nonNegative (of_Z 1000)) by (split; reflexivity).
  assert (R : nonNegative
                (Projection.initialReturnRate Projection.sampleProjection))
    by (split; reflexivity).
  assert (T : Targets.nonNegativeTargets
                (Projection.targets Projection.sampleProjection))
    by (repeat constructor).
  assert (I : In {| Projection.year := of_Z 2;
                    Projection.principal := of_Z 3400;
                    Projection.interest := of_Z 261;
                    Projection.total := of_Z 3661 |}
                 (Projection.projectionData (of_Z 1000)
                                            Projection.sampleProjection))
    by (vm_compute; right; right; left; reflexivity).
  split; [exact C|]. split; [exact R|]. split; [exact T|]. split; [exact I|].
  exact (@ProjectionShape.no_snapshot_is_negative
           (of_Z 1000) Projection.sampleProjection C R T _ I).
Defined.

Lemma unknown_target_id :
  (forall t, In t (Projection.targets flatProjection) ->
             Projection.id t <> "7")
  /\ Targets.removeTarget "7" flatProjection = flatProjection.
Proof.
  assert (H : forall t, In t (Projection.targets flatProjection) ->
                        Projection.id t <> "7").
  { intros t [<- | []]. discriminate. }
  split; [exact H|].
  exact (proj1 (proj2 (proj2 (proj2
           (ProjectionShape.removing_a_target "7" flatProjection))) H)).
Defined.

Lemma total_of_two_holdings :
  Portfolio.nonNegativeHoldings twoHoldings
  /\ Portfolio.currentTotalValue twoHoldings = of_Z 555
  /\ (of_Z 0 <=? Portfolio.currentTotalValue twoHoldings) = true.
Proof.
  assert (N : Portfolio.nonNegativeHoldings twoHoldings)
    by (repeat constructor).
  split; [exact N|]. split; [vm_compute; reflexivity|].
  exact (proj2 (PortfolioProofs.total_value_is_the_sum_of_the_holdings
                  twoHoldings) N).
Defined.

Lemma removing_from_two_holdings :
  Portfolio.nonNegativeHoldings twoHoldings
  /\ (forall item, In item twoHoldings -> Portfolio.id item <> "7")
  /\ Portfolio.handleRemoveStock "7" twoHoldings = twoHoldings
  /\ (Portfolio.currentTotalValue (Portfolio.handleRemoveStock "1" twoHoldings)
      <=? Portfolio.currentTotalValue twoHoldings) = true.
Proof.
  assert (N : Portfolio.nonNegativeHoldings twoHoldings)
    by (repeat constructor).
  assert (H : forall item, In item twoHoldings -> Portfolio.id item <> "7").
  { intros item [<- | [<- | []]]; discriminate. }
  split; [exact N|]. split; [exact H|]. split.
  - exact (proj1 (proj2 (PortfolioProofs.removing_a_holding "7" twoHoldings))
             H).
  - exact (proj2 (proj2 (proj2
             (PortfolioProofs.removing_a_holding "1" twoHoldings))) N).
Defined.

Lemma adding_to_two_holdings :
  "" = "" 
  /\ Portfolio.handleAddStock readAsTwo asIs asIs noAnswer "9" 0
                              "" "5" twoHoldings
     = twoHoldings
  /\ "CCC" <> "" /\ "5" <> ""
  /\ noAnswer 0 (asIs (asIs "CCC")) = Portfolio.Failed
  /\ Portfolio.currentTotalValue
       (Portfolio.handleAddStock readAsTwo asIs asIs noAnswer "9" 0
                                 "CCC" "5" twoHoldings)
     = of_Z 755.
Proof.
  split; [reflexivity|]. split.
  - apply (proj1 (PortfolioProofs.adding_a_holding
                    readAsTwo asIs asIs noAnswer "9" 0 "" "5" twoHoldings)).
    now left.
  - assert (T : "CCC" <> "") by discriminate.
    assert (Q : "5" <> "") by discriminate.
    split; [exact T|]. split; [exact Q|]. split; [reflexivity|].
    destruct (proj2 (PortfolioProofs.adding_a_holding
                       readAsTwo asIs asIs noAnswer "9" 0 "CCC" "5"
                       twoHoldings) T Q)
      as (item & _ & _ & Hq & Htotal & Hfail).
    rewrite Htotal. destruct (Hfail eq_refl) as [-> _].
    vm_compute. reflexivity.
Defined.

Lemma editing_two_holdings :
  (forall item, In item twoHoldings -> Portfolio.id item <> "7")
  /\ Portfolio.handlePriceChange readAsTwo "7" "3" twoHoldings = twoHoldings
  /\ forall item,
       In item (Portfolio.handlePriceChange readAsTwo "1" "3" twoHoldings) ->
       Portfolio.id item = "1" ->
       Portfolio.price item = readAsTwo "3"
       /\ Portfolio.isEstimate item = Some false.
Proof.
  assert (H : forall item, In item twoHoldings -> Portfolio.id item <> "7").
  { intros item [<- | [<- | []]]; discriminate. }
  split; [exact H|]. split.
  - exact (proj2 (proj2 (proj2 (proj2 (proj2 (proj2
             (PortfolioProofs.editing_price_and_quantity
                readAsTwo "7" "3" "1" "4" twoHoldings)))))) H).
  - exact (proj1 (proj2 (proj2 (proj2 (proj2 (proj2
             (PortfolioProofs.editing_price_and_quantity
                readAsTwo "1" "3" "1" "4" twoHoldings))))))).
Defined.

Lemma refreshing_two_holdings :
  Forall (fun item => (Portfolio.price item >? of_Z 0) = true) twoHoldings
  /\ (forall n t, noAnswer n t = Portfolio.Failed)
  /\ Forall (fun item => (Portfolio.price item >? of_Z 0) = true)
            (Portfolio.updateAllPrices asIs asIs noAnswer 0 twoHoldings)
  /\ Forall (fun item => Portfolio.price item = of_Z 100
                         /\ Portfolio.isEstimate item = Some true)
            (Portfolio.updateAllPrices asIs asIs noAnswer 0 twoHoldings).
Proof.
  assert (P : Forall (fun item => (Portfolio.price item >? of_Z 0) = true)
                     twoHoldings) by (repeat constructor).
  assert (N : forall n t, noAnswer n t = Portfolio.Failed) by reflexivity.
  split; [exact P|]. split; [exact N|]. split.
  - exact (proj1 (proj2 (proj2 (proj2
             (PortfolioProofs.refreshing_prices_keeps_the_holdings
                asIs asIs noAnswer 0 twoHoldings)))) P).
  - exact (proj2 (proj2 (proj2 (proj2
             (PortfolioProofs.refreshing_prices_keeps_the_holdings
                asIs asIs noAnswer 0 twoHoldings)))) N).
Defined.

End PlanExamples.

(** *** Runs and batches *)

Module RunExamples.

Import GK Orchestrator Samples.
Local Open Scope num_scope.

Lemma depleting_run_last_balance :
  let Math := sampleMath (fun _ => Fin (1 # 2)) in
  let rs := runRecords Math (of_Z 100) depletingParams 5 0 in
  exists r,
    nth_error rs 2 = Some r
    /\ In r rs
    /\ portfolioValue r = of_Z 0
    /\ (portfolioValue r <? of_Z 0) = false.
Proof.
  cbv zeta.
  destruct (nth_error (runRecords (sampleMath (fun _ => Fin (1 # 2)))
                                  (of_Z 100) depletingParams 5 0) 2)
    as [r|] eqn:E; [|vm_compute in E; discriminate].
  exists r.
  assert (I : In r (runRecords (sampleMath (fun _ => Fin (1 # 2)))
                               (of_Z 100) depletingParams 5 0))
    by exact (nth_error_In _ _ E).
  split; [reflexivity|]. split; [exact I|]. split.
  - vm_compute in E. injection E as <-. reflexivity.
  - exact (@RunProofs.reported_balance_is_never_negative
             (sampleMath (fun _ => Fin (1 # 2))) (of_Z 100) depletingParams
             5 0 r I).
Defined.

Lemma example_run_lasts_five_years :
  let Math := sampleMath (fun _ => Fin (1 # 2)) in
  succeeded (runRecords Math (of_Z 1000) exampleParams 5 0) = true
  /\ length (runRecords Math (of_Z 1000) exampleParams 5 0) = 5%nat.
Proof.
  cbv zeta.
  assert (S : succeeded (runRecords (sampleMath (fun _ => Fin (1 # 2)))
                                    (of_Z 1000) exampleParams 5 0) = true)
    by (vm_compute; reflexivity).
  split; [exact S|].
  exact (@RunProofs.a_successful_run_lasts_the_whole_horizon
           (sampleMath (fun _ => Fin (1 # 2))) (of_Z 1000) exampleParams
           5 0 S).
Defined.

Lemma three_runs_return_seven_percent :
  let Math := sampleMath (fun _ => Fin (1 # 2)) in
  volatility threeRuns = of_Z 0
  /\ is_finite (expectedAPY threeRuns) = true
  /\ is_finite (deviate Math 0) = true
  /\ sampledReturn Math threeRuns 0 = dec 7 100.
Proof.
  cbv zeta.
  assert (V : volatility threeRuns = of_Z 0) by reflexivity.
  assert (A : is_finite (expectedAPY threeRuns) = true) by reflexivity.
  assert (D : is_finite (deviate (sampleMath (fun _ => Fin (1 # 2))) 0)
              = true) by (vm_compute; reflexivity).
  split; [exact V|]. split; [exact A|]. split; [exact D|].
  rewrite (@RunProofs.no_volatility_returns_the_expected_rate
             (sampleMath (fun _ => Fin (1 # 2))) threeRuns 0 V A D).
  vm_compute. reflexivity.
Defined.

Lemma spending_all_has_one_record :
  let Math := sampleMath (fun _ => Fin (1 # 2)) in
  let withdrawal := of_Z 1000 * (initialRate spendingAll / of_Z 100) in
  is_finite (of_Z 1000) = true
  /\ (of_Z 0 <=? of_Z 1000) = true
  /\ is_finite withdrawal = true
  /\ (of_Z 1000 <=? withdrawal) = true
  /\ is_finite (sampledReturn Math spendingAll 0) = true
  /\ (of_Z (-1) <=? sampledReturn Math spendingAll 0) = true
  /\ exists r,
       runRecords Math (of_Z 1000) spendingAll 5 0 = [r]
       /\ portfolioValue r = of_Z 0
       /\ withdrawalAmount r = withdrawal
       /\ succeeded (runRecords Math (of_Z 1000) spendingAll 5 0) = false.
Proof.
  cbv zeta.
  assert (F : is_finite (of_Z 1000) = true) by reflexivity.
  assert (P : (of_Z 0 <=? of_Z 1000) = true) by reflexivity.
  assert (Fw : is_finite (of_Z 1000 * (initialRate spendingAll / of_Z 100))
               = true) by reflexivity.
  assert (W : (of_Z 1000 <=? of_Z 1000 * (initialRate spendingAll / of_Z 100))
              = true) by (vm_compute; reflexivity).
  assert (S : is_finite (sampledReturn (sampleMath (fun _ => Fin (1 # 2)))
                                       spendingAll 0) = true)
    by (vm_compute; reflexivity).
  assert (L : (of_Z (-1) <=? sampledReturn (sampleMath (fun _ => Fin (1 # 2)))
                                           spendingAll 0) = true)
    by (vm_compute; reflexivity).
  split; [exact F|]. split; [exact P|]. split; [exact Fw|].
  split; [exact W|]. split; [exact S|]. split; [exact L|].
  exact (@RunProofs.a_run_that_starts_depleted_has_one_record
           (sampleMath (fun _ => Fin (1 # 2))) (of_Z 1000) spendingAll 4 0
           F P Fw W S L).
Defined.

Lemma four_runs_between_one_and_four :
  fourRuns <> []
  /\ getWorstCase fourRuns = of_Z 1
  /\ getBestCase fourRuns = of_Z 4
  /\ Forall (fun v => (getWorstCase fourRuns <=? v) = true
                      /\ (v <=? getBestCase fourRuns) = true)
            (terminalValues fourRuns).
Proof.
  assert (H : fourRuns <> []) by discriminate.
  split; [exact H|].
  split; [vm_compute; reflexivity|]. split; [vm_compute; reflexivity|].
  exact (proj1 (proj2 (proj2
           (@OrchestratorProofs.worst_median_best_are_ordered fourRuns H)))).
Defined.

Lemma three_runs_make_a_batch :
  let Math := sampleMath (fun _ => Fin (1 # 2)) in
  simulations threeRuns = of_nat 3
  /\ exists batch,
       handleRunSimulation Math (of_Z 1000) flatProjection threeRuns
       = Some batch
       /\ length (fst (batch 0%nat)) = 3%nat
       /\ snd (batch 0%nat) = 30%nat.
Proof.
  cbv zeta.
  assert (N : simulations threeRuns = of_nat 3) by reflexivity.
  split; [exact N|].
  destruct (@OrchestratorProofs.a_batch_has_one_run_per_simulation
              (sampleMath (fun _ => Fin (1 # 2))) (of_Z 1000) flatProjection
              threeRuns 3 0 N)
    as (batch & Hb & Hfrom & Hlen & _ & Hcalls).
  exists batch. split; [exact Hb|]. split; [exact Hlen|].
  rewrite Hcalls, Hfrom. vm_compute. reflexivity.
Defined.

Lemma three_runs_summaries_not_negative :
  let Math := sampleMath (fun _ => Fin (1 # 2)) in
  let sims := batchFrom Math 3 (of_Z 1000) threeRuns 0 in
  3%nat <> 0%nat
  /\ (of_Z 0 <=? getWorstCase sims) = true
  /\ (of_Z 0 <=? getBestCase sims) = true
  /\ exists median, calculateMedianFinal sims = Some median
                    /\ (of_Z 0 <=? median) = true.
Proof.
  cbv zeta.
  assert (N : 3%nat <> 0%nat) by discriminate.
  split; [exact N|].
  destruct (@OrchestratorProofs.a_batch_of_runs_has_no_negative_summary
              (sampleMath (fun _ => Fin (1 # 2))) (of_Z 1000) threeRuns 3 0)
    as (_ & W & B).
  split; [exact W|]. exact (B N).
Defined.

Lemma starting_value_of_two_holdings :
  Projection.years flatProjection <> 0%nat
  /\ Portfolio.nonNegativeHoldings twoHoldings
  /\ nonNegative (Projection.initialReturnRate flatProjection)
  /\ Targets.nonNegativeTargets (Projection.targets flatProjection)
  /\ startingValueOf (Portfolio.currentTotalValue twoHoldings) flatProjection
     = of_Z 4155
  /\ (of_Z 0 <=? startingValueOf (Portfolio.currentTotalValue twoHoldings)
                                 flatProjection) = true.
Proof.
  assert (Y : Projection.years flatProjection <> 0%nat) by discriminate.
  assert (H : Portfolio.nonNegativeHoldings twoHoldings)
    by (repeat constructor).
  assert (R : nonNegative (Projection.initialReturnRate flatProjection))
    by (split; reflexivity).
  assert (T : Targets.nonNegativeTargets (Projection.targets flatProjection))
    by (repeat constructor).
  split; [exact Y|]. split; [exact H|]. split; [exact R|]. split; [exact T|].
  destruct (@OrchestratorProofs.the_simulation_starts_from_the_projected_total
              twoHoldings flatProjection) as (_ & Hlast & Hsign).
  split; [|exact (Hsign H R T)].
  destruct (Hlast Y) as (snap & Hsnap & _ & ->).
  vm_compute in Hsnap. injection Hsnap as <-. vm_compute. reflexivity.
Defined.

Lemma success_rate_of_four_runs_is_a_percentage :
  fourRuns <> []
  /\ successCount fourRuns = length fourRuns
  /\ calculateSuccessRate fourRuns = of_Z 100.
Proof.
  assert (H : fourRuns <> []) by discriminate.
  assert (A : successCount fourRuns = length fourRuns)
    by (vm_compute; reflexivity).
  split; [exact H|]. split; [exact A|].
  destruct (@OrchestratorProofs.success_rate_is_a_percentage fourRuns H)
    as (k & -> & _ & _ & Hall).
  rewrite (Hall A). reflexivity.
Defined.

End RunExamples.
